(** * Containability imagination: the sphere-drop test, the pouring test and
      the arm controller

    A shallow embedding of
    - [containability/containability.py] (class [Containability]),
    - [paper/figure4.py]                 (class [BottlePour]),
    - [ur5_robot/imaginebot_withgripper.py] (class [ImaginebotWithGripper]),
    and the properties their specification states about them, followed by
    further properties of the code itself: its failures, the traces of its
    runs, the joint table, the joint limit filter and the gripper.

    Conventions of the embedding.
    - Python floats are real numbers ([R]): rounding, infinities and NaN are
      not modelled.  Python ints are [Z]; [len] is a [nat].
    - A function that can raise returns a [Py.result]; [try]/[except] is a
      [match] on it.
    - The physics engine (pybullet) is an external collaborator: its rigid
      body state is an abstract type that the engine's calls transform, and
      every state-changing call is also appended to a log, so that what the
      program asks of the engine can be stated and proved.
    - numpy's global random generator is a stream of draws in the
      environment, consumed in order. *)

From Stdlib Require Import Reals Lra Lia ZArith List String Bool Zfloor FinFun.
Import ListNotations.
Open Scope R_scope.

(* ================================================================== *)
(** * Part I: the programs                                             *)
(* ================================================================== *)

(** ** Python values, exceptions and loops *)

Module Py.

Inductive exn : Type :=
| ZeroDivisionError
| IndexError
| KeyError
| ValueError
| TypeError.

Inductive result (A : Type) : Type :=
| Ok (a : A)
| Raise (e : exn).

Arguments Ok {A} a.
Arguments Raise {A} e.

Definition bind {A B : Type} (m : result A) (k : A -> result B) : result B :=
  match m with
  | Ok a => k a
  | Raise e => Raise e
  end.

Notation "x <- m ;; k" := (bind m (fun x => k))
  (at level 61, m at next level, right associativity).

(** Comparisons of floats, as booleans. *)
Definition ltb (a b : R) : bool := if Rlt_dec a b then true else false.
Definition leb (a b : R) : bool := if Rle_dec a b then true else false.

(** [a / b] on floats (true division): raises on a zero divisor. *)
Definition truediv (a b : R) : result R :=
  if Req_dec_T b 0 then Raise ZeroDivisionError else Ok (a / b).

(** [a % b] on ints: the sign of the result follows the divisor, as
    [Z.modulo] does. *)
Definition mod_ (a b : Z) : result Z :=
  if (b =? 0)%Z then Raise ZeroDivisionError else Ok (a mod b)%Z.

(** [math.floor], [math.sqrt] and [int()] of a float. *)
Definition math_floor (x : R) : Z := Zfloor x.

Definition math_sqrt (x : R) : result R :=
  if Rlt_dec x 0 then Raise ValueError else Ok (sqrt x).

Definition int_ (x : R) : Z :=
  if Rle_dec 0 x then Zfloor x else Zceil x.

(** [range(n)]. *)
Definition range (n : Z) : list Z := map Z.of_nat (seq 0 (Z.to_nat n)).

(** [l[k]]: negative indices count from the end, anything else out of
    range raises [IndexError]. *)
Definition getitem {A : Type} (l : list A) (k : Z) : result A :=
  let n := Z.of_nat (List.length l) in
  let k' := if (k <? 0)%Z then (k + n)%Z else k in
  if (k' <? 0)%Z then Raise IndexError
  else match nth_error l (Z.to_nat k') with
       | Some a => Ok a
       | None => Raise IndexError
       end.

(** [for i in l: s = body(i, s)], stopping at the first exception. *)
Fixpoint for_each {St A : Type} (l : list A) (body : A -> St -> result St)
  (s : St) : result St :=
  match l with
  | [] => Ok s
  | a :: l' =>
      match body a s with
      | Ok s' => for_each l' body s'
      | Raise e => Raise e
      end
  end.

Definition for_range {St : Type} (n : Z) (body : Z -> St -> result St) (s : St)
  : result St :=
  for_each (range n) body s.

(** [np.linspace(start, stop, num)]: [num] samples, [k * step + start] with
    [step = (stop - start) / (num - 1)]; a single sample is [start]; a
    negative [num] is refused. *)
Definition linspace (start stop : R) (num : Z) : result (list R) :=
  if (num <? 0)%Z then Raise ValueError
  else
    let div := (num - 1)%Z in
    let delta := stop - start in
    let y := map IZR (range num) in
    let y := if (0 <? div)%Z
             then map (fun k => k * (delta / IZR div)) y
             else map (fun k => k * delta) y in
    Ok (map (fun v => v + start) y).

End Py.

(** ** The physics engine *)

Module Bullet.

Definition vec3 : Type := (R * R * R)%type.

Definition vx (v : vec3) : R := fst (fst v).
Definition vy (v : vec3) : R := snd (fst v).
Definition vz (v : vec3) : R := snd v.

(** [p.getAABB] gives [(min corner, max corner)]. *)
Definition aabb : Type := (vec3 * vec3)%type.

(** A quaternion is only ever built with [p.getQuaternionFromEuler] and
    handed back to the engine, so it is kept as the Euler angles it was
    built from. *)
Inductive orientation : Type :=
| QuaternionFromEuler (roll pitch yaw : R).

(** The state-changing calls the programs make.  Calls that only move the
    debug camera, start a video or sleep are left out: they do not touch
    the rigid bodies. *)
Inductive call : Type :=
| SetGravity (gx gy gz : R)
| LoadURDF (fileName : string) (basePosition : vec3)
    (baseOrientation : orientation) (useFixedBase : bool)
| ChangeDynamics (body : nat) (settings : list (string * R))
| ResetBasePositionAndOrientation (body : nat) (posObj : vec3)
    (ornObj : orientation)
| CreateConstraint (parent : nat) (parentFramePosition : vec3)
    (childFramePosition : vec3)
    (parentFrameOrientation childFrameOrientation : option orientation)
| ChangeConstraint (constraint : nat) (pivot : vec3)
    (jointChildFrameOrientation : orientation) (maxForce : R)
| SetCollisionFilterPair (bodyA bodyB : nat) (enable : bool)
| RemoveBody (body : nat)
| StepSimulation
| Disconnect.

(** What the programs rely on from their environment: the engine, and
    numpy's random generator as the stream of its draws. *)
Record Env : Type := {
  physics : Type;
  connect : physics;
  effect : call -> physics -> physics;
  returned : call -> physics -> nat;
  getAABB : nat -> physics -> aabb;
  getBasePositionAndOrientation : nat -> physics -> vec3 * orientation;
  random_random : nat -> R
}.

(** The process-wide connection: the engine state, the log of the calls
    made so far (oldest first) and the number of random draws consumed. *)
Record World (E : Env) : Type := {
  phys : physics E;
  calls : list call;
  drawn : nat
}.

Arguments phys {E} w.
Arguments calls {E} w.
Arguments drawn {E} w.

Definition p_connect (E : Env) : World E :=
  {| phys := connect E; calls := []; drawn := 0 |}.

Definition invoke {E : Env} (c : call) (w : World E) : World E :=
  {| phys := effect E c (phys w);
     calls := calls w ++ [c];
     drawn := drawn w |}.

(** A call whose return value (a body or constraint id) is used. *)
Definition invoke_id {E : Env} (c : call) (w : World E) : nat * World E :=
  (returned E c (phys w), invoke c w).

(** [np.random.random()]. *)
Definition np_random {E : Env} (w : World E) : R * World E :=
  (random_random E (drawn w),
   {| phys := phys w; calls := calls w; drawn := S (drawn w) |}).

(** The gravity the engine applies after a sequence of calls: the last one
    set, and none before the first [setGravity]. *)
Definition gravity_after (cs : list call) : vec3 :=
  fold_left (fun g c => match c with
                        | SetGravity gx gy gz => (gx, gy, gz)
                        | _ => g
                        end) cs (0, 0, 0).

Arguments gravity_after cs : simpl never.

End Bullet.

(** ** containability/containability.py *)

Module Containability.

Import Py Bullet.

Definition sphere_urdf : string :=
  "/home/hongtao/Dropbox/spirit-dictionary/dataset/general_object/sphere_mini.urdf".

(** The hyperparameters [__init__] sets and nothing changes afterwards. *)
Definition sphere_num : Z := 225.
Definition sphere_in_percentage_threshold : R := 0.2.
Definition sphere_restitution : R := 0.0.
Definition object_restitution : R := 0.0.
Definition plane_restitution : R := 0.0.
Definition simulation_iteration : Z := 1000.

(** The attributes of a [Containability] object that change, and the
    connection it owns. *)
Record Self (E : Env) : Type := {
  sphere_id : list nat;
  sphere_drop_orn : orientation;
  sphere_drop_pos : list vec3;
  sphere_in_drop_pos : list vec3;
  plane_id : nat;
  obj_id : nat;
  obj_curr_aabb : aabb;
  containability : bool;
  world : World E
}.

Arguments sphere_id {E} s.
Arguments sphere_drop_orn {E} s.
Arguments sphere_drop_pos {E} s.
Arguments sphere_in_drop_pos {E} s.
Arguments plane_id {E} s.
Arguments obj_id {E} s.
Arguments obj_curr_aabb {E} s.
Arguments containability {E} s.
Arguments world {E} s.

Section Methods.

Context {E : Env}.

Definition set_world (w : World E) (self : Self E) : Self E :=
  {| sphere_id := sphere_id self;
     sphere_drop_orn := sphere_drop_orn self;
     sphere_drop_pos := sphere_drop_pos self;
     sphere_in_drop_pos := sphere_in_drop_pos self;
     plane_id := plane_id self;
     obj_id := obj_id self;
     obj_curr_aabb := obj_curr_aabb self;
     containability := containability self;
     world := w |}.

Definition set_sphere_id (l : list nat) (self : Self E) : Self E :=
  {| sphere_id := l;
     sphere_drop_orn := sphere_drop_orn self;
     sphere_drop_pos := sphere_drop_pos self;
     sphere_in_drop_pos := sphere_in_drop_pos self;
     plane_id := plane_id self;
     obj_id := obj_id self;
     obj_curr_aabb := obj_curr_aabb self;
     containability := containability self;
     world := world self |}.

Definition set_sphere_drop_pos (l : list vec3) (self : Self E) : Self E :=
  {| sphere_id := sphere_id self;
     sphere_drop_orn := sphere_drop_orn self;
     sphere_drop_pos := l;
     sphere_in_drop_pos := sphere_in_drop_pos self;
     plane_id := plane_id self;
     obj_id := obj_id self;
     obj_curr_aabb := obj_curr_aabb self;
     containability := containability self;
     world := world self |}.

Definition set_sphere_in_drop_pos (l : list vec3) (self : Self E) : Self E :=
  {| sphere_id := sphere_id self;
     sphere_drop_orn := sphere_drop_orn self;
     sphere_drop_pos := sphere_drop_pos self;
     sphere_in_drop_pos := l;
     plane_id := plane_id self;
     obj_id := obj_id self;
     obj_curr_aabb := obj_curr_aabb self;
     containability := containability self;
     world := world self |}.

Definition set_containability (b : bool) (self : Self E) : Self E :=
  {| sphere_id := sphere_id self;
     sphere_drop_orn := sphere_drop_orn self;
     sphere_drop_pos := sphere_drop_pos self;
     sphere_in_drop_pos := sphere_in_drop_pos self;
     plane_id := plane_id self;
     obj_id := obj_id self;
     obj_curr_aabb := obj_curr_aabb self;
     containability := b;
     world := world self |}.

(** [p.<call>(...)] on the object's connection. *)
Definition p_ (c : call) (self : Self E) : Self E :=
  set_world (invoke c (world self)) self.

(** [__init__]: connect, gravity, plane, object (moved to the height
    [0.1 - z] when its box starts at a height [z] of 10 cm or less), and
    the constraint that pins it. *)
Definition init (obj_urdf : string) (obj_zero_pos obj_zero_orn : vec3)
  : Self E :=
  let w := p_connect E in
  let w := invoke (SetGravity 0 0 (-10)) w in
  let '(plane, w) :=
    invoke_id (LoadURDF "plane.urdf" (0, 0, 0) (QuaternionFromEuler 0 0 0)
                 false) w in
  let w := invoke (ChangeDynamics plane [("restitution"%string,
                                          plane_restitution)]) w in
  let orn := QuaternionFromEuler (vx obj_zero_orn) (vy obj_zero_orn)
               (vz obj_zero_orn) in
  let '(obj, w) := invoke_id (LoadURDF obj_urdf obj_zero_pos orn true) w in
  let w := invoke (ChangeDynamics obj [("restitution"%string,
                                        object_restitution)]) w in
  let box := getAABB E obj (phys w) in
  let '(box, w) :=
    if leb (vz (fst box)) 0.1
    then
      let w := invoke (ResetBasePositionAndOrientation obj
                         (0, 0, - vz (fst box) + 0.1) orn) w in
      (getAABB E obj (phys w), w)
    else (box, w) in
  let w := invoke (CreateConstraint obj (0, 0, 0) obj_zero_pos
                     (Some (QuaternionFromEuler 0 0 0)) (Some orn)) w in
  {| sphere_id := [];
     sphere_drop_orn := QuaternionFromEuler 0 0 0;
     sphere_drop_pos := [];
     sphere_in_drop_pos := [];
     plane_id := plane;
     obj_id := obj;
     obj_curr_aabb := box;
     containability := false;
     world := w |}.

(** [load_sphere]: one body per probe, its id appended to [sphere_id]. *)
Definition load_one_sphere (i : Z) (self : Self E) : result (Self E) :=
  let '(sphere, w) :=
    invoke_id (LoadURDF sphere_urdf (0, 0, 0) (QuaternionFromEuler 0 0 0)
                 false) (world self) in
  let w := invoke (ChangeDynamics sphere [("restitution"%string,
                                           sphere_restitution)]) w in
  Ok (set_sphere_id (sphere_id self ++ [sphere]) (set_world w self)).

Definition load_sphere (self : Self E) : result (Self E) :=
  for_range sphere_num load_one_sphere self.

(** The footprint of the box: its centre and its extent on x and y. *)
Definition xy_center (box : aabb) : R * R :=
  ((vx (fst box) + vx (snd box)) / 2, (vy (fst box) + vy (snd box)) / 2).

Definition xy_range (box : aabb) : R * R :=
  (Rabs (vx (fst box) - vx (snd box)), Rabs (vy (fst box) - vy (snd box))).

(** [x_sphere_num] and [y_sphere_num]: the columns and rows of the drop
    lattice. *)
Definition grid_dims (box : aabb) : result (Z * Z) :=
  let obj_aabb_xy_range := xy_range box in
  q <- truediv (IZR sphere_num)
         (fst obj_aabb_xy_range * snd obj_aabb_xy_range) ;;
  sphere_per_length <- math_sqrt q ;;
  Ok (math_floor (sphere_per_length * fst obj_aabb_xy_range),
      math_floor (sphere_per_length * snd obj_aabb_xy_range)).

(** The [try]/[except] of the placement loop: the lattice point when both
    indices are in range, else a random point in a higher layer. *)
Definition sphere_start_pos (sphere_drop_x sphere_drop_y : list R)
  (sphere_drop_z : R) (obj_aabb_xy_center obj_aabb_xy_range : R * R)
  (x_idx y_idx : Z) (w : World E) : vec3 * World E :=
  match (x <- getitem sphere_drop_x x_idx ;;
         y <- getitem sphere_drop_y y_idx ;;
         Ok (x, y, sphere_drop_z)) with
  | Ok pos => (pos, w)
  | Raise _ =>
      let '(u, w) := np_random w in
      let '(v, w) := np_random w in
      ((fst obj_aabb_xy_center + u * fst obj_aabb_xy_range / 2,
        snd obj_aabb_xy_center + v * snd obj_aabb_xy_range / 2,
        sphere_drop_z + 0.05), w)
  end.

(** One iteration of the placement loop.  The two index computations come
    before the [try]. *)
Definition place_sphere (x_sphere_num : Z) (sphere_drop_x sphere_drop_y : list R)
  (sphere_drop_z : R) (obj_aabb_xy_center obj_aabb_xy_range : R * R)
  (i : Z) (self : Self E) : result (Self E) :=
  q <- truediv (IZR i) (IZR x_sphere_num) ;;
  let y_idx := math_floor q in
  x_idx <- mod_ i x_sphere_num ;;
  let '(pos, w) :=
    sphere_start_pos sphere_drop_x sphere_drop_y sphere_drop_z
      obj_aabb_xy_center obj_aabb_xy_range x_idx y_idx (world self) in
  let self := set_sphere_drop_pos (sphere_drop_pos self ++ [pos])
                (set_world w self) in
  sphere <- getitem (sphere_id self) i ;;
  Ok (p_ (ResetBasePositionAndOrientation sphere pos (sphere_drop_orn self))
        self).

Definition reset_sphere_drop (obj_curr_aabb : aabb) (self : Self E)
  : result (Self E) :=
  let obj_aabb_xy_center := xy_center obj_curr_aabb in
  let obj_aabb_xy_range := xy_range obj_curr_aabb in
  let sphere_drop_z := vz (snd obj_curr_aabb) + 0.01 in
  dims <- grid_dims obj_curr_aabb ;;
  let x_sphere_num := fst dims in
  let y_sphere_num := snd dims in
  xs <- linspace (- fst obj_aabb_xy_range / 2) (fst obj_aabb_xy_range / 2)
          x_sphere_num ;;
  let sphere_drop_x := map (fun v => v + fst obj_aabb_xy_center) xs in
  ys <- linspace (- snd obj_aabb_xy_range / 2) (snd obj_aabb_xy_range / 2)
          y_sphere_num ;;
  let sphere_drop_y := map (fun v => v + snd obj_aabb_xy_center) ys in
  let self := set_sphere_drop_pos [] self in
  for_range sphere_num
    (place_sphere x_sphere_num sphere_drop_x sphere_drop_y sphere_drop_z
       obj_aabb_xy_center obj_aabb_xy_range) self.

(** The box test of [checkincup]: centre and half extents of the box and
    the position, all magnified 100 times, compared axis by axis. *)
Definition in_box (obj_curr_aabb : aabb) (pos : vec3) : bool :=
  let lo := fst obj_curr_aabb in
  let hi := snd obj_curr_aabb in
  let obj_aabb_center :=
    ((vx lo + vx hi) / 2 * 100, (vy lo + vy hi) / 2 * 100,
     (vz lo + vz hi) / 2 * 100) in
  let obj_aabb_half_range :=
    (Rabs (vx lo - vx hi) * 100 / 2, Rabs (vy lo - vy hi) * 100 / 2,
     Rabs (vz lo - vz hi) * 100 / 2) in
  let sphere_pos := (vx pos * 100, vy pos * 100, vz pos * 100) in
  let distance_to_center :=
    (Rabs (vx sphere_pos - vx obj_aabb_center),
     Rabs (vy sphere_pos - vy obj_aabb_center),
     Rabs (vz sphere_pos - vz obj_aabb_center)) in
  ltb (vx distance_to_center) (vx obj_aabb_half_range)
  && ltb (vy distance_to_center) (vy obj_aabb_half_range)
  && ltb (vz distance_to_center) (vz obj_aabb_half_range).

Definition check_one (obj_curr_aabb : aabb) (i : Z) (self : Self E)
  : result (Self E) :=
  sphere <- getitem (sphere_id self) i ;;
  let sphere_pos :=
    fst (getBasePositionAndOrientation E sphere (phys (world self))) in
  if in_box obj_curr_aabb sphere_pos
  then
    drop <- getitem (sphere_drop_pos self) i ;;
    Ok (set_sphere_in_drop_pos (sphere_in_drop_pos self ++ [drop]) self)
  else Ok self.

Definition checkincup (obj_curr_aabb : aabb) (self : Self E)
  : result (nat * Self E) :=
  let self := set_sphere_in_drop_pos [] self in
  self <- for_range sphere_num (check_one obj_curr_aabb) self ;;
  Ok (List.length (sphere_in_drop_pos self), self).

(** The [if]/[elif] chain of the loop of [get_containability]: the gravity
    to set at the end of iteration [i], if any. *)
Definition agitation (i : Z) : option call :=
  let T := IZR simulation_iteration in
  if ((int_ (1 * T / 5) <? i) && (i <? int_ (1 * T / 2)))%Z
  then
    let horizontal_field_strength :=
      5 + 5 * sin (PI / 2 * IZR (i - int_ (T / 5)) / IZR (int_ (3 * T / 10)))
    in Some (SetGravity horizontal_field_strength horizontal_field_strength
               (-10))
  else if ((int_ (1 * T / 2) <=? i) && (i <? int_ (3 * T / 5)))%Z
  then Some (SetGravity 10 10 (-10))
  else if ((int_ (3 * T / 5) <=? i) && (i <? int_ (9 * T / 10)))%Z
  then
    let horizontal_field_strength :=
      -5 - 5 * sin (PI / 2 * IZR (i - int_ (3 * T / 5))
                    / IZR (int_ (3 * T / 10)))
    in Some (SetGravity horizontal_field_strength horizontal_field_strength
               (-10))
  else if (int_ (9 * T / 10) <=? i)%Z
  then Some (SetGravity (-10) (-10) (-10))
  else None.

(** One iteration of that loop: a simulation step, the measurement in the
    middle of the run (its count [sphere_in_num] is never read), and the
    gravity for the steps to come. *)
Definition shake_step (i : Z) (self : Self E) : result (Self E) :=
  let T := IZR simulation_iteration in
  let self := p_ StepSimulation self in
  self <- (if (i =? int_ (1 * T / 5))%Z
           then r <- checkincup (obj_curr_aabb self) self ;; Ok (snd r)
           else Ok self) ;;
  match agitation i with
  | Some set_gravity => Ok (p_ set_gravity self)
  | None => Ok self
  end.

Definition get_containability (self : Self E) : result (bool * Self E) :=
  self <- load_sphere self ;;
  self <- reset_sphere_drop (obj_curr_aabb self) self ;;
  self <- for_range simulation_iteration shake_step self ;;
  r <- checkincup (obj_curr_aabb self) self ;;
  let sphere_in_box_num := fst r in
  let self := snd r in
  sphere_num_percentage <- truediv (INR sphere_in_box_num) (IZR sphere_num) ;;
  let self := p_ Disconnect self in
  if ltb sphere_in_percentage_threshold sphere_num_percentage
  then Ok (true, set_containability true self)
  else Ok (false, set_containability false self).

End Methods.

End Containability.

(** ** What the specification says of the drop lattice, stated on boxes *)

Module LatticeSpec.

Import Py Bullet Containability.

(** The [k]-th of [n] evenly spaced coordinates that span an interval of
    length [r] centred on [c]; when [n = 1] the only one ([k = 0]) is the
    lower end [c - r / 2]. *)
Definition grid_coord (c r : R) (n k : Z) : R :=
  c - r / 2 + IZR k * (r / IZR (n - 1)).

(** The grid dimensions, as the specification gives them:
    [d = sqrt (N / (x_range * y_range))], [nx = floor (d * x_range)] and
    [ny = floor (d * y_range)]. *)
Definition density (box : aabb) : R :=
  sqrt (IZR sphere_num / (fst (xy_range box) * snd (xy_range box))).

Definition columns (box : aabb) : Z := Zfloor (density box * fst (xy_range box)).

Definition rows (box : aabb) : Z := Zfloor (density box * snd (xy_range box)).

(** The lattice point of probe [i] on a grid of [nx] columns and [ny]
    rows, 1 cm above the box. *)
Definition lattice_pos (box : aabb) (nx ny i : Z) : vec3 :=
  (grid_coord (fst (xy_center box)) (fst (xy_range box)) nx (i mod nx),
   grid_coord (snd (xy_center box)) (snd (xy_range box)) ny (i / nx),
   vz (snd box) + 0.01).

(** The fallback point for the draws [u] and [v]. *)
Definition fallback_pos (box : aabb) (u v : R) : vec3 :=
  (fst (xy_center box) + u * fst (xy_range box) / 2,
   snd (xy_center box) + v * snd (xy_range box) / 2,
   vz (snd box) + 0.01 + 0.05).

(** Where probe [i] is put: on the lattice while the lattice has room, at
    a fallback point made of two consecutive draws afterwards. *)
Definition placed (E : Env) (box : aabb) (nx ny i : Z) (pos : vec3) : Prop :=
  ((i < nx * ny)%Z -> pos = lattice_pos box nx ny i)
  /\ ((nx * ny <= i)%Z ->
      exists k : nat,
        pos = fallback_pos box (random_random E k) (random_random E (S k))).

(** A position is over the footprint of the box. *)
Definition over_footprint (box : aabb) (pos : vec3) : Prop :=
  fst (xy_center box) - fst (xy_range box) / 2 <= vx pos
    <= fst (xy_center box) + fst (xy_range box) / 2
  /\ snd (xy_center box) - snd (xy_range box) / 2 <= vy pos
    <= snd (xy_center box) + snd (xy_range box) / 2.

(** The generator yields numbers in [[0, 1)]. *)
Definition unit_draws (E : Env) : Prop :=
  forall k : nat, 0 <= random_random E k < 1.

(** What [reset_sphere_drop] leaves of the object it was called on: only
    the drop positions, the body poses and the generator move. *)
Definition same_object {E : Env} (self self' : Self E) : Prop :=
  sphere_id self' = sphere_id self
  /\ sphere_drop_orn self' = sphere_drop_orn self
  /\ sphere_in_drop_pos self' = sphere_in_drop_pos self
  /\ obj_id self' = obj_id self
  /\ obj_curr_aabb self' = obj_curr_aabb self
  /\ gravity_after (calls (world self')) = gravity_after (calls (world self)).

End LatticeSpec.

(** ** What the specification says of the measurement and of the verdict *)

Module ContainSpec.

Import Py Bullet Containability.

(** A probe at [pos] is in the box: on every axis its distance to the
    centre of the box is strictly below the half extent, all lengths
    magnified 100 times. *)
Definition inside (box : aabb) (pos : vec3) : Prop :=
  Rabs (vx pos * 100 - (vx (fst box) + vx (snd box)) / 2 * 100)
    < Rabs (vx (fst box) - vx (snd box)) * 100 / 2
  /\ Rabs (vy pos * 100 - (vy (fst box) + vy (snd box)) / 2 * 100)
    < Rabs (vy (fst box) - vy (snd box)) * 100 / 2
  /\ Rabs (vz pos * 100 - (vz (fst box) + vz (snd box)) / 2 * 100)
    < Rabs (vz (fst box) - vz (snd box)) * 100 / 2.


(** The position the engine reports for probe [i]. *)
Definition sphere_pos {E : Env} (ids : list nat) (ph : physics E) (i : Z)
  : vec3 :=
  fst (getBasePositionAndOrientation E (nth (Z.to_nat i) ids 0%nat) ph).

(** The probes in the box, by index, in increasing order. *)
Definition contained {E : Env} (box : aabb) (ids : list nat) (ph : physics E)
  : list Z :=
  filter (fun i => in_box box (sphere_pos ids ph i)) (range sphere_num).

Definition drop_pos_of (drops : list vec3) (i : Z) : vec3 :=
  nth (Z.to_nat i) drops (0, 0, 0).

(** The verdict for [n] probes retained: the retained fraction is
    strictly above the threshold. *)
Definition verdict (n : nat) : bool :=
  ltb sphere_in_percentage_threshold (INR n / IZR sphere_num).

(** The world after the first [n] iterations of the agitation, with no
    measurement taken on the way. *)
Definition agitate_world {E : Env} (n : Z) (w : World E) : World E :=
  fold_left (fun w i =>
               let w := invoke StepSimulation w in
               match agitation i with
               | Some set_gravity => invoke set_gravity w
               | None => w
               end) (range n) w.

(** The horizontal gravity in force once iteration [i] of [T] is over. *)
Definition horizontal_schedule (T i : Z) : R :=
  if (i <=? T / 5)%Z then 0
  else if (i <? T / 2)%Z
  then 5 + 5 * sin (PI / 2 * IZR (i - T / 5) / IZR (3 * T / 10))
  else if (i <? 3 * T / 5)%Z then 10
  else if (i <? 9 * T / 10)%Z
  then -5 - 5 * sin (PI / 2 * IZR (i - 3 * T / 5) / IZR (3 * T / 10))
  else -10.

(** The same with the phases as the specification cuts them: the ramp
    already at step [T / 5]. *)
Definition stated_schedule (T i : Z) : R :=
  if (i <? T / 5)%Z then 0
  else if (i <? T / 2)%Z
  then 5 + 5 * sin (PI / 2 * IZR (i - T / 5) / IZR (3 * T / 10))
  else if (i <? 3 * T / 5)%Z then 10
  else if (i <? 9 * T / 10)%Z
  then -5 - 5 * sin (PI / 2 * IZR (i - 3 * T / 5) / IZR (3 * T / 10))
  else -10.

(** An object ready for the measurement: its probes are loaded and their
    drop positions recorded. *)
Definition probes_ready {E : Env} (self : Self E) : Prop :=
  (sphere_num <= Z.of_nat (List.length (sphere_id self)))%Z
  /\ (sphere_num <= Z.of_nat (List.length (sphere_drop_pos self)))%Z.

End ContainSpec.

(** ** paper/figure4.py *)

Module BottlePour.

Import Py Bullet.

(** The constants of [__init__]. *)
Definition simulation_iteration : Z := 600.
Definition pour_num : Z := 8.
Definition content_restitution : R := 0.0.
Definition content_lateralfriction : R := 0.005.

(** The attributes [__init__] sets once. *)
Record Params : Type := {
  plane_id : nat;
  bottle_urdf : string;
  pour_pos_nominal : vec3;
  content_urdf : string;
  content_num : Z;
  content_id_list : list nat;
  content_aabb : aabb;
  obj_id : nat;
  obj_zero_orn : orientation;
  obj_zero_pos : vec3;
  obj_aabb : aabb;
  constraint_Id : nat;
  indent_num : Z;
  indent_len : R
}.

(** A [BottlePour] object: those, the attributes [bottle_pour] rewrites
    for every pour, and the connection. *)
Record Self (E : Env) : Type := {
  params : Params;
  bottle_list : list nat;
  pour_pos : vec3;
  bottle_id : nat;
  bottle_pos : vec3;
  bottle_aabb : aabb;
  world : World E
}.

Arguments params {E} s.
Arguments bottle_list {E} s.
Arguments pour_pos {E} s.
Arguments bottle_id {E} s.
Arguments bottle_pos {E} s.
Arguments bottle_aabb {E} s.
Arguments world {E} s.

(** [np.floor(a / b)] on numpy floats: a zero divisor gives no exception
    but an infinity or a NaN, here [None]. *)
Definition np_floor_div (a b : R) : option Z :=
  if Req_dec_T b 0 then None else Some (Zfloor (a / b)).

(** [np.random.randint(low, high)]: an integer of [[low, high)], refused
    when the interval is empty or [high] is not a number. *)
Definition np_randint {E : Env} (low : Z) (high : option Z) (w : World E)
  : result (Z * World E) :=
  match high with
  | None => Raise ValueError
  | Some h =>
      if (h <=? low)%Z then Raise ValueError
      else
        let '(u, w) := np_random w in
        Ok ((low + Zfloor (u * IZR (h - low)))%Z, w)
  end.

Section Methods.

Context {E : Env}.

Definition set_world (w : World E) (self : Self E) : Self E :=
  {| params := params self; bottle_list := bottle_list self;
     pour_pos := pour_pos self; bottle_id := bottle_id self;
     bottle_pos := bottle_pos self; bottle_aabb := bottle_aabb self;
     world := w |}.

Definition set_bottle_list (l : list nat) (self : Self E) : Self E :=
  {| params := params self; bottle_list := l;
     pour_pos := pour_pos self; bottle_id := bottle_id self;
     bottle_pos := bottle_pos self; bottle_aabb := bottle_aabb self;
     world := world self |}.

Definition set_pour_pos (v : vec3) (self : Self E) : Self E :=
  {| params := params self; bottle_list := bottle_list self;
     pour_pos := v; bottle_id := bottle_id self;
     bottle_pos := bottle_pos self; bottle_aabb := bottle_aabb self;
     world := world self |}.

Definition set_bottle_id (b : nat) (self : Self E) : Self E :=
  {| params := params self; bottle_list := bottle_list self;
     pour_pos := pour_pos self; bottle_id := b;
     bottle_pos := bottle_pos self; bottle_aabb := bottle_aabb self;
     world := world self |}.

Definition set_bottle_pos (v : vec3) (self : Self E) : Self E :=
  {| params := params self; bottle_list := bottle_list self;
     pour_pos := pour_pos self; bottle_id := bottle_id self;
     bottle_pos := v; bottle_aabb := bottle_aabb self;
     world := world self |}.

Definition set_bottle_aabb (box : aabb) (self : Self E) : Self E :=
  {| params := params self; bottle_list := bottle_list self;
     pour_pos := pour_pos self; bottle_id := bottle_id self;
     bottle_pos := bottle_pos self; bottle_aabb := box;
     world := world self |}.

Definition p_ (c : call) (self : Self E) : Self E :=
  set_world (invoke c (world self)) self.

Definition identity : orientation := QuaternionFromEuler 0 0 0.

(** [if mp4_dir is not None and check_process]: the name of the video is
    [object_name + "_pour.mp4"], which raises when [object_name] is left
    at [None]; the video itself does not touch the bodies. *)
Definition mp4_file_name (check_process : bool)
  (mp4_dir object_name : option string) : result (option string) :=
  match mp4_dir with
  | Some _ =>
      if check_process
      then match object_name with
           | Some object_name => Ok (Some (object_name ++ "_pour.mp4")%string)
           | None => Raise TypeError
           end
      else Ok None
  | None => Ok None
  end.

(** [__init__]: the world, the name of the video (which needs
    [object_name] when a video is asked for), a sample of the content to
    measure its box, the content particles, the target object pinned in
    place, and the step between two indents.  It sets the attributes of
    [Params] and connects; the attributes [bottle_list], [pour_pos],
    [bottle_id], [bottle_pos] and [bottle_aabb] are not created here but
    by [bottle_pour]. *)
Definition init (bottle_urdf content_urdf obj_urdf : string) (pour_pos : vec3)
  (indent_num content_num : Z) (obj_zero_pos obj_zero_orn : vec3)
  (check_process : bool) (mp4_dir object_name : option string)
  : result (Params * World E) :=
  let w := p_connect E in
  mp4_file_name <- mp4_file_name check_process mp4_dir object_name ;;
  let w := invoke (SetGravity 0 0 (-9.81)) w in
  let '(plane, w) := invoke_id (LoadURDF "plane.urdf" (0, 0, 0) identity false)
                       w in
  let pour_pos_nominal :=
    (vx pour_pos + vx obj_zero_pos, vy pour_pos + vy obj_zero_pos,
     vz pour_pos + vz obj_zero_pos) in
  let '(content_aabb_id, w) :=
    invoke_id (LoadURDF content_urdf (0, 0, 0) identity false) w in
  let content_aabb := getAABB E content_aabb_id (phys w) in
  let w := invoke (RemoveBody content_aabb_id) w in
  let '(content_id_list, w) :=
    fold_left (fun '(ids, w) (_ : Z) =>
                 let '(content_id, w) :=
                   invoke_id (LoadURDF content_urdf (0, 0, 0) identity false)
                     w in
                 (ids ++ [content_id], w))
      (range content_num) ([], w) in
  let '(obj, w) := invoke_id (LoadURDF obj_urdf obj_zero_pos identity false)
                     w in
  let obj_aabb := getAABB E obj (phys w) in
  let w := invoke (ChangeDynamics obj [("mass"%string, 1)]) w in
  let '(constraint, w) :=
    invoke_id (CreateConstraint obj (0, 0, 0) obj_zero_pos None None) w in
  let obj_x_range := vx (snd obj_aabb) - vx (fst obj_aabb) in
  let obj_y_range := vy (snd obj_aabb) - vy (fst obj_aabb) in
  obj_digonal_len <-
    math_sqrt (obj_x_range * obj_x_range + obj_y_range * obj_y_range) ;;
  indent_len <- truediv obj_digonal_len (IZR (3 * indent_num)) ;;
  Ok ({| plane_id := plane;
         bottle_urdf := bottle_urdf;
         pour_pos_nominal := pour_pos_nominal;
         content_urdf := content_urdf;
         content_num := content_num;
         content_id_list := content_id_list;
         content_aabb := content_aabb;
         obj_id := obj;
         obj_zero_orn :=
           QuaternionFromEuler (vx obj_zero_orn) (vy obj_zero_orn)
             (vz obj_zero_orn);
         obj_zero_pos := obj_zero_pos;
         obj_aabb := obj_aabb;
         constraint_Id := constraint;
         indent_num := indent_num;
         indent_len := indent_len |}, w).

(** The object [__init__] leaves, for [bottle_pour] to run on.  The
    attributes it has not created yet are read from [unset]: [bottle_pour]
    writes each of them before it reads it, so they stand for whatever
    the reader likes. *)
Definition constructed (P : Params) (w : World E) (unset : Self E)
  : Self E :=
  {| params := P;
     bottle_list := bottle_list unset;
     pour_pos := pour_pos unset;
     bottle_id := bottle_id unset;
     bottle_pos := bottle_pos unset;
     bottle_aabb := bottle_aabb unset;
     world := w |}.

(** The pour point of indent [j]: the nominal point, drawn back along the
    planar angle. *)
Definition pour_point (nominal : vec3) (indent indent_len planar_angle : R)
  (j : Z) : vec3 :=
  (vx nominal - (indent + IZR j * indent_len) * cos planar_angle,
   vy nominal - (indent + IZR j * indent_len) * sin planar_angle,
   vz nominal).

(** Where the base of the bottle goes for a pour point. *)
Definition bottle_base (pour_pos : vec3) (bottle_aabb : aabb)
  (planar_angle : R) : vec3 :=
  let bottle_half_length := vx (snd bottle_aabb) in
  let pour_pos_offset :=
    (- bottle_half_length * cos planar_angle,
     - bottle_half_length * sin planar_angle) in
  (vx pour_pos + fst pour_pos_offset,
   vy pour_pos + snd pour_pos_offset,
   vz pour_pos + (- vz (fst bottle_aabb) - 0.014)).

(** A new bottle, which collides with none of the bottles loaded so far
    (itself included). *)
Definition load_bottle (self : Self E) : Self E :=
  let '(bottle, w) :=
    invoke_id (LoadURDF (bottle_urdf (params self)) (0, 0, 0) identity false)
      (world self) in
  let self := set_bottle_pos (0, 0, 0) (set_bottle_id bottle
                                          (set_world w self)) in
  let self := p_ (ChangeDynamics bottle [("mass"%string, 1)]) self in
  let self := set_bottle_aabb (getAABB E bottle (phys (world self))) self in
  let self := set_bottle_list (bottle_list self ++ [bottle]) self in
  fold_left (fun self other =>
               p_ (SetCollisionFilterPair bottle other false) self)
    (bottle_list self) self.

(** The first part of a pour: the pour point, a new bottle, put in place
    with its yaw at the planar angle and held there by a constraint whose
    id is returned. *)
Definition place_bottle (indent planar_angle : R) (j : Z) (self : Self E)
  : nat * Self E :=
  let self :=
    set_pour_pos (pour_point (pour_pos_nominal (params self)) indent
                    (indent_len (params self)) planar_angle j) self in
  let self := load_bottle self in
  let bottle_half_length := vx (snd (bottle_aabb self)) in
  let self :=
    set_bottle_pos (bottle_base (pour_pos self) (bottle_aabb self)
                      planar_angle) self in
  let self :=
    p_ (ResetBasePositionAndOrientation (bottle_id self) (bottle_pos self)
          (QuaternionFromEuler 0 0 planar_angle)) self in
  let '(bottle_constraint_Id, w) :=
    invoke_id
      (CreateConstraint (bottle_id self)
         (bottle_half_length, 0.0, vz (pour_pos self) - vz (bottle_pos self))
         (pour_pos self) (Some identity)
         (Some (QuaternionFromEuler 0 0 planar_angle)))
      (world self) in
  (bottle_constraint_Id, set_world w self).

(** [set_content]: every particle at a random place of the sublattice
    inside the bottle, then 200 steps for them to settle. *)
Definition set_one_content (planar_angle : R) (x_range y_range z_range : R)
  (x_num_range y_num_range z_num_range : option Z) (i : Z) (self : Self E)
  : result (Self E) :=
  let P := params self in
  content_id <- getitem (content_id_list P) i ;;
  let content_pos := bottle_pos self in
  let num (n : option Z) : R := match n with Some n => IZR n | None => 0 end in
  rx <- np_randint 1 (option_map (Z.add 1) x_num_range) (world self) ;;
  let x_offset := IZR (fst rx) / num x_num_range * x_range in
  ry <- np_randint 1 (option_map (Z.add 1) y_num_range) (snd rx) ;;
  let y_offset :=
    IZR (fst ry) / num y_num_range * y_range + vy (fst (bottle_aabb self))
    - vy (fst (content_aabb P)) * 2 in
  rz <- np_randint 1 (option_map (Z.add 1) z_num_range) (snd ry) ;;
  let z_offset :=
    IZR (fst rz) / num z_num_range * z_range + vz (fst (bottle_aabb self))
    - vz (fst (content_aabb P)) * 2 in
  let self := set_world (snd rz) self in
  let x_offset_angle :=
    cos planar_angle * x_offset + sin planar_angle * y_offset in
  let y_offset_angle :=
    - sin planar_angle * x_offset + cos planar_angle * y_offset in
  let self :=
    p_ (ResetBasePositionAndOrientation content_id
          (vx content_pos - x_offset_angle, vy content_pos + y_offset_angle,
           vz content_pos + z_offset) (obj_zero_orn P)) self in
  Ok (p_ (ChangeDynamics content_id
            [("restitution"%string, content_restitution);
             ("lateralFriction"%string, content_lateralfriction);
             ("spinningFriction"%string, 0.5);
             ("rollingFriction"%string, 0.5)]) self).

Definition set_content (planar_angle : R) (self : Self E) : result (Self E) :=
  let P := params self in
  let bottle := bottle_aabb self in
  let content := content_aabb P in
  let x_range :=
    Rabs (vx (fst bottle)) - Rabs (vx (snd content) - vx (fst content)) * 2 in
  let y_range :=
    Rabs (vy (snd bottle) - vy (fst bottle))
    - Rabs (vy (snd content) - vy (fst content)) * 4 in
  let z_range :=
    Rabs (vz (snd bottle) - vz (fst bottle))
    - Rabs (vz (snd content) - vz (fst content)) * 4 in
  let x_num_range :=
    np_floor_div x_range (Rabs (vx (snd content) - vx (fst content))) in
  let y_num_range :=
    np_floor_div y_range (Rabs (vy (snd content) - vy (fst content))) in
  let z_num_range :=
    np_floor_div z_range (Rabs (vz (snd content) - vz (fst content))) in
  self <- for_range (content_num P)
            (set_one_content planar_angle x_range y_range z_range
               x_num_range y_num_range z_num_range) self ;;
  for_range 200 (fun _ self => Ok (p_ StepSimulation self)) self.

(** The pitch commanded at step [i] of the tip. *)
Definition commanded_pitch (i : Z) : R :=
  2 * PI / 5
  * sin (PI * 2 * IZR i / IZR (int_ (4 * 5 * IZR simulation_iteration / 6))).

(** The tip: at every step of the first [5 T / 6], the constraint is
    turned to the commanded pitch about the pour point. *)
Definition tip (bottle_constraint_Id : nat) (pivot : vec3)
  (planar_angle : R) (self : Self E) : result (Self E) :=
  for_range (int_ (5 * IZR simulation_iteration / 6))
    (fun i self =>
       let self := p_ StepSimulation self in
       let orn := QuaternionFromEuler 0 (commanded_pitch i) planar_angle in
       Ok (p_ (ChangeConstraint bottle_constraint_Id pivot orn 50) self))
    self.

(** The last [T / 6] steps: nothing is commanded. *)
Definition hold (self : Self E) : result (Self E) :=
  for_range (int_ (1 * IZR simulation_iteration / 6))
    (fun _ self => Ok (p_ StepSimulation self)) self.

(** [checkspillage]: the particles below the lowest point of the box of
    the target object. *)
Definition checkspillage (self : Self E) : result Z :=
  let P := params self in
  for_range (content_num P)
    (fun i spill_num =>
       content_id <- getitem (content_id_list P) i ;;
       let content_pos :=
         fst (getBasePositionAndOrientation E content_id
                (phys (world self))) in
       let content_z := vz content_pos in
       Ok (spill_num
           + (if ltb content_z (vz (fst (obj_aabb P))) then 1 else 0))%Z)
    0%Z.

(** One pass of the loop on the indents.  The breakpoints of the source
    stop for the debugger and do nothing to the run. *)
Definition pour_once (indent planar_angle : R) (j : Z)
  (acc : list Z * Self E) : result (list Z * Self E) :=
  let '(spill_angle_list, self) := acc in
  let '(bottle_constraint_Id, self) :=
    place_bottle indent planar_angle j self in
  self <- set_content planar_angle self ;;
  let pivot := pour_pos self in
  self <- tip bottle_constraint_Id pivot planar_angle self ;;
  self <- hold self ;;
  spill <- checkspillage self ;;
  let self := p_ (RemoveBody (bottle_id self)) self in
  Ok (spill_angle_list ++ [spill], self).

Definition planar_angle_of (k : Z) : R := IZR k / IZR pour_num * 2 * PI.

(** [bottle_pour]: for the planar angle of index 7, one pour per
    indent. *)
Definition bottle_pour (indent : R) (self : Self E)
  : result (list (list Z) * Self E) :=
  let self := set_bottle_list [] self in
  for_each [7%Z]
    (fun k '(spill_list, self) =>
       let planar_angle := planar_angle_of k in
       r <- for_range (indent_num (params self))
              (pour_once indent planar_angle) ([], self) ;;
       Ok (spill_list ++ [fst r], snd r))
    ([], self).

End Methods.

End BottlePour.

(** ** What the specification says of the pour *)

Module PourSpec.

Import Py Bullet BottlePour.

(** A rotation about the vertical axis. *)
Definition rotate_yaw (yaw : R) (v : vec3) : vec3 :=
  (cos yaw * vx v - sin yaw * vy v, sin yaw * vx v + cos yaw * vy v, vz v).

(** The mouth of a bottle: the point at [half_length] along the x axis of
    the bottle, from its base, once the bottle is turned by [yaw]. *)
Definition mouth (base : vec3) (yaw half_length : R) : vec3 :=
  let d := rotate_yaw yaw (half_length, 0, 0) in
  (vx base + vx d, vy base + vy d, vz base + vz d).

(** The particles counted as spilled in a world: those strictly below
    the lowest point of the target. *)
Definition spilled {E : Env} (P : Params) (ph : physics E) : list Z :=
  filter (fun i =>
            ltb (vz (fst (getBasePositionAndOrientation E
                            (nth (Z.to_nat i) (content_id_list P) 0%nat) ph)))
              (vz (fst (obj_aabb P))))
    (range (content_num P)).

(** An axis of the sublattice of [set_content] has at least one cell. *)
Definition cells (n : option Z) : Prop :=
  exists k, n = Some k /\ (1 <= k)%Z.

(** The constructor loaded the particles. *)
Definition content_loaded (P : Params) : Prop :=
  (0 <= content_num P <= Z.of_nat (List.length (content_id_list P)))%Z.

(** The calls of the tip and of the hold, in order. *)
Definition tip_calls (cid : nat) (pivot : vec3) (planar_angle : R)
  (steps : Z) : list call :=
  flat_map (fun i =>
              [StepSimulation;
               ChangeConstraint cid pivot
                 (QuaternionFromEuler 0 (commanded_pitch i) planar_angle) 50])
    (range steps).

Definition hold_calls (steps : Z) : list call :=
  repeat StepSimulation (Z.to_nat steps).

(** The attributes a step of the pour leaves alone, and the calls it
    adds. *)
Definition extends {E : Env} (self self' : Self E) (cs : list call) : Prop :=
  params self' = params self
  /\ bottle_list self' = bottle_list self
  /\ pour_pos self' = pour_pos self
  /\ bottle_id self' = bottle_id self
  /\ bottle_pos self' = bottle_pos self
  /\ bottle_aabb self' = bottle_aabb self
  /\ calls (world self') = calls (world self) ++ cs.

End PourSpec.

(** ** ur5_robot/imaginebot_withgripper.py *)

Module Imaginebot.

Import Py.

Definition vec3 : Type := Bullet.vec3.
Definition quat : Type := (R * R * R * R)%type.

(** A 3 by 3 matrix, by rows, and [m @ v]. *)
Definition mat3 : Type := (vec3 * vec3 * vec3)%type.

Definition dot (a b : vec3) : R :=
  Bullet.vx a * Bullet.vx b + Bullet.vy a * Bullet.vy b
  + Bullet.vz a * Bullet.vz b.

Definition matmul (m : mat3) (v : vec3) : vec3 :=
  (dot (fst (fst m)) v, dot (snd (fst m)) v, dot (snd m) v).

Definition vadd (a b : vec3) : vec3 :=
  (Bullet.vx a + Bullet.vx b, Bullet.vy a + Bullet.vy b,
   Bullet.vz a + Bullet.vz b).

Definition vsub (a b : vec3) : vec3 :=
  (Bullet.vx a - Bullet.vx b, Bullet.vy a - Bullet.vy b,
   Bullet.vz a - Bullet.vz b).

(** The [jointInfo] named tuple. *)
Record jointInfo : Type := {
  id : nat;
  name : string;
  type : string;
  lowerLimit : R;
  upperLimit : R;
  maxForce : R;
  maxVelocity : R;
  controllable : bool
}.

(** What the controller relies on: the engine with the robot loaded, and
    the helpers of [ur5_robot.tools], which are not part of the sources
    and are taken as they come. *)
Record Env : Type := {
  physics : Type;
  setJointMotorControl2 :
    nat -> forall targetPosition force maxVelocity : R, physics -> physics;
  stepSimulation : physics -> physics;
  getJointState : nat -> physics -> R;
  getLinkState : nat -> physics -> vec3 * quat;
  calculateInverseKinematics :
    nat -> vec3 -> quat ->
    forall lowerLimits upperLimits jointRanges restPoses : list R,
    physics -> list R;
  getMatrixFromQuaternion : quat -> mat3;
  frobenius_norm : vec3 -> vec3 -> R;
  exponential_angle_metric : mat3 -> mat3 -> R
}.

(** The constants of [__init__]. *)
Definition ee_finger_offset : vec3 := (0.10559, 0.0, -0.00410).

Definition robotControlJoints : list string :=
  ["shoulder_pan_joint"; "shoulder_lift_joint"; "elbow_joint";
   "wrist_1_joint"; "wrist_2_joint"; "wrist_3_joint"]%string.

Definition posErrorTolerance : R := 0.1.
Definition ornErrorTolerance : R := 0.15.
Definition jointErrorTolerance : R := 0.001.
Definition maxControlTimeStep : Z := 2400.

Definition jointsRange : list R :=
  [2 * PI; 2 * PI; 2 * PI; 2 * PI; 2 * PI; 2 * PI; 0.4; 0.4].

Definition jointsRestPose : list R :=
  [PI / 4; - PI / 2; PI / 2; - PI / 2; - PI / 2; 0; 0; 0].

(** The attributes [go_to] reads, which [__init__] fills from the loaded
    robot: the joint table (a dict keyed by joint name) and the limits of
    the controllable joints. *)
Record Self : Type := {
  eeID : nat;
  joints : string -> option jointInfo;
  jointsLowerLimit : list R;
  jointsUpperLimit : list R
}.

(** [d[key]] on a dict. *)
Definition lookup {A : Type} (d : string -> option A) (key : string)
  : result A :=
  match d key with
  | Some a => Ok a
  | None => Raise KeyError
  end.

(** [l[:-2]]. *)
Definition but_last_two {A : Type} (l : list A) : list A :=
  firstn (List.length l - 2) l.

(** [enumerate(l)]. *)
Definition enumerate {A : Type} (l : list A) : list (Z * A) :=
  combine (range (Z.of_nat (List.length l))) l.

Section Methods.

Context {E : Env} (self : Self).

Definition readEndEffectorState (ph : physics E) : vec3 * quat :=
  getLinkState E (eeID self) ph.

Definition readFingerCenterState (ph : physics E) : vec3 * quat :=
  let '(ee_pos, ee_orn) := readEndEffectorState ph in
  let ee_orn_mat := getMatrixFromQuaternion E ee_orn in
  (vadd ee_pos (matmul ee_orn_mat ee_finger_offset), ee_orn).

(** [True] when the finger is further from the goal than the tolerances
    allow. *)
Definition fingerErrorFlag (goal_pos : vec3) (goal_orn : quat)
  (ph : physics E) : bool :=
  let '(finger_pos, finger_orn) := readFingerCenterState ph in
  let pos_err := frobenius_norm E finger_pos goal_pos in
  let orn_err :=
    exponential_angle_metric E (getMatrixFromQuaternion E finger_orn)
      (getMatrixFromQuaternion E goal_orn) in
  if leb pos_err posErrorTolerance && leb orn_err ornErrorTolerance
  then false
  else true.

(** The summed error of the six arm joints, and [False] when it is within
    the tolerance. *)
Definition joint_error_sum (jointTargetState_list : list R) (ph : physics E)
  : result R :=
  for_each (enumerate robotControlJoints)
    (fun '(control_joint_idx, control_joint_name) joint_error =>
       info <- lookup (joints self) control_joint_name ;;
       target <- getitem jointTargetState_list control_joint_idx ;;
       Ok (joint_error + Rabs (getJointState E (id info) ph - target)))
    0.0.

Definition jointErrorFlag (jointTargetState_list : list R) (ph : physics E)
  : result bool :=
  joint_error <- joint_error_sum jointTargetState_list ph ;;
  if leb joint_error jointErrorTolerance then Ok false else Ok true.

(** The inner [for] of the control loop: every arm joint is sent to its
    target. *)
Definition command_joints (jointTargetState_list : list R) (ph : physics E)
  : result (physics E) :=
  for_each (enumerate robotControlJoints)
    (fun '(jointIdx, jointName) ph =>
       jointTargetState <- getitem jointTargetState_list jointIdx ;;
       info <- lookup (joints self) jointName ;;
       Ok (setJointMotorControl2 E (id info) jointTargetState (maxForce info)
             (maxVelocity info / 5) ph))
    ph.

(** The body of the [while]: command, step, and the new [error_flag]. *)
Definition control_body (jointTargetState_list : list R) (ph : physics E)
  : result (physics E * bool) :=
  ph <- command_joints jointTargetState_list ph ;;
  let ph := stepSimulation E ph in
  error_flag <- jointErrorFlag jointTargetState_list ph ;;
  Ok (ph, error_flag).

(** The [while error_flag] loop, entered with [error_flag = True]: after
    the body, the counter is incremented and the loop breaks when it has
    reached [maxControlTimeStep]; else it goes on while [error_flag] holds.
    [None] when [fuel] iterations did not reach the exit. *)
Fixpoint control_loop (fuel : nat) (jointTargetState_list : list R)
  (simulationTimeStep : Z) (ph : physics E)
  : option (result (physics E * Z)) :=
  match fuel with
  | O => None
  | S fuel' =>
      match control_body jointTargetState_list ph with
      | Raise e => Some (Raise e)
      | Ok (ph, error_flag) =>
          let simulationTimeStep := (simulationTimeStep + 1)%Z in
          if (maxControlTimeStep <=? simulationTimeStep)%Z
          then Some (Ok (ph, simulationTimeStep))
          else if error_flag
               then control_loop fuel' jointTargetState_list
                      simulationTimeStep ph
               else Some (Ok (ph, simulationTimeStep))
      end
  end.

(** [go_to]: inverse kinematics for the end effector pose that puts the
    finger at the goal, the control loop, and the check of the pose
    reached. *)
Definition go_to (pos : vec3) (orn : quat) (ph : physics E)
  : option (result (physics E)) :=
  let ee_pos :=
    vsub pos (matmul (getMatrixFromQuaternion E orn) ee_finger_offset) in
  let jointTargetState_list :=
    calculateInverseKinematics E (eeID self) ee_pos orn
      (but_last_two (jointsLowerLimit self))
      (but_last_two (jointsUpperLimit self))
      (but_last_two jointsRange) (but_last_two jointsRestPose) ph in
  match control_loop (Z.to_nat maxControlTimeStep) jointTargetState_list 0 ph
  with
  | None => None
  | Some (Raise e) => Some (Raise e)
  | Some (Ok (ph, _)) =>
      if fingerErrorFlag pos orn ph
      then Some (Raise ValueError)
      else Some (Ok ph)
  end.

End Methods.

End Imaginebot.

(** ** What the specification says of the controller *)

Module ControlSpec.

Import Py Imaginebot.

(** The joint targets [go_to] computes for a goal. *)
Definition targets_for {E : Env} (self : Self) (pos : vec3) (orn : quat)
  (ph : physics E) : list R :=
  calculateInverseKinematics E (eeID self)
    (vsub pos (matmul (getMatrixFromQuaternion E orn) ee_finger_offset)) orn
    (but_last_two (jointsLowerLimit self))
    (but_last_two (jointsUpperLimit self))
    (but_last_two jointsRange) (but_last_two jointsRestPose) ph.

(** [iterated k ph ph']: [k] iterations of the control loop lead from
    [ph] to [ph']. *)
Inductive iterated {E : Env} (self : Self) (targets : list R)
  : nat -> physics E -> physics E -> Prop :=
| iterated_O (ph : physics E) : iterated self targets 0 ph ph
| iterated_S (k : nat) (ph ph1 ph2 : physics E) (error_flag : bool) :
    iterated self targets k ph ph1 ->
    control_body self targets ph1 = Ok (ph2, error_flag) ->
    iterated self targets (S k) ph ph2.

(** The joints have converged: their summed error is within the
    tolerance. *)
Definition converged {E : Env} (self : Self) (targets : list R)
  (ph : physics E) : Prop :=
  exists joint_error,
    joint_error_sum self targets ph = Ok joint_error
    /\ joint_error <= jointErrorTolerance.

(** The position and orientation errors of the finger. *)
Definition pos_err {E : Env} (self : Self) (goal_pos : vec3)
  (ph : physics E) : R :=
  frobenius_norm E (fst (readFingerCenterState self ph)) goal_pos.

Definition orn_err {E : Env} (self : Self) (goal_orn : quat)
  (ph : physics E) : R :=
  exponential_angle_metric E
    (getMatrixFromQuaternion E (snd (readFingerCenterState self ph)))
    (getMatrixFromQuaternion E goal_orn).

(** The robot has the six arm joints and the solver gives a target for
    each. *)
Definition well_formed (self : Self) (targets : list R) : Prop :=
  (forall jointName, In jointName robotControlJoints ->
                     joints self jointName <> None)
  /\ (6 <= List.length targets)%nat.

End ControlSpec.

(** ** A small concrete environment, to run the programs on *)

Module Demo.

Import Py Bullet Containability.

(** An engine in which bodies stay where they are put: its state is the
    number of bodies loaded and the position of each. *)
Definition frozen_effect (c : call) (ph : nat * (nat -> vec3))
  : nat * (nat -> vec3) :=
  match c with
  | LoadURDF _ pos _ _ =>
      (S (fst ph), fun b => if Nat.eqb b (fst ph) then pos else snd ph b)
  | ResetBasePositionAndOrientation body pos _ =>
      (fst ph, fun b => if Nat.eqb b body then pos else snd ph b)
  | _ => ph
  end.

(** Every body is a cube of side 1 around its position; the generator
    always yields 0. *)
Definition frozen : Env :=
  {| physics := (nat * (nat -> vec3))%type;
     connect := (0%nat, fun _ => (0, 0, 0));
     effect := frozen_effect;
     returned := fun _ ph => fst ph;
     getAABB := fun b ph =>
       ((vx (snd ph b) - 1 / 2, vy (snd ph b) - 1 / 2, vz (snd ph b) - 1 / 2),
        (vx (snd ph b) + 1 / 2, vy (snd ph b) + 1 / 2, vz (snd ph b) + 1 / 2));
     getBasePositionAndOrientation := fun b ph =>
       (snd ph b, QuaternionFromEuler 0 0 0);
     random_random := fun _ => 0 |}.

(** The box of a body placed at [(0, 0, 1)]: a cube of side 1 whose
    underside is 50 cm above the ground. *)
Definition cube : aabb :=
  ((0 - 1 / 2, 0 - 1 / 2, 1 - 1 / 2), (0 + 1 / 2, 0 + 1 / 2, 1 + 1 / 2)).

(** A plate 1 mm thick along x and 40 cm wide along y, and the same
    plate turned by a quarter. *)
Definition plate : aabb := ((0, 0, 1 / 10), (1 / 1000, 4 / 10, 3 / 10)).

Definition strip : aabb := ((0, 0, 1 / 10), (4 / 10, 1 / 1000, 3 / 10)).

(** A [Containability] object on the cube, its 225 probes loaded (bodies
    2 to 226, after the plane and the cube) and all resting inside the
    cube. *)
Definition ready : Self frozen :=
  {| sphere_id := seq 2 225;
     sphere_drop_orn := QuaternionFromEuler 0 0 0;
     sphere_drop_pos := repeat (0, 0, 6 / 10) 225;
     sphere_in_drop_pos := [];
     plane_id := 0;
     obj_id := 1;
     obj_curr_aabb := cube;
     containability := false;
     world := {| phys := ((227%nat, fun _ => (0, 0, 6 / 10)) : physics frozen);
                 calls := [SetGravity 0 0 (-10)];
                 drawn := 0 |} |}.

(** An engine that reports the same box, a cube of side 1, for every
    body, and in which nothing moves. *)
Definition shelf : Env :=
  {| physics := nat;
     connect := 0%nat;
     effect := fun c ph => match c with LoadURDF _ _ _ _ => S ph | _ => ph end;
     returned := fun _ ph => ph;
     getAABB := fun _ _ => ((-1 / 2, -1 / 2, -1 / 2), (1 / 2, 1 / 2, 1 / 2));
     getBasePositionAndOrientation := fun _ _ =>
       ((0, 0, 0), QuaternionFromEuler 0 0 0);
     random_random := fun _ => 0 |}.

(** A [BottlePour] object with three beads of side 2 cm (bodies 2 to 4)
    and two indents, its target the box of the engine. *)
Definition pouring : BottlePour.Self shelf :=
  {| BottlePour.params :=
       {| BottlePour.plane_id := 0;
          BottlePour.bottle_urdf := "bottle.urdf";
          BottlePour.pour_pos_nominal := (0, 0, 6 / 10);
          BottlePour.content_urdf := "bead.urdf";
          BottlePour.content_num := 3;
          BottlePour.content_id_list := [2; 3; 4]%nat;
          BottlePour.content_aabb :=
            ((-1 / 100, -1 / 100, -1 / 100), (1 / 100, 1 / 100, 1 / 100));
          BottlePour.obj_id := 5;
          BottlePour.obj_zero_orn := QuaternionFromEuler 0 0 0;
          BottlePour.obj_zero_pos := (0, 0, 0);
          BottlePour.obj_aabb :=
            ((-1 / 2, -1 / 2, -1 / 2), (1 / 2, 1 / 2, 1 / 2));
          BottlePour.constraint_Id := 0;
          BottlePour.indent_num := 2;
          BottlePour.indent_len := 1 / 4 |};
     BottlePour.bottle_list := [];
     BottlePour.pour_pos := (0, 0, 0);
     BottlePour.bottle_id := 0;
     BottlePour.bottle_pos := (0, 0, 0);
     BottlePour.bottle_aabb := ((0, 0, 0), (0, 0, 0));
     BottlePour.world :=
       {| phys := (6%nat : physics shelf);
          calls := [SetGravity 0 0 (-9.81)];
          drawn := 0 |} |}.

(** A robot that does not move: its joints read 1 whatever is commanded,
    the solver asks for 0 everywhere, and the finger is reported at the
    goal. *)
Definition stuck : Imaginebot.Env :=
  {| Imaginebot.physics := unit;
     Imaginebot.setJointMotorControl2 := fun _ _ _ _ ph => ph;
     Imaginebot.stepSimulation := fun ph => ph;
     Imaginebot.getJointState := fun _ _ => 1;
     Imaginebot.getLinkState := fun _ _ => ((0, 0, 0), (0, 0, 0, 1));
     Imaginebot.calculateInverseKinematics :=
       fun _ _ _ _ _ _ _ _ => [0; 0; 0; 0; 0; 0];
     Imaginebot.getMatrixFromQuaternion :=
       fun _ => ((1, 0, 0), (0, 1, 0), (0, 0, 1));
     Imaginebot.frobenius_norm := fun _ _ => 0;
     Imaginebot.exponential_angle_metric := fun _ _ => 0 |}.

Definition at_rest : Imaginebot.physics stuck := tt.

Definition arm : Imaginebot.Self :=
  {| Imaginebot.eeID := 7;
     Imaginebot.joints := fun jointName =>
       Some {| Imaginebot.id := 1;
               Imaginebot.name := jointName;
               Imaginebot.type := "REVOLUTE";
               Imaginebot.lowerLimit := - PI;
               Imaginebot.upperLimit := PI;
               Imaginebot.maxForce := 150;
               Imaginebot.maxVelocity := 3;
               Imaginebot.controllable := true |};
     Imaginebot.jointsLowerLimit := [];
     Imaginebot.jointsUpperLimit := [] |}.

End Demo.

(** ** Further notions used to state what the sphere-drop test does *)

Module RunSpec.

Import Py Bullet Containability.

(** A point and a box moved by the vector [t]. *)
Definition translate (t p : vec3) : vec3 :=
  (vx p + vx t, vy p + vy t, vz p + vz t).


(** [x] is strictly between the two ends [a] and [b], in whichever order
    they come. *)
Definition strictly_between (a b x : R) : Prop := Rmin a b < x < Rmax a b.

(** The number of simulation steps in a sequence of calls. *)
Definition is_step (c : call) : bool :=
  match c with
  | StepSimulation => true
  | _ => false
  end.

Definition count_steps (cs : list call) : nat :=
  List.length (filter is_step cs).

(** The calls that put the first [n] of the bodies [ids] at the positions
    [drops], one by one. *)
Definition placement_calls (ids : list nat) (drops : list vec3)
  (orn : orientation) (n : Z) : list call :=
  map (fun i =>
         ResetBasePositionAndOrientation (nth (Z.to_nat i) ids 0%nat)
           (nth (Z.to_nat i) drops (0, 0, 0)) orn)
    (range n).

(** The lattice coordinates as the specification words them: values
    spanning the interval of length [r] centred on [c], from one end of
    it to the other. *)
Definition stated_spanning (c r : R) (coords : list R) : Prop :=
  In (c - r / 2) coords /\ In (c + r / 2) coords
  /\ forall x, In x coords -> c - r / 2 <= x <= c + r / 2.

(** The calls that load one probe. *)
Definition load_calls (sphere : nat) : list call :=
  [LoadURDF sphere_urdf (0, 0, 0) (QuaternionFromEuler 0 0 0) false;
   ChangeDynamics sphere [("restitution"%string, sphere_restitution)]].

End RunSpec.

Module DemoRuns.

Import Py Bullet Containability.

(** An object whose box is the thin plate, before its probes are
    loaded. *)
Definition on_plate : Self Demo.frozen :=
  {| sphere_id := [];
     sphere_drop_orn := QuaternionFromEuler 0 0 0;
     sphere_drop_pos := [];
     sphere_in_drop_pos := [];
     plane_id := 0;
     obj_id := 1;
     obj_curr_aabb := Demo.plate;
     containability := false;
     world := world Demo.ready |}.

(** A box 4 mm thick along x and 40 cm wide along y: its lattice has a
    single column. *)
Definition sliver : aabb := ((0, 0, 1 / 10), (4 / 1000, 4 / 10, 3 / 10)).

(** An object on the cube, fresh from the constructor: no probe is
    loaded. *)
Definition fresh : Self Demo.frozen :=
  init "cube.urdf" (0, 0, 1) (0, 0, 0).

End DemoRuns.

(** ** ur5_robot/imaginebot_withgripper.py: the joint table, the joint
    limit filter, the gripper and the free run *)

Module Gripper.

Import Py Imaginebot.

Definition gripperControlJoints : list string :=
  ["robotiq_85_left_inner_knuckle_joint";
   "robotiq_85_right_inner_knuckle_joint"]%string.

Definition gripperControlTimeStep : Z := 200.

(** The [jointID] dict of [__init__]. *)
Definition jointID : list (string * nat) :=
  [("world_joint", 0); ("shoulder_pan_joint", 1); ("shoulder_lift_joint", 2);
   ("elbow_joint", 3); ("wrist_1_joint", 4); ("wrist_2_joint", 5);
   ("wrist_3_joint", 6); ("ee_fixed_joint", 7); ("arm_gripper_joint", 8);
   ("robotiq_85_base_joint", 9); ("robotiq_85_left_knuckle_joint", 10);
   ("robotiq_85_left_finger_joint", 11);
   ("robotiq_85_right_knuckle_joint", 12);
   ("robotiq_85_right_finger_joint", 13);
   ("robotiq_85_left_inner_knuckle_joint", 14);
   ("robotiq_85_left_finger_tip_joint", 15);
   ("robotiq_85_right_inner_knuckle_joint", 16);
   ("robotiq_85_right_finger_tip_joint", 17)]%string%nat.

(** A dict literal read as a dict. *)
Fixpoint dict_get {A : Type} (d : list (string * A)) (key : string)
  : option A :=
  match d with
  | [] => None
  | (k, a) :: d' => if String.eqb key k then Some a else dict_get d' key
  end.

(** [name in names]. *)
Definition name_in (name : string) (names : list string) : bool :=
  existsb (String.eqb name) names.

(** [l[k] = a] on an array: as [l[k]], an index out of range raises. *)
Definition setitem {A : Type} (l : list A) (k : Z) (a : A)
  : result (list A) :=
  let n := Z.of_nat (List.length l) in
  let k' := if (k <? 0)%Z then (k + n)%Z else k in
  if ((k' <? 0) || (n <=? k'))%Z then Raise IndexError
  else Ok (firstn (Z.to_nat k') l ++ a :: skipn (S (Z.to_nat k')) l).

(** What [p.getJointInfo] returns, as far as [__init__] reads it: the
    fields 0, 1, 2, 8, 9, 10 and 11. *)
Record rawJointInfo : Type := {
  jointIndex : nat;
  jointName : string;
  jointType : Z;
  jointLowerLimit : R;
  jointUpperLimit : R;
  jointMaxForce : R;
  jointMaxVelocity : R
}.

Definition jointTypeList : list string :=
  ["REVOLUTE"; "PRISMATIC"; "SPHERICAL"; "PLANAR"; "FIXED"]%string.

(** One iteration of the loop of [__init__] that fills the joint table:
    the limits of a controllable joint are appended, and the joint is
    entered in the table under its name. *)
Definition register_joint (getJointInfo : Z -> rawJointInfo) (i : Z)
  (self : Self) : result Self :=
  let info := getJointInfo i in
  let jointID := jointIndex info in
  let jointName := jointName info in
  jointType <- getitem jointTypeList (jointType info) ;;
  let jointLowerLimit := jointLowerLimit info in
  let jointUpperLimit := jointUpperLimit info in
  let self :=
    if name_in jointName (robotControlJoints ++ gripperControlJoints)
    then {| eeID := eeID self;
            joints := joints self;
            jointsLowerLimit := jointsLowerLimit self ++ [jointLowerLimit];
            jointsUpperLimit := jointsUpperLimit self ++ [jointUpperLimit] |}
    else self in
  let jointMaxForce := jointMaxForce info in
  let jointMaxVelocity := jointMaxVelocity info in
  let controllable :=
    if name_in jointName (robotControlJoints ++ gripperControlJoints)
    then true else false in
  let info :=
    {| id := jointID; name := jointName; type := jointType;
       lowerLimit := jointLowerLimit; upperLimit := jointUpperLimit;
       maxForce := jointMaxForce; maxVelocity := jointMaxVelocity;
       controllable := controllable |} in
  Ok {| eeID := eeID self;
        joints := fun key =>
          if String.eqb key (name info) then Some info else joints self key;
        jointsLowerLimit := jointsLowerLimit self;
        jointsUpperLimit := jointsUpperLimit self |}.

(** The part of [__init__] that builds the attributes [go_to] and the
    gripper read: the end effector is [jointID['ee_fixed_joint']], and the
    table and the limits come from the [numJoints] joints of the loaded
    robot. *)
Definition init_joints (numJoints : Z) (getJointInfo : Z -> rawJointInfo)
  : result Self :=
  eeID <- lookup (dict_get jointID) "ee_fixed_joint" ;;
  for_range numJoints (register_joint getJointInfo)
    {| eeID := eeID;
       joints := fun _ => None;
       jointsLowerLimit := [];
       jointsUpperLimit := [] |}.

(** [jointLimitFilter]: a copy of the targets in which every entry but
    the last two that is above [pi] is lowered by [pi], and every one
    below [-pi] raised by [pi]. *)
Definition jointLimitFilter (jointTargetState_list : list R)
  : result (list R) :=
  let jointLimitTargetState_list := jointTargetState_list in
  for_each (enumerate (but_last_two jointTargetState_list))
    (fun '(joint_idx, jointTargetState) jointLimitTargetState_list =>
       if ltb PI jointTargetState
       then
         x <- getitem jointLimitTargetState_list joint_idx ;;
         setitem jointLimitTargetState_list joint_idx (x - PI)
       else if ltb jointTargetState (- PI)
       then
         x <- getitem jointLimitTargetState_list joint_idx ;;
         setitem jointLimitTargetState_list joint_idx (x + PI)
       else Ok jointLimitTargetState_list)
    jointLimitTargetState_list.

Definition epsilon : R := 0.02.

Section Methods.

Context {E : Env} (self : Self).

Definition readJointState (jointID : nat) (ph : physics E) : R :=
  getJointState E jointID ph.

(** The list comprehension of [close_gripper] and of [open_gripper]: the
    limit of every gripper joint. *)
Definition gripper_limits (limit : jointInfo -> R) : result (list R) :=
  for_each gripperControlJoints
    (fun jointname gripperMaxJointState =>
       info <- lookup (joints self) jointname ;;
       Ok (gripperMaxJointState ++ [limit info]))
    [].

(** The inner [for]: every gripper joint is sent to its target. *)
Definition command_gripper (gripperMaxJointState : list R) (ph : physics E)
  : result (physics E) :=
  for_each (enumerate gripperControlJoints)
    (fun '(jointIdx, jointName) ph =>
       jointTargetState <- getitem gripperMaxJointState jointIdx ;;
       info <- lookup (joints self) jointName ;;
       Ok (setJointMotorControl2 E (id info) jointTargetState (maxForce info)
             (maxVelocity info / 5) ph))
    ph.

Definition gripper_step (gripperMaxJointState : list R) (_ : Z)
  (ph : physics E) : result (physics E) :=
  ph <- command_gripper gripperMaxJointState ph ;;
  Ok (stepSimulation E ph).

Definition close_gripper (ph : physics E) : result (physics E) :=
  gripperMaxJointState <- gripper_limits upperLimit ;;
  for_range gripperControlTimeStep (gripper_step gripperMaxJointState) ph.

Definition open_gripper (ph : physics E) : result (physics E) :=
  gripperMaxJointState <- gripper_limits lowerLimit ;;
  for_range gripperControlTimeStep (gripper_step gripperMaxJointState) ph.

(** [object_in_gripper]: the two finger readings are taken at the ids of
    the [jointID] dict, and both are compared with the upper limit of the
    left joint. *)
Definition object_in_gripper (ph : physics E) : result bool :=
  left_id <- lookup (dict_get jointID)
               "robotiq_85_left_inner_knuckle_joint" ;;
  let leftFingerPos := readJointState left_id ph in
  right_id <- lookup (dict_get jointID)
                "robotiq_85_right_inner_knuckle_joint" ;;
  let rightFingerPos := readJointState right_id ph in
  info <- lookup (joints self) "robotiq_85_left_inner_knuckle_joint" ;;
  closed <- (if leb (upperLimit info - epsilon) leftFingerPos
             then
               info <- lookup (joints self)
                         "robotiq_85_left_inner_knuckle_joint" ;;
               Ok (leb (upperLimit info - epsilon) rightFingerPos)
             else Ok false) ;;
  if closed then Ok false
  else if ltb leftFingerPos epsilon && ltb rightFingerPos epsilon
       then Ok false
       else Ok true.

(** [while True: p.stepSimulation()]: no amount of [fuel] reaches an
    exit. *)
Fixpoint simulate_forever (fuel : nat) (ph : physics E)
  : option (physics E) :=
  match fuel with
  | O => None
  | S fuel' => simulate_forever fuel' (stepSimulation E ph)
  end.

(** [test]: [sim_timesteps] is [None] by default; [not sim_timesteps]
    holds of [None] and of 0. *)
Definition test (fuel : nat) (sim_timesteps : option Z) (ph : physics E)
  : option (physics E) :=
  match sim_timesteps with
  | None => simulate_forever fuel ph
  | Some n =>
      if (n =? 0)%Z then simulate_forever fuel ph
      else Some (fold_left (fun ph _ => stepSimulation E ph) (range n) ph)
  end.

End Methods.

End Gripper.

(** ** Notions used to state what the gripper and the joint table do *)

Module GripperSpec.

Import Py Imaginebot Gripper.

(** One entry of the filtered targets. *)
Definition limit_one (x : R) : R :=
  if ltb PI x then x - PI else if ltb x (- PI) then x + PI else x.

(** One round of the gripper loop towards the targets [l] and [r] of the
    left and right joints. *)
Definition gripper_round {E : Env} (left right : jointInfo) (l r : R)
  (ph : physics E) : physics E :=
  stepSimulation E
    (setJointMotorControl2 E (id right) r (maxForce right)
       (maxVelocity right / 5)
       (setJointMotorControl2 E (id left) l (maxForce left)
          (maxVelocity left / 5) ph)).

(** The table entry [__init__] makes of what the engine reports. *)
Definition entry_of (raw : rawJointInfo) (jointType : string) : jointInfo :=
  {| id := jointIndex raw; name := jointName raw; type := jointType;
     lowerLimit := jointLowerLimit raw; upperLimit := jointUpperLimit raw;
     maxForce := jointMaxForce raw; maxVelocity := jointMaxVelocity raw;
     controllable :=
       name_in (jointName raw) (robotControlJoints ++ gripperControlJoints) |}.

(** The joints reported by the engine whose name is one of the eight
    controllable ones, in the order of their index. *)
Definition controllable_raws (numJoints : Z) (getJointInfo : Z -> rawJointInfo)
  : list rawJointInfo :=
  filter (fun raw =>
            name_in (jointName raw)
              (robotControlJoints ++ gripperControlJoints))
    (map getJointInfo (range numJoints)).

End GripperSpec.

(** ** A robot to run the gripper on *)

Module DemoRobot.

Import Py Imaginebot Gripper.

(** A robot without any joint in its table. *)
Definition bare : Self :=
  {| eeID := 7;
     joints := fun _ => None;
     jointsLowerLimit := [];
     jointsUpperLimit := [] |}.

(** An engine that counts its steps and remembers the last position
    commanded to each joint. *)
Definition counting : Env :=
  {| physics := (nat * (nat -> R))%type;
     setJointMotorControl2 := fun j target _ _ ph =>
       (fst ph, fun k => if Nat.eqb k j then target else snd ph k);
     stepSimulation := fun ph => (S (fst ph), snd ph);
     getJointState := fun j ph => snd ph j;
     getLinkState := fun _ _ => ((0, 0, 0), (0, 0, 0, 1));
     calculateInverseKinematics := fun _ _ _ _ _ _ _ _ => [];
     getMatrixFromQuaternion := fun _ => ((1, 0, 0), (0, 1, 0), (0, 0, 1));
     frobenius_norm := fun _ _ => 0;
     exponential_angle_metric := fun _ _ => 0 |}.

Definition idle : physics counting := (0%nat, fun _ => 0).

(** The same robot, except that the engine reports a type it has no name
    for (5) for the joint 9. *)
Definition misreported (i : Z) : rawJointInfo :=
  {| jointIndex := Z.to_nat i;
     jointName := nth (Z.to_nat i) (map fst jointID) EmptyString;
     jointType := if (i =? 9)%Z then 5 else 0;
     jointLowerLimit := 0;
     jointUpperLimit := 0.8;
     jointMaxForce := 150;
     jointMaxVelocity := 3 |}.

(** A robot whose table holds the two inner knuckle joints only, under
    the ids of the [jointID] dict. *)
Definition knuckle (j : nat) (key : string) : jointInfo :=
  {| id := j; name := key; type := "REVOLUTE";
     lowerLimit := 0; upperLimit := 0.8;
     maxForce := 150; maxVelocity := 3; controllable := true |}.

Definition handy : Self :=
  {| eeID := 7;
     joints := fun key =>
       if String.eqb key "robotiq_85_left_inner_knuckle_joint"
       then Some (knuckle 14 key)
       else if String.eqb key "robotiq_85_right_inner_knuckle_joint"
            then Some (knuckle 16 key)
            else None;
     jointsLowerLimit := [0; 0];
     jointsUpperLimit := [0.8; 0.8] |}.

(** The eighteen joints of the robot as the engine reports them, named
    and numbered as in the [jointID] dict; all revolute, within
    [[0, 0.8]]. *)
Definition reported (i : Z) : rawJointInfo :=
  {| jointIndex := Z.to_nat i;
     jointName := nth (Z.to_nat i) (map fst jointID) EmptyString;
     jointType := 0;
     jointLowerLimit := 0;
     jointUpperLimit := 0.8;
     jointMaxForce := 150;
     jointMaxVelocity := 3 |}.

End DemoRobot.

(** ** Further notions used to state what the pour does *)

Module PourRunSpec.

Import Py Bullet BottlePour PourSpec.

(** The number of cells of the sublattice of [set_content] along each
    axis, for a bottle and a particle of the given boxes. *)
Definition x_cells (bottle content : aabb) : option Z :=
  np_floor_div
    (Rabs (vx (fst bottle)) - Rabs (vx (snd content) - vx (fst content)) * 2)
    (Rabs (vx (snd content) - vx (fst content))).

Definition y_cells (bottle content : aabb) : option Z :=
  np_floor_div
    (Rabs (vy (snd bottle) - vy (fst bottle))
     - Rabs (vy (snd content) - vy (fst content)) * 4)
    (Rabs (vy (snd content) - vy (fst content))).

Definition z_cells (bottle content : aabb) : option Z :=
  np_floor_div
    (Rabs (vz (snd bottle) - vz (fst bottle))
     - Rabs (vz (snd content) - vz (fst content)) * 4)
    (Rabs (vz (snd content) - vz (fst content))).

(** The content fits in the bottle: at least one cell along each axis. *)
Definition fits (bottle content : aabb) : Prop :=
  cells (x_cells bottle content)
  /\ cells (y_cells bottle content)
  /\ cells (z_cells bottle content).

(** The distance between two points, seen from above. *)
Definition horizontal_distance (a b : vec3) : R :=
  sqrt ((vx a - vx b) * (vx a - vx b) + (vy a - vy b) * (vy a - vy b)).

(** The collision filters and the removals in a sequence of calls. *)
Definition is_filter (c : call) : bool :=
  match c with
  | SetCollisionFilterPair _ _ _ => true
  | _ => false
  end.

Definition count_filters (cs : list call) : nat :=
  List.length (filter is_filter cs).

(** The room [set_content] leaves for the particles along each axis of
    the bottle. *)
Definition x_room (bottle content : aabb) : R :=
  Rabs (vx (fst bottle)) - Rabs (vx (snd content) - vx (fst content)) * 2.

Definition y_room (bottle content : aabb) : R :=
  Rabs (vy (snd bottle) - vy (fst bottle))
  - Rabs (vy (snd content) - vy (fst content)) * 4.

Definition z_room (bottle content : aabb) : R :=
  Rabs (vz (snd bottle) - vz (fst bottle))
  - Rabs (vz (snd content) - vz (fst content)) * 4.

(** A position seen from the base of a bottle whose yaw is [angle]: how
    far behind the base along the axis of the bottle, how far to its
    side, and how far above. *)
Definition bottle_frame (angle : R) (base pos : vec3) : vec3 :=
  (cos angle * (vx base - vx pos) - sin angle * (vy pos - vy base),
   sin angle * (vx base - vx pos) + cos angle * (vy pos - vy base),
   vz pos - vz base).

(** The offsets [set_content] can draw. *)
Definition in_sublattice (bottle content : aabb) (off : vec3) : Prop :=
  0 < vx off <= x_room bottle content
  /\ vy (fst bottle) - vy (fst content) * 2 < vy off
     <= vy (fst bottle) - vy (fst content) * 2 + y_room bottle content
  /\ vz (fst bottle) - vz (fst content) * 2 < vz off
     <= vz (fst bottle) - vz (fst content) * 2 + z_room bottle content.

(** A video is asked for and the object has no name. *)
Definition video_without_name (check_process : bool)
  (mp4_dir object_name : option string) : Prop :=
  mp4_dir <> None /\ check_process = true /\ object_name = None.

(** The content fits in the bottles [bottle_pour] loads: whatever the
    state of the engine, the box it reports for a bottle just loaded from
    [bottle_urdf], once its mass is set, has room for the content. *)
Definition bottle_fits (E : Env) (P : Params) : Prop :=
  forall ph : physics E,
    let load := LoadURDF (bottle_urdf P) (0, 0, 0) identity false in
    let bottle := returned E load ph in
    fits (getAABB E bottle
            (effect E (ChangeDynamics bottle [("mass"%string, 1)])
               (effect E load ph)))
      (content_aabb P).

(** The pour of one indent up to the end of the hold: what [pour_once]
    does before it counts the spilled particles and removes the bottle. *)
Definition pour_steps {E : Env} (indent planar_angle : R) (j : Z)
  (self : Self E) : result (Self E) :=
  let '(bottle_constraint_Id, self) :=
    place_bottle indent planar_angle j self in
  self <- set_content planar_angle self ;;
  let pivot := pour_pos self in
  self <- tip bottle_constraint_Id pivot planar_angle self ;;
  hold self.

(** What [pour_once] does after the count: the bottle is removed. *)
Definition after_pour {E : Env} (held : Self E) : Self E :=
  p_ (RemoveBody (bottle_id held)) held.

(** The state in which the pour of indent [j] starts, given the states
    [helds] in which the holds of the indents before it ended. *)
Definition start_of {E : Env} (first : Self E) (helds : list (Self E))
  (j : nat) : Self E :=
  match j with
  | O => first
  | S k => after_pour (nth k helds first)
  end.

(** The particles spilled in the world of a state. *)
Definition count_in {E : Env} (held : Self E) : Z :=
  Z.of_nat (List.length (spilled (params held) (phys (world held)))).

End PourRunSpec.

(** ** A bottle to fill *)

Module DemoPour.

Import Py Bullet BottlePour.

(** The demonstration object once a bottle is loaded: the engine reports
    a cube of side 1 for it. *)
Definition bottled : Self Demo.shelf :=
  {| params := params Demo.pouring;
     bottle_list := [6%nat];
     pour_pos := (0, 0, 6 / 10);
     bottle_id := 6;
     bottle_pos := (0, 0, 1);
     bottle_aabb := ((-1 / 2, -1 / 2, -1 / 2), (1 / 2, 1 / 2, 1 / 2));
     world := world Demo.pouring |}.

(** An engine that remembers the file every body was loaded from, and
    reports a cube of side 1 for a body loaded from the bottle file and a
    cube of side 2 cm for any other; nothing moves. *)
Definition bench : Env :=
  {| physics := list string;
     connect := [];
     effect := fun c ph =>
       match c with
       | LoadURDF fileName _ _ _ => ph ++ [fileName]
       | _ => ph
       end;
     returned := fun _ ph => List.length ph;
     getAABB := fun b ph =>
       if String.eqb (nth b ph EmptyString) "bottle.urdf"
       then ((-1 / 2, -1 / 2, -1 / 2), (1 / 2, 1 / 2, 1 / 2))
       else ((-1 / 100, -1 / 100, -1 / 100), (1 / 100, 1 / 100, 1 / 100));
     getBasePositionAndOrientation := fun _ _ =>
       ((0, 0, 0), QuaternionFromEuler 0 0 0);
     random_random := fun _ => 0 |}.

(** The attributes [__init__] has not created, at values of no
    consequence. *)
Definition blank : Self bench :=
  {| params := params Demo.pouring;
     bottle_list := [7%nat];
     pour_pos := (1, 1, 1);
     bottle_id := 7;
     bottle_pos := (1, 1, 1);
     bottle_aabb := ((0, 0, 0), (0, 0, 0));
     world := p_connect bench |}.

End DemoPour.

(* ================================================================== *)
(** * Part II: the properties                                          *)
(* ================================================================== *)

(** ** Facts about the Python layer *)

Module PyFacts.

Import Py.

Lemma range_length (n : Z) : List.length (range n) = Z.to_nat n.
Proof. unfold range. now rewrite length_map, length_seq. Qed.

Lemma range_succ (n : Z) : (0 <= n)%Z -> range (n + 1) = range n ++ [n].
Proof.
  intros Hn. unfold range.
  replace (Z.to_nat (n + 1)) with (S (Z.to_nat n)) by lia.
  rewrite seq_S, map_app. simpl. now rewrite Z2Nat.id.
Qed.

Lemma range_nth_error (n i : Z) :
  (0 <= i < n)%Z -> nth_error (range n) (Z.to_nat i) = Some i.
Proof.
  intros Hi. unfold range.
  rewrite nth_error_map, nth_error_seq.
  destruct (Nat.ltb_spec (Z.to_nat i) (Z.to_nat n)); [|lia].
  simpl. now rewrite Z2Nat.id by lia.
Qed.

Lemma for_each_app {St A : Type} (l1 l2 : list A) (body : A -> St -> result St)
  (s : St) :
  for_each (l1 ++ l2) body s
  = bind (for_each l1 body s) (for_each l2 body).
Proof.
  revert s. induction l1 as [|a l1 IH]; intros s; simpl; [reflexivity|].
  destruct (body a s); simpl; [apply IH|reflexivity].
Qed.

Lemma for_range_succ {St : Type} (n : Z) (body : Z -> St -> result St) (s : St) :
  (0 <= n)%Z ->
  for_range (n + 1) body s = bind (for_range n body s) (body n).
Proof.
  intros Hn. unfold for_range. rewrite range_succ, for_each_app by exact Hn.
  destruct (for_each (range n) body s); simpl; [|reflexivity].
  now destruct (body n a).
Qed.

(** The loop rule: an invariant that every iteration re-establishes holds
    when the loop ends, and the loop ends normally. *)
Lemma for_range_invariant {St : Type} (P : Z -> St -> Prop) (n : Z)
  (body : Z -> St -> result St) (s : St) :
  (0 <= n)%Z ->
  P 0%Z s ->
  (forall i t, (0 <= i < n)%Z -> P i t ->
               exists t', body i t = Ok t' /\ P (i + 1)%Z t') ->
  exists s', for_range n body s = Ok s' /\ P n s'.
Proof.
  intros Hn H0 Hstep.
  assert (Hall : forall k : nat, (Z.of_nat k <= n)%Z ->
            exists s', for_range (Z.of_nat k) body s = Ok s'
                       /\ P (Z.of_nat k) s').
  { induction k as [|k IH]; intros Hk.
    - exists s. split; [reflexivity|exact H0].
    - destruct IH as [t [Ht HP]]; [lia|].
      destruct (Hstep (Z.of_nat k) t) as [t' [Hb HP']]; [lia|exact HP|].
      exists t'. replace (Z.of_nat (S k)) with (Z.of_nat k + 1)%Z by lia.
      rewrite for_range_succ by lia. rewrite Ht. simpl. now split. }
  destruct (Hall (Z.to_nat n)) as [s' Hs']; [lia|].
  rewrite Z2Nat.id in Hs' by exact Hn. now exists s'.
Qed.

(** A loop whose first iteration raises, raises. *)
Lemma for_range_first_raises {St : Type} (n : Z) (body : Z -> St -> result St)
  (s : St) (e : exn) :
  (0 < n)%Z -> body 0%Z s = Raise e -> for_range n body s = Raise e.
Proof.
  intros Hn Hb. unfold for_range, range.
  destruct (Z.to_nat n) as [|k] eqn:Hk; [lia|].
  simpl. now rewrite Hb.
Qed.

Lemma getitem_in_range {A : Type} (l : list A) (k : Z) (a : A) :
  (0 <= k)%Z -> nth_error l (Z.to_nat k) = Some a -> getitem l k = Ok a.
Proof.
  intros Hk Hn. unfold getitem.
  destruct (Z.ltb_spec k 0); [lia|].
  destruct (Z.ltb_spec k 0); [lia|]. now rewrite Hn.
Qed.

Lemma getitem_beyond {A : Type} (l : list A) (k : Z) :
  (Z.of_nat (List.length l) <= k)%Z -> getitem l k = Raise IndexError.
Proof.
  intros Hk. unfold getitem.
  destruct (Z.ltb_spec k 0); [lia|].
  destruct (Z.ltb_spec k 0); [lia|].
  destruct (nth_error l (Z.to_nat k)) eqn:Hn; [|reflexivity].
  assert (Z.to_nat k < List.length l)%nat.
  { apply nth_error_Some. now rewrite Hn. }
  lia.
Qed.

Lemma ltb_true (a b : R) : ltb a b = true <-> a < b.
Proof. unfold ltb. destruct (Rlt_dec a b); split; intros; congruence || lra. Qed.

Lemma leb_true (a b : R) : leb a b = true <-> a <= b.
Proof. unfold leb. destruct (Rle_dec a b); split; intros; congruence || lra. Qed.

Lemma int_IZR (z : Z) (x : R) : x = IZR z -> int_ x = z.
Proof.
  intros ->. unfold int_. destruct (Rle_dec 0 (IZR z)).
  - apply ZfloorZ.
  - unfold Zceil. rewrite <- opp_IZR, ZfloorZ. lia.
Qed.

(** [math.floor(i / n)] is the integer quotient when [n] is positive. *)
Lemma floor_truediv (i n : Z) :
  (0 < n)%Z -> math_floor (IZR i / IZR n) = (i / n)%Z.
Proof.
  intros Hn. unfold math_floor. apply Zfloor_eq.
  assert (Hn' : 0 < IZR n) by now apply IZR_lt.
  pose proof (Z.div_mod i n ltac:(lia)) as Hdm.
  pose proof (Z.mod_pos_bound i n Hn) as Hm.
  assert (Hi : IZR i = IZR n * IZR (i / n) + IZR (i mod n)).
  { now rewrite <- mult_IZR, <- plus_IZR, <- Hdm. }
  assert (H0 : 0 <= IZR (i mod n)) by (apply IZR_le; lia).
  assert (H1 : IZR (i mod n) < IZR n) by (apply IZR_lt; lia).
  split.
  - apply Rmult_le_reg_r with (IZR n); [exact Hn'|].
    unfold Rdiv. rewrite Rmult_assoc, Rinv_l by lra. nra.
  - apply Rmult_lt_reg_r with (IZR n); [exact Hn'|].
    unfold Rdiv. rewrite Rmult_assoc, Rinv_l by lra. nra.
Qed.

End PyFacts.

(** ** The drop lattice: [reset_sphere_drop] *)

Module LatticeFacts.

Import Py Bullet Containability LatticeSpec PyFacts.

Lemma linspace_spec (a b : R) (n : Z) :
  (0 <= n)%Z ->
  exists l, linspace a b n = Ok l
    /\ List.length l = Z.to_nat n
    /\ forall k, (0 <= k < n)%Z ->
         nth_error l (Z.to_nat k) = Some (a + IZR k * ((b - a) / IZR (n - 1))).
Proof.
  intros Hn. unfold linspace.
  destruct (Z.ltb_spec n 0); [lia|].
  eexists. split; [reflexivity|]. split.
  - destruct (0 <? n - 1)%Z; now rewrite !length_map, range_length.
  - intros k Hk.
    destruct (Z.ltb_spec 0 (n - 1)).
    + rewrite !nth_error_map, range_nth_error by exact Hk. simpl.
      f_equal. lra.
    + assert (k = 0%Z) by lia. subst k.
      rewrite !nth_error_map, range_nth_error by exact Hk. simpl.
      f_equal. lra.
Qed.

Lemma grid_coord_bounds (c r : R) (n k : Z) :
  0 <= r -> (0 <= k < n)%Z ->
  c - r / 2 <= grid_coord c r n k <= c + r / 2.
Proof.
  intros Hr Hk. unfold grid_coord.
  destruct (Z.eq_dec n 1) as [->|Hn1].
  - assert (k = 0%Z) by lia. subst k. lra.
  - assert (Hd : 0 < IZR (n - 1)) by (apply IZR_lt; lia).
    assert (Hk0 : 0 <= IZR k) by (apply IZR_le; lia).
    assert (Hk1 : IZR k <= IZR (n - 1)) by (apply IZR_le; lia).
    assert (Hq : 0 <= IZR k * (r / IZR (n - 1)) <= r).
    { split.
      - apply Rmult_le_pos; [exact Hk0|].
        apply Rmult_le_pos; [exact Hr|]. left. now apply Rinv_0_lt_compat.
      - apply Rmult_le_reg_r with (IZR (n - 1)); [exact Hd|].
        unfold Rdiv. rewrite !Rmult_assoc, Rinv_l by lra. nra. }
    lra.
Qed.

Lemma grid_coord_first (c r : R) (n : Z) : grid_coord c r n 0 = c - r / 2.
Proof. unfold grid_coord. lra. Qed.

Lemma grid_coord_last (c r : R) (n : Z) :
  (2 <= n)%Z -> grid_coord c r n (n - 1) = c + r / 2.
Proof.
  intros Hn. unfold grid_coord.
  assert (Hd : 0 < IZR (n - 1)) by (apply IZR_lt; lia).
  unfold Rdiv at 2. rewrite (Rmult_comm r), <- Rmult_assoc, Rinv_r by lra.
  lra.
Qed.

Lemma grid_coord_step (c r : R) (n k : Z) :
  grid_coord c r n (k + 1) - grid_coord c r n k = r / IZR (n - 1).
Proof. unfold grid_coord. rewrite plus_IZR. lra. Qed.

Lemma xy_range_nonneg (box : aabb) :
  0 <= fst (xy_range box) /\ 0 <= snd (xy_range box).
Proof. unfold xy_range. simpl. split; apply Rabs_pos. Qed.

(** The grid dimensions are defined as soon as the footprint has an area. *)
Lemma grid_dims_defined (box : aabb) :
  fst (xy_range box) * snd (xy_range box) <> 0 ->
  let d := sqrt (IZR sphere_num / (fst (xy_range box) * snd (xy_range box))) in
  grid_dims box = Ok (Zfloor (d * fst (xy_range box)),
                      Zfloor (d * snd (xy_range box)))
  /\ (0 <= Zfloor (d * fst (xy_range box)))%Z
  /\ (0 <= Zfloor (d * snd (xy_range box)))%Z.
Proof.
  intros Harea d.
  destruct (xy_range_nonneg box) as [Hx Hy].
  assert (Hq : 0 <= IZR sphere_num / (fst (xy_range box) * snd (xy_range box))).
  { apply Rmult_le_pos; [unfold sphere_num; lra|].
    left. apply Rinv_0_lt_compat. nra. }
  split; [|split].
  - unfold grid_dims, truediv.
    destruct (Req_dec_T _ 0) as [H0|_]; [contradiction|].
    cbn [bind]. unfold math_sqrt.
    destruct (Rlt_dec _ 0) as [Hneg|_]; [lra|]. reflexivity.
  - apply Zfloor_lub. apply Rmult_le_pos; [apply sqrt_pos|exact Hx].
  - apply Zfloor_lub. apply Rmult_le_pos; [apply sqrt_pos|exact Hy].
Qed.

(** A footprint without area: the density cannot be computed. *)
Lemma grid_dims_flat (box : aabb) :
  fst (xy_range box) * snd (xy_range box) = 0 ->
  grid_dims box = Raise ZeroDivisionError.
Proof.
  intros Harea. unfold grid_dims, truediv.
  now destruct (Req_dec_T _ 0) as [_|H0].
Qed.

Lemma gravity_after_snoc (cs : list call) (c : call) :
  gravity_after (cs ++ [c])
  = match c with
    | SetGravity gx gy gz => (gx, gy, gz)
    | _ => gravity_after cs
    end.
Proof. unfold gravity_after. rewrite fold_left_app. now destruct c. Qed.

Section Placement.

Context {E : Env} (box : aabb) (nx ny : Z) (xs ys : list R).

Hypothesis Hnx : (1 <= nx)%Z.
Hypothesis Hny : (0 <= ny)%Z.
Hypothesis Hxs :
  linspace (- fst (xy_range box) / 2) (fst (xy_range box) / 2) nx = Ok xs.
Hypothesis Hys :
  linspace (- snd (xy_range box) / 2) (snd (xy_range box) / 2) ny = Ok ys.

Lemma sphere_drop_x_nth (k : Z) :
  (0 <= k < nx)%Z ->
  getitem (map (fun v => v + fst (xy_center box)) xs) k
  = Ok (grid_coord (fst (xy_center box)) (fst (xy_range box)) nx k).
Proof.
  intros Hk.
  destruct (linspace_spec (- fst (xy_range box) / 2) (fst (xy_range box) / 2)
              nx ltac:(lia)) as [l [Hl [_ Hnth]]].
  rewrite Hxs in Hl. injection Hl as <-.
  apply getitem_in_range; [lia|].
  rewrite nth_error_map, Hnth by exact Hk. simpl. f_equal.
  unfold grid_coord. lra.
Qed.

Lemma sphere_drop_y_nth (k : Z) :
  (0 <= k < ny)%Z ->
  getitem (map (fun v => v + snd (xy_center box)) ys) k
  = Ok (grid_coord (snd (xy_center box)) (snd (xy_range box)) ny k).
Proof.
  intros Hk.
  destruct (linspace_spec (- snd (xy_range box) / 2) (snd (xy_range box) / 2)
              ny Hny) as [l [Hl [_ Hnth]]].
  rewrite Hys in Hl. injection Hl as <-.
  apply getitem_in_range; [lia|].
  rewrite nth_error_map, Hnth by exact Hk. simpl. f_equal.
  unfold grid_coord. lra.
Qed.

Lemma sphere_drop_y_beyond (k : Z) :
  (ny <= k)%Z ->
  getitem (map (fun v => v + snd (xy_center box)) ys) k = Raise IndexError.
Proof.
  intros Hk.
  destruct (linspace_spec (- snd (xy_range box) / 2) (snd (xy_range box) / 2)
              ny Hny) as [l [Hl [Hlen _]]].
  rewrite Hys in Hl. injection Hl as <-.
  apply getitem_beyond. rewrite length_map, Hlen. lia.
Qed.

(** Inside the lattice the [try] succeeds and no draw is consumed. *)
Lemma sphere_start_pos_lattice (i : Z) (w : World E) :
  (0 <= i < nx * ny)%Z ->
  sphere_start_pos (map (fun v => v + fst (xy_center box)) xs)
    (map (fun v => v + snd (xy_center box)) ys)
    (vz (snd box) + 0.01) (xy_center box) (xy_range box)
    (i mod nx) (i / nx) w
  = (lattice_pos box nx ny i, w).
Proof.
  intros Hi. unfold sphere_start_pos.
  rewrite sphere_drop_x_nth by (apply Z.mod_pos_bound; lia).
  cbn [bind].
  rewrite sphere_drop_y_nth.
  - reflexivity.
  - split; [apply Z.div_pos; lia|].
    apply Z.div_lt_upper_bound; lia.
Qed.

(** Beyond the lattice the row index is out of range and the [except]
    branch draws twice. *)
Lemma sphere_start_pos_fallback (i : Z) (w : World E) :
  (nx * ny <= i)%Z ->
  sphere_start_pos (map (fun v => v + fst (xy_center box)) xs)
    (map (fun v => v + snd (xy_center box)) ys)
    (vz (snd box) + 0.01) (xy_center box) (xy_range box)
    (i mod nx) (i / nx) w
  = (fallback_pos box (random_random E (drawn w))
       (random_random E (S (drawn w))),
     {| phys := phys w; calls := calls w; drawn := S (S (drawn w)) |}).
Proof.
  intros Hi. unfold sphere_start_pos.
  rewrite sphere_drop_x_nth by (apply Z.mod_pos_bound; lia).
  cbn [bind].
  rewrite sphere_drop_y_beyond.
  - reflexivity.
  - apply Z.div_le_lower_bound; lia.
Qed.

End Placement.

(** [reset_sphere_drop] on a footprint with at least one column: it
    returns, with one drop position per probe, each placed as [placed]
    says. *)
Lemma reset_sphere_drop_spec {E : Env} (box : aabb) (nx ny : Z)
  (self : Self E) :
  grid_dims box = Ok (nx, ny) ->
  (1 <= nx)%Z -> (0 <= ny)%Z ->
  (sphere_num <= Z.of_nat (List.length (sphere_id self)))%Z ->
  exists self',
    reset_sphere_drop box self = Ok self'
    /\ same_object self self'
    /\ List.length (sphere_drop_pos self') = Z.to_nat sphere_num
    /\ forall i, (0 <= i < sphere_num)%Z ->
         exists pos,
           nth_error (sphere_drop_pos self') (Z.to_nat i) = Some pos
           /\ placed E box nx ny i pos.
Proof.
  intros Hdims Hnx Hny Hids.
  unfold reset_sphere_drop. rewrite Hdims. cbn [bind fst snd].
  destruct (linspace_spec (- fst (xy_range box) / 2) (fst (xy_range box) / 2)
              nx ltac:(lia)) as [xs [Hxs _]].
  destruct (linspace_spec (- snd (xy_range box) / 2) (snd (xy_range box) / 2)
              ny Hny) as [ys [Hys _]].
  rewrite Hxs. cbn [bind]. rewrite Hys. cbn [bind].
  destruct (for_range_invariant
    (fun i t =>
       same_object self t
       /\ List.length (sphere_drop_pos t) = Z.to_nat i
       /\ forall k, (0 <= k < i)%Z ->
            exists pos,
              nth_error (sphere_drop_pos t) (Z.to_nat k) = Some pos
              /\ placed E box nx ny k pos)
    sphere_num
    (place_sphere nx (map (fun v => v + fst (xy_center box)) xs)
       (map (fun v => v + snd (xy_center box)) ys) (vz (snd box) + 0.01)
       (xy_center box) (xy_range box))
    (set_sphere_drop_pos [] self)) as [self' [Hrun [Hsame [Hlen Hall]]]].
  - unfold sphere_num. lia.
  - split; [now repeat split|]. split; [reflexivity|]. intros k Hk. lia.
  - intros i t Hi (Hsame & Hlen & Hall).
    destruct Hsame as (S1 & S2 & S3 & S4 & S5 & S6).
    assert (Hid : exists sphere, getitem (sphere_id t) i = Ok sphere).
    { destruct (nth_error (sphere_id t) (Z.to_nat i)) as [b|] eqn:Hb.
      - exists b. apply getitem_in_range; [lia|exact Hb].
      - apply nth_error_None in Hb. rewrite S1 in Hb. lia. }
    destruct Hid as [sphere Hsphere].
    unfold place_sphere, truediv.
    destruct (Req_dec_T (IZR nx) 0) as [H0|_].
    { apply eq_IZR in H0. lia. }
    cbn [bind]. rewrite floor_truediv by lia.
    unfold mod_. destruct (Z.eqb_spec nx 0) as [H0|_]; [lia|].
    cbn [bind].
    destruct (Z.lt_ge_cases i (nx * ny)) as [Hin|Hout].
    + rewrite (sphere_start_pos_lattice box nx ny xs ys Hnx Hny Hxs Hys)
        by lia.
      cbn [sphere_id set_sphere_drop_pos set_world].
      rewrite Hsphere. cbn [bind].
      eexists. split; [reflexivity|].
      split; [|split].
      * unfold p_, same_object. cbn. rewrite gravity_after_snoc.
        repeat split; assumption.
      * cbn. rewrite length_app, Hlen. simpl. lia.
      * intros k Hk. cbn.
        destruct (Z.eq_dec k i) as [->|Hne].
        -- exists (lattice_pos box nx ny i). split.
           ++ rewrite nth_error_app2 by lia.
              now rewrite Hlen, Nat.sub_diag.
           ++ split; [reflexivity|lia].
        -- destruct (Hall k ltac:(lia)) as [pos [Hpos Hpl]].
           exists pos. split; [|exact Hpl].
           rewrite nth_error_app1; [exact Hpos|].
           apply nth_error_Some. now rewrite Hpos.
    + rewrite (sphere_start_pos_fallback box nx ny xs ys Hnx Hny Hxs Hys)
        by lia.
      cbn [sphere_id set_sphere_drop_pos set_world].
      rewrite Hsphere. cbn [bind].
      eexists. split; [reflexivity|].
      split; [|split].
      * unfold p_, same_object. cbn. rewrite gravity_after_snoc.
        repeat split; assumption.
      * cbn. rewrite length_app, Hlen. simpl. lia.
      * intros k Hk. cbn.
        destruct (Z.eq_dec k i) as [->|Hne].
        -- eexists. split.
           ++ rewrite nth_error_app2 by lia.
              now rewrite Hlen, Nat.sub_diag.
           ++ split; [lia|]. intros _. eexists. reflexivity.
        -- destruct (Hall k ltac:(lia)) as [pos [Hpos Hpl]].
           exists pos. split; [|exact Hpl].
           rewrite nth_error_app1; [exact Hpos|].
           apply nth_error_Some. now rewrite Hpos.
  - exists self'. unfold for_range in Hrun |- *. now rewrite Hrun.
Qed.

Lemma grid_dims_positive_ranges (box : aabb) :
  0 < fst (xy_range box) -> 0 < snd (xy_range box) ->
  grid_dims box = Ok (columns box, rows box)
  /\ (0 <= columns box)%Z /\ (0 <= rows box)%Z.
Proof.
  intros Hx Hy. apply grid_dims_defined. nra.
Qed.

Lemma lattice_pos_over_footprint (box : aabb) (nx ny i : Z) :
  (1 <= nx)%Z -> (0 <= i < nx * ny)%Z ->
  over_footprint box (lattice_pos box nx ny i).
Proof.
  intros Hnx Hi. destruct (xy_range_nonneg box) as [Hx Hy].
  unfold over_footprint, lattice_pos, vx, vy. cbn [fst snd]. split.
  - apply grid_coord_bounds; [exact Hx|]. apply Z.mod_pos_bound. lia.
  - apply grid_coord_bounds; [exact Hy|]. split.
    + apply Z.div_pos; lia.
    + apply Z.div_lt_upper_bound; lia.
Qed.

Lemma fallback_pos_quadrant (box : aabb) (u v : R) :
  0 < fst (xy_range box) -> 0 < snd (xy_range box) ->
  0 <= u < 1 -> 0 <= v < 1 ->
  fst (xy_center box) <= vx (fallback_pos box u v)
    < fst (xy_center box) + fst (xy_range box) / 2
  /\ snd (xy_center box) <= vy (fallback_pos box u v)
    < snd (xy_center box) + snd (xy_range box) / 2.
Proof.
  intros Hx Hy Hu Hv. unfold fallback_pos, vx, vy. cbn [fst snd].
  split; split; nra.
Qed.

(** C10.  Every fallback position (the probes beyond the capacity of the
    lattice) lies in the quadrant of the footprint at and above the centre
    on both axes, at the lattice drop height plus 0.05, which is 6 cm above
    the top of the box. *)
Theorem reset_sphere_drop_fallback_quadrant {E : Env} (box : aabb)
  (self : Self E) :
  unit_draws E ->
  0 < fst (xy_range box) -> 0 < snd (xy_range box) ->
  (1 <= columns box)%Z ->
  (sphere_num <= Z.of_nat (List.length (sphere_id self)))%Z ->
  exists self',
    reset_sphere_drop box self = Ok self'
    /\ forall i, (columns box * rows box <= i < sphere_num)%Z ->
         exists pos,
           nth_error (sphere_drop_pos self') (Z.to_nat i) = Some pos
           /\ fst (xy_center box) <= vx pos
               < fst (xy_center box) + fst (xy_range box) / 2
           /\ snd (xy_center box) <= vy pos
               < snd (xy_center box) + snd (xy_range box) / 2
           /\ vz pos = (vz (snd box) + 0.01) + 0.05
           /\ vz pos = vz (snd box) + 0.06.
Proof.
  intros Hdraws Hx Hy Hnx Hids.
  destruct (grid_dims_positive_ranges box Hx Hy) as [Hdims [_ Hny]].
  destruct (reset_sphere_drop_spec box _ _ self Hdims Hnx Hny Hids)
    as [self' (Hrun & _ & Hlen & Hall)].
  exists self'. split; [exact Hrun|].
  intros i Hi.
  assert (Hi0 : (0 <= i)%Z) by nia.
  destruct (Hall i ltac:(lia)) as [pos [Hpos [_ Hfall]]].
  exists pos. split; [exact Hpos|].
  destruct (Hfall ltac:(lia)) as [k ->].
  destruct (fallback_pos_quadrant box (random_random E k)
              (random_random E (S k)) Hx Hy (Hdraws _) (Hdraws _))
    as [Hqx Hqy].
  split; [exact Hqx|]. split; [exact Hqy|].
  unfold fallback_pos, vz. cbn [snd]. split; [reflexivity|lra].
Qed.

(** With no column the very first probe cannot be placed. *)
Lemma placement_without_column {E : Env} (xs ys : list R) (z : R)
  (center extent : R * R) (self : Self E) :
  for_range sphere_num (place_sphere 0 xs ys z center extent) self
  = Raise ZeroDivisionError.
Proof.
  apply for_range_first_raises; [reflexivity|].
  unfold place_sphere, truediv.
  destruct (Req_dec_T (IZR 0) 0) as [_|H0]; [reflexivity|].
  now elim H0.
Qed.

(** C1.  A footprint with an area and no column: the first iteration of
    the placement loop divides by [x_sphere_num = 0] before the [try], and
    [reset_sphere_drop] raises [ZeroDivisionError] instead of falling
    back. *)
Theorem reset_sphere_drop_no_column_raises {E : Env} (box : aabb)
  (self : Self E) :
  0 < fst (xy_range box) -> 0 < snd (xy_range box) ->
  columns box = 0%Z ->
  reset_sphere_drop box self = Raise ZeroDivisionError.
Proof.
  intros Hx Hy Hnx.
  destruct (grid_dims_positive_ranges box Hx Hy) as [Hdims [_ Hny]].
  unfold reset_sphere_drop. rewrite Hdims, Hnx. cbn [bind fst snd].
  destruct (linspace_spec (- fst (xy_range box) / 2) (fst (xy_range box) / 2)
              0 ltac:(lia)) as [xs [Hxs _]].
  destruct (linspace_spec (- snd (xy_range box) / 2) (snd (xy_range box) / 2)
              (rows box) Hny) as [ys [Hys _]].
  rewrite Hxs. cbn [bind]. rewrite Hys. cbn [bind].
  apply placement_without_column.
Qed.

(** A footprint without area raises as well, before any probe is placed. *)
Lemma reset_sphere_drop_flat_raises {E : Env} (box : aabb) (self : Self E) :
  fst (xy_range box) * snd (xy_range box) = 0 ->
  reset_sphere_drop box self = Raise ZeroDivisionError.
Proof.
  intros Harea. unfold reset_sphere_drop.
  now rewrite (grid_dims_flat box Harea).
Qed.

(** No row but at least one column: the row index is out of range for
    every probe, the bare [except] catches it, and all probes fall back. *)
Lemma reset_sphere_drop_no_row_falls_back {E : Env} (box : aabb)
  (self : Self E) :
  0 < fst (xy_range box) -> 0 < snd (xy_range box) ->
  (1 <= columns box)%Z -> rows box = 0%Z ->
  (sphere_num <= Z.of_nat (List.length (sphere_id self)))%Z ->
  exists self',
    reset_sphere_drop box self = Ok self'
    /\ forall i, (0 <= i < sphere_num)%Z ->
         exists pos k,
           nth_error (sphere_drop_pos self') (Z.to_nat i) = Some pos
           /\ pos = fallback_pos box (random_random E k)
                      (random_random E (S k)).
Proof.
  intros Hx Hy Hnx Hny Hids.
  destruct (grid_dims_positive_ranges box Hx Hy) as [Hdims _].
  destruct (reset_sphere_drop_spec box _ _ self Hdims Hnx ltac:(lia) Hids)
    as [self' (Hrun & _ & Hlen & Hall)].
  exists self'. split; [exact Hrun|].
  intros i Hi. destruct (Hall i Hi) as [pos [Hpos [_ Hfall]]].
  destruct (Hfall ltac:(rewrite Hny; lia)) as [k Hk].
  exists pos, k. split; [exact Hpos|exact Hk].
Qed.

(** When [reset_sphere_drop] returns, the footprint had an area and at
    least one column. *)
Lemma reset_sphere_drop_returns_inv {E : Env} (box : aabb)
  (self self' : Self E) :
  reset_sphere_drop box self = Ok self' ->
  0 < fst (xy_range box) /\ 0 < snd (xy_range box) /\ (1 <= columns box)%Z.
Proof.
  intros Hrun. destruct (xy_range_nonneg box) as [Hx Hy].
  destruct (Req_dec_T (fst (xy_range box) * snd (xy_range box)) 0)
    as [Hflat|Harea].
  { rewrite (reset_sphere_drop_flat_raises box self Hflat) in Hrun.
    discriminate. }
  assert (Hx' : 0 < fst (xy_range box)) by nra.
  assert (Hy' : 0 < snd (xy_range box)) by nra.
  split; [exact Hx'|]. split; [exact Hy'|].
  destruct (grid_dims_positive_ranges box Hx' Hy') as [Hdims [Hnx Hny]].
  destruct (Z.eq_dec (columns box) 0) as [H0|Hne]; [|lia].
  exfalso. unfold reset_sphere_drop in Hrun.
  rewrite Hdims, H0 in Hrun. cbn [bind fst snd] in Hrun.
  destruct (linspace_spec (- fst (xy_range box) / 2) (fst (xy_range box) / 2)
              0 ltac:(lia)) as [xs [Hxs _]].
  destruct (linspace_spec (- snd (xy_range box) / 2) (snd (xy_range box) / 2)
              (rows box) Hny) as [ys [Hys _]].
  rewrite Hxs in Hrun. cbn [bind] in Hrun.
  rewrite Hys in Hrun. cbn [bind] in Hrun.
  rewrite placement_without_column in Hrun. discriminate.
Qed.

(** The constructor leaves the gravity at [(0, 0, -10)]. *)
Lemma init_gravity {E : Env} (obj_urdf : string) (pos orn : vec3) :
  gravity_after (calls (world (init (E := E) obj_urdf pos orn)))
  = (0, 0, -10).
Proof.
  unfold init, invoke_id.
  destruct (leb _ 0.1); reflexivity.
Qed.

End LatticeFacts.

(** ** The measurement: [checkincup] *)

Module MeasureFacts.

Import Py Bullet Containability ContainSpec PyFacts.

Lemma in_box_inside (box : aabb) (pos : vec3) :
  in_box box pos = true <-> inside box pos.
Proof.
  unfold in_box, inside, vx, vy, vz. cbn [fst snd].
  rewrite !andb_true_iff, !ltb_true. tauto.
Qed.



Lemma getitem_nth {A : Type} (l : list A) (k : Z) (d : A) :
  (0 <= k < Z.of_nat (List.length l))%Z ->
  getitem l k = Ok (nth (Z.to_nat k) l d).
Proof.
  intros Hk. apply getitem_in_range; [lia|].
  apply nth_error_nth'. lia.
Qed.

Lemma range_NoDup (n : Z) : NoDup (range n).
Proof.
  unfold range. apply Injective_map_NoDup.
  - intros a b. apply Nat2Z.inj.
  - apply seq_NoDup.
Qed.

Lemma range_In (n i : Z) : In i (range n) <-> (0 <= i < n)%Z.
Proof.
  unfold range. rewrite in_map_iff. split.
  - intros [k [<- Hk]]. apply in_seq in Hk. lia.
  - intros Hi. exists (Z.to_nat i). split; [lia|]. apply in_seq. lia.
Qed.

Lemma filter_range_succ (f : Z -> bool) (n : Z) :
  (0 <= n)%Z ->
  filter f (range (n + 1))
  = filter f (range n) ++ (if f n then [n] else []).
Proof.
  intros Hn. rewrite range_succ, filter_app by exact Hn. reflexivity.
Qed.

Section Checkincup.

Context {E : Env} (box : aabb) (self : Self E).

Hypothesis Hready : probes_ready self.

(** The loop of [checkincup], iteration by iteration: the drop positions
    kept so far are those of the probes in the box among the first [i]. *)
Lemma check_loop_spec (n : Z) (start : list vec3) :
  (0 <= n <= sphere_num)%Z ->
  for_range n (check_one box) (set_sphere_in_drop_pos start self)
  = Ok (set_sphere_in_drop_pos
          (start ++ map (drop_pos_of (sphere_drop_pos self))
                     (filter (fun i => in_box box
                                (sphere_pos (sphere_id self)
                                   (phys (world self)) i))
                        (range n)))
          self).
Proof.
  intros Hn. destruct Hready as [Hids Hdrops].
  destruct (for_range_invariant
    (fun i t =>
       t = set_sphere_in_drop_pos
             (start ++ map (drop_pos_of (sphere_drop_pos self))
                        (filter (fun i => in_box box
                                   (sphere_pos (sphere_id self)
                                      (phys (world self)) i))
                           (range i)))
             self)
    n (check_one box) (set_sphere_in_drop_pos start self))
    as [t [Hrun Ht]].
  - lia.
  - now rewrite app_nil_r.
  - intros i t Hi ->. unfold check_one.
    cbn [sphere_id set_sphere_in_drop_pos world sphere_drop_pos
         sphere_in_drop_pos].
    rewrite (getitem_nth (sphere_id self) i 0%nat) by lia. cbn [bind].
    fold (sphere_pos (sphere_id self) (phys (world self)) i).
    rewrite filter_range_succ by lia.
    destruct (in_box box (sphere_pos (sphere_id self) (phys (world self)) i)).
    + rewrite (getitem_nth (sphere_drop_pos self) i (0, 0, 0)) by lia.
      cbn [bind]. eexists. split; [reflexivity|].
      rewrite map_app, app_assoc. reflexivity.
    + eexists. split; [reflexivity|]. now rewrite app_nil_r.
  - now rewrite Hrun, Ht.
Qed.

Lemma checkincup_spec :
  checkincup box self
  = Ok (List.length (contained box (sphere_id self) (phys (world self))),
        set_sphere_in_drop_pos
          (map (drop_pos_of (sphere_drop_pos self))
             (contained box (sphere_id self) (phys (world self))))
          self).
Proof.
  unfold checkincup.
  rewrite (check_loop_spec sphere_num []) by (unfold sphere_num; lia).
  cbn [bind app sphere_in_drop_pos set_sphere_in_drop_pos].
  now rewrite length_map.
Qed.

End Checkincup.

Lemma contained_In {E : Env} (box : aabb) (ids : list nat) (ph : physics E)
  (i : Z) :
  In i (contained box ids ph)
  <-> (0 <= i < sphere_num)%Z /\ inside box (sphere_pos ids ph i).
Proof.
  unfold contained. rewrite filter_In, range_In, in_box_inside. tauto.
Qed.

Lemma contained_length {E : Env} (box : aabb) (ids : list nat)
  (ph : physics E) :
  (List.length (contained box ids ph) <= Z.to_nat sphere_num)%nat.
Proof.
  unfold contained.
  rewrite <- (range_length sphere_num). apply filter_length_le.
Qed.

(** C4.  [checkincup] returns the number of probes that are strictly
    inside the box on all three axes (centre and half extents from the
    corners of the box, everything magnified 100 times), keeps the drop
    positions of exactly those probes, and its count is between 0 and
    [sphere_num]. *)
Theorem checkincup_counts {E : Env} (box : aabb) (self : Self E) :
  probes_ready self ->
  exists (kept : list Z) (self' : Self E),
    checkincup box self = Ok (List.length kept, self')
    /\ NoDup kept
    /\ (forall i, In i kept <->
          (0 <= i < sphere_num)%Z
          /\ inside box (sphere_pos (sphere_id self) (phys (world self)) i))
    /\ sphere_in_drop_pos self'
       = map (drop_pos_of (sphere_drop_pos self)) kept
    /\ (0 <= Z.of_nat (List.length kept) <= sphere_num)%Z
    /\ world self' = world self.
Proof.
  intros Hready.
  exists (contained box (sphere_id self) (phys (world self))).
  eexists. split; [apply (checkincup_spec box self Hready)|].
  split.
  { unfold contained. apply NoDup_filter, range_NoDup. }
  split; [intros i; apply contained_In|].
  split; [reflexivity|].
  split; [|reflexivity].
  pose proof (contained_length box (sphere_id self) (phys (world self))).
  unfold sphere_num in *. lia.
Qed.

End MeasureFacts.

(** ** The agitation and the verdict: [get_containability] *)

Module AgitationFacts.

Import Py Bullet Containability LatticeSpec ContainSpec PyFacts LatticeFacts
  MeasureFacts.

Lemma int_T5 : int_ (1 * IZR simulation_iteration / 5) = 200%Z.
Proof. apply int_IZR. unfold simulation_iteration. lra. Qed.

Lemma int_T5' : int_ (IZR simulation_iteration / 5) = 200%Z.
Proof. apply int_IZR. unfold simulation_iteration. lra. Qed.

Lemma int_T2 : int_ (1 * IZR simulation_iteration / 2) = 500%Z.
Proof. apply int_IZR. unfold simulation_iteration. lra. Qed.

Lemma int_3T5 : int_ (3 * IZR simulation_iteration / 5) = 600%Z.
Proof. apply int_IZR. unfold simulation_iteration. lra. Qed.

Lemma int_9T10 : int_ (9 * IZR simulation_iteration / 10) = 900%Z.
Proof. apply int_IZR. unfold simulation_iteration. lra. Qed.

Lemma int_3T10 : int_ (3 * IZR simulation_iteration / 10) = 300%Z.
Proof. apply int_IZR. unfold simulation_iteration. lra. Qed.

(** The branch chain, phase by phase. *)
Lemma agitation_settle (i : Z) : (i <= 200)%Z -> agitation i = None.
Proof.
  intros Hi. unfold agitation.
  rewrite int_T5, int_T2, int_3T5, int_9T10.
  destruct (Z.ltb_spec 200 i); [lia|]. cbn [andb].
  destruct (Z.leb_spec 500 i); [lia|]. cbn [andb].
  destruct (Z.leb_spec 600 i); [lia|]. cbn [andb].
  destruct (Z.leb_spec 900 i); [lia|]. reflexivity.
Qed.

Lemma agitation_ramp_up (i : Z) :
  (200 < i < 500)%Z ->
  agitation i
  = Some (SetGravity (5 + 5 * sin (PI / 2 * IZR (i - 200) / 300))
            (5 + 5 * sin (PI / 2 * IZR (i - 200) / 300)) (-10)).
Proof.
  intros Hi. unfold agitation.
  rewrite int_T5, int_T5', int_T2, int_3T10.
  destruct (Z.ltb_spec 200 i); [|lia].
  destruct (Z.ltb_spec i 500); [|lia]. reflexivity.
Qed.

Lemma agitation_hold_pos (i : Z) :
  (500 <= i < 600)%Z -> agitation i = Some (SetGravity 10 10 (-10)).
Proof.
  intros Hi. unfold agitation.
  rewrite int_T5, int_T2, int_3T5.
  destruct (Z.ltb_spec i 500); [lia|]. rewrite andb_false_r.
  destruct (Z.leb_spec 500 i); [|lia].
  destruct (Z.ltb_spec i 600); [|lia]. reflexivity.
Qed.

Lemma agitation_ramp_down (i : Z) :
  (600 <= i < 900)%Z ->
  agitation i
  = Some (SetGravity (-5 - 5 * sin (PI / 2 * IZR (i - 600) / 300))
            (-5 - 5 * sin (PI / 2 * IZR (i - 600) / 300)) (-10)).
Proof.
  intros Hi. unfold agitation.
  rewrite int_T5, int_T2, int_3T5, int_9T10, int_3T10.
  destruct (Z.ltb_spec i 500); [lia|]. rewrite andb_false_r.
  destruct (Z.ltb_spec i 600); [lia|]. rewrite andb_false_r.
  destruct (Z.leb_spec 600 i); [|lia].
  destruct (Z.ltb_spec i 900); [|lia]. reflexivity.
Qed.

Lemma agitation_hold_neg (i : Z) :
  (900 <= i)%Z -> agitation i = Some (SetGravity (-10) (-10) (-10)).
Proof.
  intros Hi. unfold agitation.
  rewrite int_T5, int_T2, int_3T5, int_9T10.
  destruct (Z.ltb_spec i 500); [lia|]. rewrite andb_false_r.
  destruct (Z.ltb_spec i 600); [lia|]. rewrite andb_false_r.
  destruct (Z.ltb_spec i 900); [lia|]. rewrite andb_false_r.
  destruct (Z.leb_spec 900 i); [|lia]. reflexivity.
Qed.

(** The schedule, written out on the 1000 steps of the run. *)
Lemma horizontal_schedule_1000 (i : Z) :
  horizontal_schedule simulation_iteration i
  = if (i <=? 200)%Z then 0
    else if (i <? 500)%Z then 5 + 5 * sin (PI / 2 * IZR (i - 200) / 300)
    else if (i <? 600)%Z then 10
    else if (i <? 900)%Z then -5 - 5 * sin (PI / 2 * IZR (i - 600) / 300)
    else -10.
Proof. reflexivity. Qed.

Lemma agitation_schedule (i : Z) :
  agitation i
  = if (i <=? 200)%Z then None
    else Some (SetGravity (horizontal_schedule simulation_iteration i)
                 (horizontal_schedule simulation_iteration i) (-10)).
Proof.
  rewrite horizontal_schedule_1000.
  destruct (Z.leb_spec i 200); [now apply agitation_settle|].
  destruct (Z.ltb_spec i 500); [apply agitation_ramp_up; lia|].
  destruct (Z.ltb_spec i 600); [apply agitation_hold_pos; lia|].
  destruct (Z.ltb_spec i 900); [apply agitation_ramp_down; lia|].
  apply agitation_hold_neg; lia.
Qed.

Lemma agitate_world_zero {E : Env} (w : World E) : agitate_world 0 w = w.
Proof. reflexivity. Qed.

Lemma agitate_world_succ {E : Env} (n : Z) (w : World E) :
  (0 <= n)%Z ->
  agitate_world (n + 1) w
  = match agitation n with
    | Some set_gravity =>
        invoke set_gravity (invoke StepSimulation (agitate_world n w))
    | None => invoke StepSimulation (agitate_world n w)
    end.
Proof.
  intros Hn. unfold agitate_world.
  rewrite range_succ, fold_left_app by exact Hn. reflexivity.
Qed.

(** The gravity in force once iteration [i] is over, from a world where
    the constructor's gravity is in force. *)
Lemma agitate_world_gravity {E : Env} (w : World E) (i : Z) :
  gravity_after (calls w) = (0, 0, -10) ->
  (0 <= i)%Z ->
  gravity_after (calls (agitate_world (i + 1) w))
  = (horizontal_schedule simulation_iteration i,
     horizontal_schedule simulation_iteration i, -10).
Proof.
  intros Hg Hi.
  assert (Hall : forall k : nat,
            gravity_after (calls (agitate_world (Z.of_nat k + 1) w))
            = (horizontal_schedule simulation_iteration (Z.of_nat k),
               horizontal_schedule simulation_iteration (Z.of_nat k), -10)).
  { induction k as [|k IH].
    - rewrite agitate_world_succ by lia. rewrite agitation_settle by lia.
      cbn [invoke calls]. rewrite gravity_after_snoc, agitate_world_zero.
      exact Hg.
    - replace (Z.of_nat (S k)) with (Z.of_nat k + 1)%Z by lia.
      rewrite agitate_world_succ by lia.
      rewrite agitation_schedule.
      destruct (Z.leb_spec (Z.of_nat k + 1) 200) as [Hle|Hgt].
      + cbn [invoke calls]. rewrite gravity_after_snoc, IH.
        rewrite !horizontal_schedule_1000.
        destruct (Z.leb_spec (Z.of_nat k) 200); [|lia].
        destruct (Z.leb_spec (Z.of_nat k + 1) 200); [|lia]. reflexivity.
      + cbn [invoke calls]. now rewrite gravity_after_snoc. }
  specialize (Hall (Z.to_nat i)). now rewrite Z2Nat.id in Hall by exact Hi.
Qed.

(** One iteration of the loop on an object whose probes are ready: it
    returns, and the world moves as [agitate_world] says, whether the
    measurement is taken in this iteration or not. *)
Lemma shake_step_spec {E : Env} (i : Z) (self : Self E) :
  probes_ready self ->
  exists t,
    shake_step i self = Ok t
    /\ sphere_id t = sphere_id self
    /\ sphere_drop_pos t = sphere_drop_pos self
    /\ obj_curr_aabb t = obj_curr_aabb self
    /\ world t
       = match agitation i with
         | Some set_gravity =>
             invoke set_gravity (invoke StepSimulation (world self))
         | None => invoke StepSimulation (world self)
         end.
Proof.
  intros Hready. unfold shake_step.
  destruct (i =? int_ (1 * IZR simulation_iteration / 5))%Z.
  - rewrite checkincup_spec by exact Hready. cbn [bind snd].
    destruct (agitation i); eexists; (split; [reflexivity|]); now repeat split.
  - cbn [bind].
    destruct (agitation i); eexists; (split; [reflexivity|]); now repeat split.
Qed.

Lemma shake_loop_spec {E : Env} (n : Z) (self : Self E) :
  probes_ready self -> (0 <= n)%Z ->
  exists t,
    for_range n shake_step self = Ok t
    /\ sphere_id t = sphere_id self
    /\ sphere_drop_pos t = sphere_drop_pos self
    /\ obj_curr_aabb t = obj_curr_aabb self
    /\ world t = agitate_world n (world self).
Proof.
  intros Hready Hn.
  apply (for_range_invariant
    (fun i t =>
       sphere_id t = sphere_id self
       /\ sphere_drop_pos t = sphere_drop_pos self
       /\ obj_curr_aabb t = obj_curr_aabb self
       /\ world t = agitate_world i (world self))); [exact Hn| |].
  - now repeat split.
  - intros i t Hi (H1 & H2 & H3 & H4).
    destruct (shake_step_spec i t) as [t' (Hrun & K1 & K2 & K3 & K4)].
    { unfold probes_ready. now rewrite H1, H2. }
    exists t'. split; [exact Hrun|].
    repeat split; try congruence.
    rewrite K4, H4, agitate_world_succ by lia. reflexivity.
Qed.

(** [load_sphere] returns, with [sphere_num] more probes. *)
Lemma load_sphere_spec {E : Env} (self : Self E) :
  exists self1,
    load_sphere self = Ok self1
    /\ Z.of_nat (List.length (sphere_id self1))
       = (Z.of_nat (List.length (sphere_id self)) + sphere_num)%Z
    /\ obj_curr_aabb self1 = obj_curr_aabb self
    /\ gravity_after (calls (world self1)) = gravity_after (calls (world self)).
Proof.
  destruct (for_range_invariant
    (fun i t =>
       Z.of_nat (List.length (sphere_id t))
       = (Z.of_nat (List.length (sphere_id self)) + i)%Z
       /\ obj_curr_aabb t = obj_curr_aabb self
       /\ gravity_after (calls (world t))
          = gravity_after (calls (world self)))
    sphere_num load_one_sphere self) as [self1 [Hrun Hinv]].
  - unfold sphere_num. lia.
  - split; [lia|]. now split.
  - intros i t Hi (H1 & H2 & H3). unfold load_one_sphere, invoke_id.
    eexists. split; [reflexivity|]. cbn. rewrite length_app.
    rewrite !gravity_after_snoc. cbn. repeat split; try assumption. lia.
  - exists self1. split; [exact Hrun|exact Hinv].
Qed.

Lemma verdict_true_iff (n : nat) :
  verdict n = true <-> sphere_in_percentage_threshold < INR n / IZR sphere_num.
Proof. unfold verdict. apply ltb_true. Qed.

Lemma verdict_count (n : nat) : verdict n = true <-> (45 < n)%nat.
Proof.
  rewrite verdict_true_iff.
  unfold sphere_in_percentage_threshold, sphere_num.
  split.
  - intros H. apply INR_lt. simpl (INR 45). lra.
  - intros H. apply lt_INR in H. simpl (INR 45) in H. lra.
Qed.

Lemma ready_probes_ready : probes_ready Demo.ready.
Proof.
  unfold probes_ready, Demo.ready. cbn [sphere_id sphere_drop_pos].
  rewrite length_seq, repeat_length. unfold sphere_num. lia.
Qed.

(** The state in which [get_containability] enters its loop, on an
    object fresh from the constructor: the probes are ready and the
    gravity is the constructor's. *)
Lemma agitation_entry {E : Env} (self self1 self2 : Self E) :
  gravity_after (calls (world self)) = (0, 0, -10) ->
  load_sphere self = Ok self1 ->
  reset_sphere_drop (obj_curr_aabb self1) self1 = Ok self2 ->
  probes_ready self2 /\ gravity_after (calls (world self2)) = (0, 0, -10).
Proof.
  intros Hg Hload Hreset.
  destruct (load_sphere_spec self) as [t (Hload' & Hlen & _ & Hg1)].
  rewrite Hload in Hload'. injection Hload' as <-.
  destruct (reset_sphere_drop_returns_inv _ _ _ Hreset) as (Hx & Hy & Hnx).
  destruct (grid_dims_positive_ranges _ Hx Hy) as [Hdims [_ Hny]].
  destruct (reset_sphere_drop_spec _ _ _ self1 Hdims Hnx Hny ltac:(lia))
    as [t (Hreset' & Hsame & Hlen2 & _)].
  rewrite Hreset in Hreset'. injection Hreset' as <-.
  destruct Hsame as (S1 & _ & _ & _ & _ & S6).
  split.
  - unfold probes_ready. rewrite S1, Hlen2. unfold sphere_num in *. lia.
  - congruence.
Qed.

(** C3, as amended.  After iteration [i] of the 1000 of the run the
    gravity in force is [(h, h, -10)], where [h] is 0 up to and including
    step 200, [5 + 5 sin (pi/2 (i - 200) / 300)] on steps 201 to 499, 10 on
    steps 500 to 599, [-5 - 5 sin (pi/2 (i - 600) / 300)] on steps 600 to
    899 and -10 from step 900 on: a function of the step index and the
    total step count alone. *)
Theorem gravity_follows_schedule {E : Env} (self : Self E) (i : Z) :
  probes_ready self ->
  gravity_after (calls (world self)) = (0, 0, -10) ->
  (0 <= i < simulation_iteration)%Z ->
  exists t h,
    for_range (i + 1) shake_step self = Ok t
    /\ gravity_after (calls (world t)) = (h, h, -10)
    /\ h = horizontal_schedule simulation_iteration i
    /\ ((0 <= i <= 200)%Z -> h = 0)
    /\ ((200 < i < 500)%Z -> h = 5 + 5 * sin (PI / 2 * IZR (i - 200) / 300))
    /\ ((500 <= i < 600)%Z -> h = 10)
    /\ ((600 <= i < 900)%Z ->
        h = -5 - 5 * sin (PI / 2 * IZR (i - 600) / 300))
    /\ ((900 <= i < 1000)%Z -> h = -10).
Proof.
  intros Hready Hg Hi.
  destruct (shake_loop_spec (i + 1) self Hready ltac:(lia))
    as [t (Hrun & _ & _ & _ & Hw)].
  exists t, (horizontal_schedule simulation_iteration i).
  split; [exact Hrun|]. split.
  { rewrite Hw. apply agitate_world_gravity; [exact Hg|lia]. }
  split; [reflexivity|].
  rewrite horizontal_schedule_1000.
  repeat split; intros Hphase.
  - destruct (Z.leb_spec i 200); [reflexivity|lia].
  - destruct (Z.leb_spec i 200); [lia|].
    destruct (Z.ltb_spec i 500); [reflexivity|lia].
  - destruct (Z.leb_spec i 200); [lia|].
    destruct (Z.ltb_spec i 500); [lia|].
    destruct (Z.ltb_spec i 600); [reflexivity|lia].
  - destruct (Z.leb_spec i 200); [lia|].
    destruct (Z.ltb_spec i 500); [lia|].
    destruct (Z.ltb_spec i 600); [lia|].
    destruct (Z.ltb_spec i 900); [reflexivity|lia].
  - destruct (Z.leb_spec i 200); [lia|].
    destruct (Z.ltb_spec i 500); [lia|].
    destruct (Z.ltb_spec i 600); [lia|].
    destruct (Z.ltb_spec i 900); [lia|reflexivity].
Qed.

(** The schedule at work on the demonstration object, in the ramp. *)
Lemma gravity_follows_schedule_witness :
  exists t h,
    for_range (250 + 1) shake_step Demo.ready = Ok t
    /\ gravity_after (calls (world t)) = (h, h, -10)
    /\ h = 5 + 5 * sin (PI / 2 * IZR (250 - 200) / 300).
Proof.
  destruct (gravity_follows_schedule Demo.ready 250 ready_probes_ready
              eq_refl ltac:(unfold simulation_iteration; lia))
    as [t [h (Hrun & Hg & _ & _ & Hramp & _)]].
  exists t, h. split; [exact Hrun|]. split; [exact Hg|].
  apply Hramp. lia.
Defined.

(** At step 200, where the specification already starts the ramp at 5,
    no gravity is set and the horizontal field is still 0. *)
Lemma gravity_at_step_200_not_ramped :
  exists t,
    for_range (200 + 1) shake_step Demo.ready = Ok t
    /\ vx (gravity_after (calls (world t))) = 0
    /\ stated_schedule simulation_iteration 200 = 5
    /\ vx (gravity_after (calls (world t)))
       <> stated_schedule simulation_iteration 200.
Proof.
  destruct (shake_loop_spec (200 + 1) Demo.ready ready_probes_ready
              ltac:(lia)) as [t (Hrun & _ & _ & _ & Hw)].
  assert (Hg : gravity_after (calls (world t)) = (0, 0, -10)).
  { rewrite Hw, agitate_world_gravity by (reflexivity || lia).
    now rewrite horizontal_schedule_1000. }
  assert (Hs : stated_schedule simulation_iteration 200 = 5).
  { unfold stated_schedule, simulation_iteration. cbn [Z.ltb Z.div].
    change (200 <? 1000 / 5)%Z with false.
    change (200 <? 1000 / 2)%Z with true. cbv iota.
    replace (PI / 2 * IZR (200 - 1000 / 5) / IZR (3 * 1000 / 10)) with 0.
    - rewrite sin_0. lra.
    - change (IZR (200 - 1000 / 5)) with 0. lra. }
  exists t. split; [exact Hrun|]. rewrite Hg, Hs. unfold vx. cbn [fst].
  repeat split; lra.
Qed.

(** C2.  [get_containability] returns, and its verdict is [true] exactly
    when the number of probes [checkincup] finds in the box after the 1000
    steps, divided by 225, is strictly above 0.2: 45 probes retained give
    [false].  The final world is that of the agitation alone: the
    measurement in the middle of the run does not enter. *)
Theorem get_containability_verdict {E : Env} (self : Self E) :
  0 < fst (xy_range (obj_curr_aabb self)) ->
  0 < snd (xy_range (obj_curr_aabb self)) ->
  (1 <= columns (obj_curr_aabb self))%Z ->
  exists self1 self2 self' (n : nat),
    load_sphere self = Ok self1
    /\ reset_sphere_drop (obj_curr_aabb self) self1 = Ok self2
    /\ n = List.length
             (contained (obj_curr_aabb self) (sphere_id self1)
                (phys (agitate_world simulation_iteration (world self2))))
    /\ get_containability self = Ok (verdict n, self')
    /\ containability self' = verdict n
    /\ (verdict n = true <-> 0.2 < INR n / 225)
    /\ (verdict n = true <-> (45 < n)%nat)
    /\ verdict 45 = false.
Proof.
  intros Hx Hy Hnx.
  destruct (load_sphere_spec self) as [self1 (Hload & Hlen1 & Hbox1 & _)].
  destruct (grid_dims_positive_ranges _ Hx Hy) as [Hdims [_ Hny]].
  destruct (reset_sphere_drop_spec (obj_curr_aabb self) _ _ self1 Hdims Hnx Hny
              ltac:(lia))
    as [self2 (Hreset & Hsame & Hlen2 & _)].
  destruct Hsame as (S1 & _ & _ & _ & S5 & _).
  assert (Hready2 : probes_ready self2).
  { unfold probes_ready. rewrite S1, Hlen2. unfold sphere_num in *. lia. }
  destruct (shake_loop_spec simulation_iteration self2 Hready2
              ltac:(unfold simulation_iteration; lia))
    as [self3 (Hshake & K1 & K2 & K3 & K4)].
  assert (Hready3 : probes_ready self3).
  { unfold probes_ready. now rewrite K1, K2. }
  exists self1, self2.
  eexists. eexists. split; [exact Hload|]. split; [exact Hreset|].
  split; [reflexivity|].
  assert (Hrun : forall n self',
    n = List.length
          (contained (obj_curr_aabb self) (sphere_id self1)
             (phys (agitate_world simulation_iteration (world self2)))) ->
    self' = set_containability (verdict n)
              (p_ Disconnect
                 (set_sphere_in_drop_pos
                    (map (drop_pos_of (sphere_drop_pos self3))
                       (contained (obj_curr_aabb self3) (sphere_id self3)
                          (phys (world self3)))) self3)) ->
    get_containability self = Ok (verdict n, self')).
  { intros n self' -> ->. unfold get_containability.
    rewrite Hload. cbn [bind]. rewrite Hbox1, Hreset. cbn [bind].
    rewrite Hshake. cbn [bind].
    rewrite checkincup_spec by exact Hready3. cbn [bind fst snd].
    unfold truediv.
    destruct (Req_dec_T (IZR sphere_num) 0) as [H0|_].
    { unfold sphere_num in H0. lra. }
    cbn [bind]. rewrite K3, S5, Hbox1, K1, S1, K4.
    fold (verdict (List.length
            (contained (obj_curr_aabb self) (sphere_id self1)
               (phys (agitate_world simulation_iteration (world self2)))))).
    destruct (verdict _); reflexivity. }
  split; [apply Hrun; reflexivity|].
  split; [reflexivity|].
  split; [|split].
  - rewrite verdict_true_iff.
    unfold sphere_in_percentage_threshold, sphere_num. reflexivity.
  - apply verdict_count.
  - destruct (verdict 45) eqn:Hv; [|reflexivity].
    apply verdict_count in Hv. lia.
Qed.

End AgitationFacts.

(** ** The programs at work on the demonstration engine *)

Module ContainabilityRuns.

Import Py Bullet Containability LatticeSpec ContainSpec PyFacts LatticeFacts
  MeasureFacts AgitationFacts.

Lemma frozen_unit_draws : unit_draws Demo.frozen.
Proof. intros k. cbn. lra. Qed.

Lemma Rabs_of_negative (a b : R) : a < 0 -> b = - a -> Rabs a = b.
Proof. intros Ha ->. now apply Rabs_left. Qed.

Lemma cube_range : xy_range Demo.cube = (1, 1).
Proof.
  unfold xy_range, Demo.cube, vx, vy. cbn [fst snd].
  f_equal; apply Rabs_of_negative; lra.
Qed.

Lemma cube_density : density Demo.cube = 15.
Proof.
  unfold density. rewrite cube_range. cbn [fst snd]. unfold sphere_num.
  apply sqrt_lem_1; lra.
Qed.

Lemma cube_columns : columns Demo.cube = 15%Z.
Proof.
  unfold columns. rewrite cube_density, cube_range. cbn [fst].
  apply Zfloor_eq. lra.
Qed.

Lemma cube_rows : rows Demo.cube = 15%Z.
Proof.
  unfold rows. rewrite cube_density, cube_range. cbn [snd].
  apply Zfloor_eq. lra.
Qed.

Lemma plate_range : xy_range Demo.plate = (1 / 1000, 4 / 10).
Proof.
  unfold xy_range, Demo.plate, vx, vy. cbn [fst snd].
  f_equal; apply Rabs_of_negative; lra.
Qed.

Lemma plate_density : density Demo.plate = 750.
Proof.
  unfold density. rewrite plate_range. cbn [fst snd]. unfold sphere_num.
  apply sqrt_lem_1; lra.
Qed.

Lemma plate_columns : columns Demo.plate = 0%Z.
Proof.
  unfold columns. rewrite plate_density, plate_range. cbn [fst].
  apply Zfloor_eq. lra.
Qed.

Lemma strip_range : xy_range Demo.strip = (4 / 10, 1 / 1000).
Proof.
  unfold xy_range, Demo.strip, vx, vy. cbn [fst snd].
  f_equal; apply Rabs_of_negative; lra.
Qed.

Lemma strip_density : density Demo.strip = 750.
Proof.
  unfold density. rewrite strip_range. cbn [fst snd]. unfold sphere_num.
  apply sqrt_lem_1; lra.
Qed.

Lemma strip_columns : columns Demo.strip = 300%Z.
Proof.
  unfold columns. rewrite strip_density, strip_range. cbn [fst].
  apply Zfloor_eq. lra.
Qed.

Lemma strip_rows : rows Demo.strip = 0%Z.
Proof.
  unfold rows. rewrite strip_density, strip_range. cbn [snd].
  apply Zfloor_eq. lra.
Qed.

Lemma ready_ids :
  (sphere_num <= Z.of_nat (List.length (sphere_id Demo.ready)))%Z.
Proof. apply ready_probes_ready. Qed.

(** The constructor on the demonstration engine: the cube is high enough
    not to be raised, and its box is recorded. *)
Lemma init_cube_box :
  obj_curr_aabb (init (E := Demo.frozen) "cube.urdf" (0, 0, 1) (0, 0, 0))
  = Demo.cube.
Proof.
  unfold init. cbn -[leb Rplus Rminus Rdiv].
  replace (leb (1 - 1 / 2) 0.1) with false; [reflexivity|].
  symmetry. unfold leb. destruct (Rle_dec (1 - 1 / 2) 0.1); [lra|reflexivity].
Qed.

(** The thin plate has no column: placing the probes raises. *)
Lemma reset_sphere_drop_no_column_raises_witness :
  columns Demo.plate = 0%Z
  /\ reset_sphere_drop Demo.plate Demo.ready = Raise ZeroDivisionError.
Proof.
  split; [exact plate_columns|].
  apply reset_sphere_drop_no_column_raises.
  - rewrite plate_range. cbn [fst]. lra.
  - rewrite plate_range. cbn [snd]. lra.
  - exact plate_columns.
Defined.

(** The strip has 300 columns and no row: every probe falls back. *)
Lemma reset_sphere_drop_fallback_quadrant_witness :
  exists self',
    reset_sphere_drop Demo.strip Demo.ready = Ok self'
    /\ forall i, (0 <= i < 225)%Z ->
         exists pos,
           nth_error (sphere_drop_pos self') (Z.to_nat i) = Some pos
           /\ 2 / 10 <= vx pos < 4 / 10
           /\ 1 / 2000 <= vy pos < 1 / 1000
           /\ vz pos = 3 / 10 + 0.06.
Proof.
  destruct (reset_sphere_drop_fallback_quadrant Demo.strip Demo.ready) as
    [self' (Hrun & Hall)].
  - exact frozen_unit_draws.
  - rewrite strip_range. cbn [fst]. lra.
  - rewrite strip_range. cbn [snd]. lra.
  - rewrite strip_columns. lia.
  - exact ready_ids.
  - exists self'. split; [exact Hrun|].
    intros i Hi. rewrite strip_columns, strip_rows in Hall.
    destruct (Hall i ltac:(unfold sphere_num; lia))
      as [pos (Hpos & Hx & Hy & _ & Hz)].
    rewrite strip_range in Hx, Hy.
    unfold xy_center, Demo.strip, vx, vy, vz in Hx, Hy, Hz.
    cbn [fst snd] in Hx, Hy, Hz.
    exists pos. split; [exact Hpos|]. unfold vx, vy, vz.
    repeat split; lra.
Defined.

Lemma checkincup_counts_witness :
  exists (kept : list Z) (self' : Self Demo.frozen),
    checkincup Demo.cube Demo.ready = Ok (List.length kept, self')
    /\ NoDup kept
    /\ (forall i, In i kept <->
          (0 <= i < sphere_num)%Z
          /\ inside Demo.cube
               (sphere_pos (sphere_id Demo.ready)
                  (phys (world Demo.ready)) i))
    /\ sphere_in_drop_pos self'
       = map (drop_pos_of (sphere_drop_pos Demo.ready)) kept
    /\ (0 <= Z.of_nat (List.length kept) <= sphere_num)%Z
    /\ world self' = world Demo.ready.
Proof.
  apply checkincup_counts. exact ready_probes_ready.
Defined.

(** The whole test on the cube of the demonstration engine. *)
Lemma get_containability_verdict_witness :
  exists (n : nat) self',
    get_containability
      (init (E := Demo.frozen) "cube.urdf" (0, 0, 1) (0, 0, 0))
    = Ok (verdict n, self')
    /\ (verdict n = true <-> (45 < n)%nat).
Proof.
  destruct (get_containability_verdict
              (init (E := Demo.frozen) "cube.urdf" (0, 0, 1) (0, 0, 0)))
    as [self1 [self2 [self' [n (_ & _ & _ & Hrun & _ & _ & Hn & _)]]]].
  - rewrite init_cube_box, cube_range. cbn [fst]. lra.
  - rewrite init_cube_box, cube_range. cbn [snd]. lra.
  - rewrite init_cube_box, cube_columns. lia.
  - exists n, self'. split; [exact Hrun|exact Hn].
Defined.

End ContainabilityRuns.

(** ** The arm controller: [go_to] *)

Module ControlFacts.

Import Py Imaginebot ControlSpec PyFacts.

Lemma for_each_total {St A : Type} (l : list A)
  (body : A -> St -> result St) :
  (forall a s, In a l -> exists s', body a s = Ok s') ->
  forall s, exists s', for_each l body s = Ok s'.
Proof.
  induction l as [|a l IH]; intros Hbody s.
  - now exists s.
  - destruct (Hbody a s (or_introl eq_refl)) as [s1 Hs1].
    cbn [for_each]. rewrite Hs1. apply IH.
    intros b t Hb. apply Hbody. now right.
Qed.

Lemma enumerate_In {A : Type} (l : list A) (k : Z) (a : A) :
  In (k, a) (enumerate l) ->
  (0 <= k < Z.of_nat (List.length l))%Z /\ In a l.
Proof.
  unfold enumerate. intros H. split.
  - apply in_combine_l in H. unfold range in H.
    apply in_map_iff in H. destruct H as [j [<- Hj]].
    apply in_seq in Hj. lia.
  - now apply in_combine_r in H.
Qed.

Section Controller.

Context {E : Env} (self : Self) (targets : list R).

Hypothesis Hwf : well_formed self targets.

Lemma target_defined (k : Z) :
  (0 <= k < 6)%Z -> exists t, getitem targets k = Ok t.
Proof.
  intros Hk. destruct Hwf as [_ Hlen].
  destruct (nth_error targets (Z.to_nat k)) as [t|] eqn:Ht.
  - exists t. apply getitem_in_range; [lia|exact Ht].
  - apply nth_error_None in Ht. lia.
Qed.

Lemma joint_defined (jointName : string) :
  In jointName robotControlJoints ->
  exists info, lookup (joints self) jointName = Ok info.
Proof.
  intros Hin. destruct Hwf as [Hjoints _]. unfold lookup.
  destruct (joints self jointName) as [info|] eqn:Hj.
  - now exists info.
  - now elim (Hjoints jointName Hin).
Qed.

Lemma command_joints_total (ph : physics E) :
  exists ph', command_joints self targets ph = Ok ph'.
Proof.
  unfold command_joints. apply for_each_total.
  intros [k jointName] s Hin. apply enumerate_In in Hin.
  destruct Hin as [Hk Hname].
  destruct (target_defined k Hk) as [t Ht].
  destruct (joint_defined jointName Hname) as [info Hinfo].
  rewrite Ht. cbn [bind]. rewrite Hinfo. cbn [bind]. eexists. reflexivity.
Qed.

Lemma joint_error_sum_total (ph : physics E) :
  exists joint_error, joint_error_sum self targets ph = Ok joint_error.
Proof.
  unfold joint_error_sum. apply for_each_total.
  intros [k jointName] s Hin. apply enumerate_In in Hin.
  destruct Hin as [Hk Hname].
  destruct (target_defined k Hk) as [t Ht].
  destruct (joint_defined jointName Hname) as [info Hinfo].
  rewrite Hinfo. cbn [bind]. rewrite Ht. cbn [bind]. eexists. reflexivity.
Qed.

(** [jointErrorFlag] answers, and answers [False] exactly on
    convergence. *)
Lemma jointErrorFlag_spec (ph : physics E) :
  exists error_flag,
    jointErrorFlag self targets ph = Ok error_flag
    /\ (error_flag = false <-> converged self targets ph).
Proof.
  destruct (joint_error_sum_total ph) as [e He].
  unfold jointErrorFlag, converged. rewrite He. cbn [bind].
  destruct (leb e jointErrorTolerance) eqn:Hle.
  - exists false. split; [reflexivity|]. split; [|reflexivity].
    intros _. exists e. split; [reflexivity|]. now apply leb_true.
  - exists true. split; [reflexivity|]. split; [discriminate|].
    intros [e' [He' Hle']]. injection He' as <-.
    apply leb_true in Hle'. congruence.
Qed.

Lemma control_body_total (ph : physics E) :
  exists ph' error_flag,
    control_body self targets ph = Ok (ph', error_flag)
    /\ (error_flag = false <-> converged self targets ph').
Proof.
  destruct (command_joints_total ph) as [ph1 H1].
  destruct (jointErrorFlag_spec (stepSimulation E ph1)) as [flag [Hf Hconv]].
  exists (stepSimulation E ph1), flag. unfold control_body.
  rewrite H1. cbn [bind]. rewrite Hf. cbn [bind]. now split.
Qed.

Lemma iterated_functional (k : nat) (ph a b : physics E) :
  iterated self targets k ph a -> iterated self targets k ph b -> a = b.
Proof.
  intros Ha. revert b. induction Ha as [ph|k ph ph1 ph2 flag Hk IH Hbody].
  - intros b Hb. now inversion Hb.
  - intros b Hb. inversion Hb as [|k' ph' ph1' ph2' flag' Hk' Hbody']; subst.
    apply IH in Hk'. subst ph1'. congruence.
Qed.

(** The loop, from a state reached after [k0] iterations without
    convergence, with enough fuel to reach the budget. *)
Lemma control_loop_spec (fuel : nat) :
  forall (k0 : nat) (ph0 ph : physics E),
    iterated self targets k0 ph0 ph ->
    (1 <= fuel)%nat ->
    (maxControlTimeStep - Z.of_nat k0 <= Z.of_nat fuel)%Z ->
    (forall k phk, (1 <= k <= k0)%nat -> iterated self targets k ph0 phk ->
                   ~ converged self targets phk) ->
    exists (n : nat) (final : physics E),
      control_loop self fuel targets (Z.of_nat k0) ph
      = Some (Ok (final, Z.of_nat n))
      /\ iterated self targets n ph0 final
      /\ (k0 < n)%nat
      /\ (Z.of_nat n <= Z.max (Z.of_nat k0 + 1) maxControlTimeStep)%Z
      /\ ((maxControlTimeStep <= Z.of_nat n)%Z \/ converged self targets final)
      /\ (forall k phk, (1 <= k < n)%nat -> iterated self targets k ph0 phk ->
                        ~ converged self targets phk).
Proof.
  induction fuel as [|fuel IH]; intros k0 ph0 ph Hiter Hfuel Hbudget Hhist;
    [lia|].
  destruct (control_body_total ph) as [ph1 [flag [Hbody Hconv]]].
  assert (Hnext : iterated self targets (S k0) ph0 ph1)
    by (eapply iterated_S; eassumption).
  cbn [control_loop]. rewrite Hbody.
  replace (Z.of_nat k0 + 1)%Z with (Z.of_nat (S k0)) by lia.
  destruct (Z.leb_spec maxControlTimeStep (Z.of_nat (S k0))) as [Hbreak|Hgo].
  - exists (S k0), ph1. split; [reflexivity|]. split; [exact Hnext|].
    split; [lia|]. split; [lia|]. split; [now left|].
    intros k phk Hk. apply Hhist. lia.
  - destruct flag.
    + destruct (IH (S k0) ph0 ph1 Hnext) as [n [final Hrest]].
      * lia.
      * lia.
      * intros k phk Hk Hphk.
        destruct (Nat.eq_dec k (S k0)) as [->|Hne].
        -- rewrite (iterated_functional _ _ _ _ Hphk Hnext).
           intros Hc. apply Hconv in Hc. discriminate.
        -- apply (Hhist k phk); [lia|exact Hphk].
      * destruct Hrest as (Hrun & Hit & Hlt & Hmax & Hstop & Hbefore).
        exists n, final. split; [exact Hrun|]. split; [exact Hit|].
        split; [lia|]. split; [lia|]. split; [exact Hstop|exact Hbefore].
    + exists (S k0), ph1. split; [reflexivity|]. split; [exact Hnext|].
      split; [lia|]. split; [lia|]. split.
      * right. now apply Hconv.
      * intros k phk Hk. apply Hhist. lia.
Qed.

End Controller.

Lemma fingerErrorFlag_spec {E : Env} (self : Self) (pos : vec3) (orn : quat)
  (ph : physics E) :
  fingerErrorFlag self pos orn ph = true
  <-> posErrorTolerance < pos_err self pos ph
      \/ ornErrorTolerance < orn_err self orn ph.
Proof.
  unfold fingerErrorFlag, pos_err, orn_err.
  destruct (readFingerCenterState self ph) as [finger_pos finger_orn].
  cbn [fst snd].
  destruct (leb _ posErrorTolerance) eqn:Hp;
    destruct (leb _ ornErrorTolerance) eqn:Ho; cbn [andb];
    unfold leb in Hp, Ho;
    destruct (Rle_dec _ posErrorTolerance);
    destruct (Rle_dec _ ornErrorTolerance);
    try discriminate; split; intros H; try reflexivity; try discriminate;
    try lra.
Qed.

(** C9.  [go_to] runs the control loop for [n] iterations, at least one
    and at most [maxControlTimeStep = 2400]: it stops at the first
    iteration after which the summed joint error is within
    [jointErrorTolerance], or at the 2400th.  Whether it stopped on the
    budget or on convergence makes no difference to what follows: it raises
    [ValueError] exactly when, in the state the loop ended in, the position
    error of the finger is above 0.1 or its orientation error above 0.15,
    and returns normally otherwise. *)
Theorem go_to_outcome {E : Env} (self : Self) (pos : vec3) (orn : quat)
  (ph : physics E) :
  well_formed self (targets_for self pos orn ph) ->
  exists (n : nat) (final : physics E),
    (1 <= n <= 2400)%nat
    /\ iterated self (targets_for self pos orn ph) n ph final
    /\ (n = 2400%nat \/ converged self (targets_for self pos orn ph) final)
    /\ (forall k phk,
          (1 <= k < n)%nat ->
          iterated self (targets_for self pos orn ph) k ph phk ->
          ~ converged self (targets_for self pos orn ph) phk)
    /\ go_to self pos orn ph
       = Some (if fingerErrorFlag self pos orn final
               then Raise ValueError else Ok final)
    /\ (go_to self pos orn ph = Some (Raise ValueError)
        <-> 0.1 < pos_err self pos final \/ 0.15 < orn_err self orn final)
    /\ (go_to self pos orn ph = Some (Ok final)
        <-> pos_err self pos final <= 0.1 /\ orn_err self orn final <= 0.15).
Proof.
  intros Hwf.
  destruct (control_loop_spec self _ Hwf (Z.to_nat maxControlTimeStep)
              0 ph ph (iterated_O _ _ _))
    as [n [final (Hrun & Hit & Hlt & Hmax & Hstop & Hbefore)]].
  - unfold maxControlTimeStep. lia.
  - unfold maxControlTimeStep. lia.
  - intros k phk Hk. lia.
  - unfold maxControlTimeStep in *.
    exists n, final. split; [lia|]. split; [exact Hit|].
    split; [destruct Hstop; [left; lia|now right]|].
    split; [exact Hbefore|].
    assert (Hgo : go_to self pos orn ph
                  = Some (if fingerErrorFlag self pos orn final
                          then Raise ValueError else Ok final)).
    { unfold go_to. fold (targets_for self pos orn ph).
      change (Z.of_nat 0) with 0%Z in Hrun.
      unfold maxControlTimeStep. rewrite Hrun.
      now destruct (fingerErrorFlag self pos orn final). }
    split; [exact Hgo|].
    pose proof (fingerErrorFlag_spec self pos orn final) as Hflag.
    unfold posErrorTolerance, ornErrorTolerance in Hflag.
    rewrite Hgo.
    destruct (fingerErrorFlag self pos orn final).
    + assert (Hout : 0.1 < pos_err self pos final
                     \/ 0.15 < orn_err self orn final)
        by now apply Hflag.
      split; split.
      * intros _. exact Hout.
      * reflexivity.
      * discriminate.
      * intros [Hp Ho]. lra.
    + assert (Hin : ~ (0.1 < pos_err self pos final
                      \/ 0.15 < orn_err self orn final)).
      { intros Hc. apply Hflag in Hc. discriminate. }
      split; split.
      * discriminate.
      * intros Hc. now elim Hin.
      * intros _. split; apply Rnot_lt_le; intros Hc; apply Hin; tauto.
      * reflexivity.
Qed.

Lemma stuck_never_converges (targets : list R) (ph : physics Demo.stuck) :
  targets = [0; 0; 0; 0; 0; 0] ->
  ~ converged Demo.arm targets ph.
Proof.
  intros -> [e [He Hle]]. unfold joint_error_sum in He. cbn in He.
  injection He as <-. unfold jointErrorTolerance in Hle.
  assert (Habs : Rabs (1 - 0) = 1).
  { replace (1 - 0) with 1 by lra. apply Rabs_pos_eq. lra. }
  rewrite Habs in Hle. lra.
Qed.

(** On the robot that does not move, [go_to] uses up its 2400 steps
    without converging and returns normally, the finger being reported at
    the goal. *)
Lemma go_to_outcome_witness :
  go_to Demo.arm (0, 0, 0) (0, 0, 0, 1) Demo.at_rest = Some (Ok Demo.at_rest)
  /\ ~ converged Demo.arm
        (targets_for Demo.arm (0, 0, 0) (0, 0, 0, 1) Demo.at_rest)
        Demo.at_rest.
Proof.
  assert (Hwf : well_formed Demo.arm
                  (targets_for Demo.arm (0, 0, 0) (0, 0, 0, 1) Demo.at_rest)).
  { split; [intros jointName _; discriminate|cbn; lia]. }
  destruct (go_to_outcome Demo.arm (0, 0, 0) (0, 0, 0, 1) Demo.at_rest Hwf)
    as [n [final (_ & _ & _ & _ & _ & _ & Hok)]].
  assert (Hfinal : final = Demo.at_rest) by now destruct final.
  subst final. split.
  - apply Hok. unfold pos_err, orn_err. cbn. lra.
  - apply stuck_never_converges. reflexivity.
Defined.

End ControlFacts.

(** ** The pour: [bottle_pour] *)

Module PourFacts.

Import Py Bullet BottlePour PourSpec PyFacts.

Lemma extends_refl {E : Env} (self : Self E) : extends self self [].
Proof. unfold extends. rewrite app_nil_r. now repeat split. Qed.

Lemma extends_trans {E : Env} (a b c : Self E) (cs ds : list call) :
  extends a b cs -> extends b c ds -> extends a c (cs ++ ds).
Proof.
  unfold extends.
  intros (H1 & H2 & H3 & H4 & H5 & H6 & H7) (K1 & K2 & K3 & K4 & K5 & K6 & K7).
  rewrite app_assoc, <- H7, <- K7. repeat split; congruence.
Qed.

Lemma extends_call {E : Env} (self : Self E) (c : call) :
  extends self (p_ c self) [c].
Proof. unfold extends. now repeat split. Qed.

Lemma filter_pairs_unchanged {E : Env} (bottle : nat) (l : list nat)
  (self : Self E) :
  let self' :=
    fold_left (fun self other =>
                 p_ (SetCollisionFilterPair bottle other false) self) l self
  in
  params self' = params self
  /\ bottle_list self' = bottle_list self
  /\ pour_pos self' = pour_pos self
  /\ bottle_id self' = bottle_id self
  /\ bottle_pos self' = bottle_pos self
  /\ bottle_aabb self' = bottle_aabb self.
Proof.
  revert self. induction l as [|o l IH]; intros self.
  - now repeat split.
  - cbn [fold_left]. cbv zeta in IH |- *.
    destruct (IH (p_ (SetCollisionFilterPair bottle o false) self))
      as (H1 & H2 & H3 & H4 & H5 & H6).
    rewrite H1, H2, H3, H4, H5, H6. now repeat split.
Qed.

(** Loading a bottle touches neither the parameters nor the pour point,
    and records the box the engine reports for the new body. *)
Lemma load_bottle_spec {E : Env} (self : Self E) :
  params (load_bottle self) = params self
  /\ pour_pos (load_bottle self) = pour_pos self
  /\ exists b ph, bottle_aabb (load_bottle self) = getAABB E b ph.
Proof.
  unfold load_bottle, invoke_id.
  match goal with
  | |- context [fold_left ?f ?l ?s] =>
      destruct (filter_pairs_unchanged
                  (returned E
                     (LoadURDF (bottle_urdf (params self)) (0, 0, 0) identity
                        false) (phys (world self))) l s)
        as (F1 & _ & F3 & _ & _ & F6)
  end.
  rewrite F1, F3, F6. split; [reflexivity|]. split; [reflexivity|].
  eexists. eexists. reflexivity.
Qed.

Lemma place_bottle_spec {E : Env} (indent planar_angle : R) (j : Z)
  (self : Self E) :
  params (snd (place_bottle indent planar_angle j self)) = params self
  /\ exists b ph,
       bottle_aabb (snd (place_bottle indent planar_angle j self))
       = getAABB E b ph.
Proof.
  unfold place_bottle, invoke_id.
  destruct (load_bottle_spec
              (set_pour_pos
                 (pour_point (pour_pos_nominal (params self)) indent
                    (indent_len (params self)) planar_angle j) self))
    as (Hparams & _ & Hbox).
  set (loaded := load_bottle _) in *.
  cbn [snd params bottle_aabb set_world set_bottle_pos p_ set_pour_pos] in *.
  split; [exact Hparams|exact Hbox].
Qed.

(** C6.  For every planar angle and every indent index, the pour point
    is the nominal one drawn back by [indent + j * indent_len] along the
    planar angle, and the bottle is reset, with its yaw at the planar
    angle, where its mouth (half a bottle length along its turned x axis)
    is over the pour point. *)
Theorem bottle_mouth_at_pour_point {E : Env} (indent planar_angle : R)
  (j : Z) (self : Self E) :
  let self' := snd (place_bottle indent planar_angle j self) in
  let nominal := pour_pos_nominal (params self) in
  let retreat := indent + IZR j * indent_len (params self) in
  let half_length := vx (snd (bottle_aabb self')) in
  pour_pos self'
  = (vx nominal - retreat * cos planar_angle,
     vy nominal - retreat * sin planar_angle,
     vz nominal)
  /\ vx (mouth (bottle_pos self') planar_angle half_length)
     = vx (pour_pos self')
  /\ vy (mouth (bottle_pos self') planar_angle half_length)
     = vy (pour_pos self')
  /\ In (ResetBasePositionAndOrientation (bottle_id self') (bottle_pos self')
           (QuaternionFromEuler 0 0 planar_angle))
       (calls (world self')).
Proof.
  unfold place_bottle, invoke_id.
  destruct (load_bottle_spec
              (set_pour_pos
                 (pour_point (pour_pos_nominal (params self)) indent
                    (indent_len (params self)) planar_angle j) self))
    as (Hparams & Hpour & _).
  set (loaded := load_bottle _) in *.
  cbn [snd fst pour_pos bottle_pos bottle_aabb bottle_id world calls params
       set_world set_pour_pos set_bottle_pos p_ invoke] in *.
  rewrite Hpour. split; [reflexivity|].
  unfold mouth, rotate_yaw, bottle_base, pour_point, vx, vy, vz.
  cbn [fst snd].
  split; [lra|]. split; [lra|].
  apply in_or_app. left. apply in_or_app. right. now left.
Qed.

Lemma int_tip_steps : int_ (5 * IZR simulation_iteration / 6) = 500%Z.
Proof. apply int_IZR. unfold simulation_iteration. lra. Qed.

Lemma int_hold_steps : int_ (1 * IZR simulation_iteration / 6) = 100%Z.
Proof. apply int_IZR. unfold simulation_iteration. lra. Qed.

Lemma int_tip_period : int_ (4 * 5 * IZR simulation_iteration / 6) = 2000%Z.
Proof. apply int_IZR. unfold simulation_iteration. lra. Qed.

Lemma commanded_pitch_formula (i : Z) :
  commanded_pitch i = 2 * PI / 5 * sin (2 * PI * IZR i / 2000).
Proof.
  unfold commanded_pitch. rewrite int_tip_period. f_equal. f_equal. lra.
Qed.

Lemma tip_phase (i : Z) :
  (0 <= i < 500)%Z -> 0 <= 2 * PI * IZR i / 2000 < PI / 2.
Proof.
  intros Hi. pose proof PI_RGT_0 as Hpi.
  assert (H0 : 0 <= IZR i) by (apply IZR_le; lia).
  assert (H1 : IZR i <= 499) by (apply IZR_le; lia).
  split; nra.
Qed.

(** Over the steps of the tip the commanded pitch only grows. *)
Lemma commanded_pitch_increasing (i j : Z) :
  (0 <= i < j)%Z -> (j < 500)%Z -> commanded_pitch i < commanded_pitch j.
Proof.
  intros Hij Hj. rewrite !commanded_pitch_formula.
  pose proof PI_RGT_0 as Hpi.
  destruct (tip_phase i ltac:(lia)) as [Hi0 Hi1].
  destruct (tip_phase j ltac:(lia)) as [Hj0 Hj1].
  assert (Hlt : IZR i < IZR j) by (apply IZR_lt; lia).
  apply Rmult_lt_compat_l; [lra|].
  apply sin_increasing_1; try lra. nra.
Qed.

Lemma commanded_pitch_start : commanded_pitch 0 = 0.
Proof.
  rewrite commanded_pitch_formula.
  replace (2 * PI * 0 / 2000) with 0 by lra. rewrite sin_0. lra.
Qed.

Lemma commanded_pitch_below_max (i : Z) :
  (0 <= i < 500)%Z -> commanded_pitch i < 2 * PI / 5.
Proof.
  intros Hi. rewrite commanded_pitch_formula.
  pose proof PI_RGT_0 as Hpi.
  destruct (tip_phase i Hi) as [H0 H1].
  assert (Hs : sin (2 * PI * IZR i / 2000) < 1).
  { rewrite <- sin_PI2. apply sin_increasing_1; lra. }
  nra.
Qed.

Lemma tip_calls_succ (cid : nat) (pivot : vec3) (planar_angle : R) (n : Z) :
  (0 <= n)%Z ->
  tip_calls cid pivot planar_angle (n + 1)
  = tip_calls cid pivot planar_angle n
    ++ [StepSimulation;
        ChangeConstraint cid pivot
          (QuaternionFromEuler 0 (commanded_pitch n) planar_angle) 50].
Proof.
  intros Hn. unfold tip_calls. rewrite range_succ, flat_map_app by exact Hn.
  cbn [flat_map]. now rewrite app_nil_r.
Qed.

Lemma hold_calls_succ (n : Z) :
  (0 <= n)%Z -> hold_calls (n + 1) = hold_calls n ++ [StepSimulation].
Proof.
  intros Hn. unfold hold_calls.
  replace (Z.to_nat (n + 1)) with (S (Z.to_nat n)) by lia.
  cbn [repeat]. apply repeat_cons.
Qed.

Lemma tip_spec {E : Env} (cid : nat) (pivot : vec3) (planar_angle : R)
  (self : Self E) :
  exists self',
    tip cid pivot planar_angle self = Ok self'
    /\ extends self self' (tip_calls cid pivot planar_angle 500).
Proof.
  unfold tip. rewrite int_tip_steps.
  apply (for_range_invariant
           (fun i t => extends self t (tip_calls cid pivot planar_angle i)));
    [lia|apply extends_refl|].
  intros i t Hi Hext. eexists. split; [reflexivity|].
  rewrite tip_calls_succ by lia.
  apply (extends_trans _ _ _ _ _ Hext).
  apply (extends_trans _ _ _ [_] [_] (extends_call _ _) (extends_call _ _)).
Qed.

Lemma steps_spec {E : Env} (n : Z) (self : Self E) :
  (0 <= n)%Z ->
  exists self',
    for_range n (fun _ self => Ok (p_ StepSimulation self)) self = Ok self'
    /\ extends self self' (hold_calls n).
Proof.
  intros Hn.
  apply (for_range_invariant (fun i t => extends self t (hold_calls i)));
    [exact Hn|apply extends_refl|].
  intros i t Hi Hext. eexists. split; [reflexivity|].
  rewrite hold_calls_succ by lia.
  apply (extends_trans _ _ _ _ _ Hext), extends_call.
Qed.

Lemma hold_spec {E : Env} (self : Self E) :
  exists self', hold self = Ok self' /\ extends self self' (hold_calls 100).
Proof. unfold hold. rewrite int_hold_steps. apply steps_spec. lia. Qed.

(** C7, as amended.  The tip is 500 steps ([5 T / 6]), each followed by
    the command of the pitch [(2 pi / 5) sin (2 pi i / (4 * 5 T / 6))],
    and then 100 steps ([T / 6]) in which nothing is commanded.  The pitch
    starts at 0 and grows at every step towards [2 pi / 5], which it does
    not reach: it is a quarter of a period, and the bottle is held at the
    last pitch commanded. *)
Theorem tip_then_hold {E : Env} (cid : nat) (pivot : vec3)
  (planar_angle : R) (self : Self E) :
  exists self1 self2,
    tip cid pivot planar_angle self = Ok self1
    /\ hold self1 = Ok self2
    /\ calls (world self2)
       = calls (world self) ++ tip_calls cid pivot planar_angle 500
         ++ hold_calls 100
    /\ (forall i, commanded_pitch i
                  = 2 * PI / 5 * sin (2 * PI * IZR i / (4 * 500)))
    /\ commanded_pitch 0 = 0
    /\ (forall i j, (0 <= i < j)%Z -> (j < 500)%Z ->
                    commanded_pitch i < commanded_pitch j)
    /\ (forall i, (0 <= i < 500)%Z -> commanded_pitch i < 2 * PI / 5).
Proof.
  destruct (tip_spec cid pivot planar_angle self) as [self1 [Htip Hext1]].
  destruct (hold_spec self1) as [self2 [Hhold Hext2]].
  exists self1, self2. split; [exact Htip|]. split; [exact Hhold|].
  split.
  { destruct (extends_trans _ _ _ _ _ Hext1 Hext2) as (_ & _ & _ & _ & _ & _ & H).
    exact H. }
  split.
  { intros i. rewrite commanded_pitch_formula. f_equal. f_equal. lra. }
  split; [exact commanded_pitch_start|].
  split; [exact commanded_pitch_increasing|exact commanded_pitch_below_max].
Qed.

(** The sweep does not come back: no step of the tip commands a pitch at
    or below an earlier one, and the last pitch is the largest. *)
Lemma tip_never_comes_back :
  ~ (exists i j, (0 <= i < j)%Z /\ (j < 500)%Z
                 /\ commanded_pitch j <= commanded_pitch i)
  /\ commanded_pitch 0 < commanded_pitch 499
  /\ commanded_pitch 250 < commanded_pitch 499.
Proof.
  split; [|split].
  - intros [i [j (Hij & Hj & Hle)]].
    pose proof (commanded_pitch_increasing i j Hij Hj). lra.
  - apply commanded_pitch_increasing; lia.
  - apply commanded_pitch_increasing; lia.
Qed.

Lemma np_randint_cells {E : Env} (n : option Z) (w : World E) :
  cells n ->
  exists r w',
    np_randint 1 (option_map (Z.add 1) n) w = Ok (r, w')
    /\ phys w' = phys w /\ calls w' = calls w.
Proof.
  intros [k [-> Hk]]. unfold np_randint. cbn [option_map].
  destruct (Z.leb_spec (1 + k) 1); [lia|].
  cbn. eexists. eexists. now repeat split.
Qed.

Lemma set_one_content_spec {E : Env} (planar_angle : R)
  (x_range y_range z_range : R) (nx ny nz : option Z) (i : Z)
  (self : Self E) :
  cells nx -> cells ny -> cells nz ->
  content_loaded (params self) -> (0 <= i < content_num (params self))%Z ->
  exists self' cs,
    set_one_content planar_angle x_range y_range z_range nx ny nz i self
    = Ok self'
    /\ extends self self' cs.
Proof.
  intros Hx Hy Hz Hloaded Hi. unfold set_one_content.
  rewrite (MeasureFacts.getitem_nth _ i 0%nat)
    by (unfold content_loaded in Hloaded; lia).
  cbn [bind].
  destruct (np_randint_cells nx (world self) Hx) as [rx [wx (Hrx & Px & Cx)]].
  rewrite Hrx. cbn [bind fst snd].
  destruct (np_randint_cells ny wx Hy) as [ry [wy (Hry & Py & Cy)]].
  rewrite Hry. cbn [bind fst snd].
  destruct (np_randint_cells nz wy Hz) as [rz [wz (Hrz & Pz & Cz)]].
  rewrite Hrz. cbn [bind fst snd].
  eexists. eexists. split; [reflexivity|].
  unfold extends. cbn. rewrite Cz, Cy, Cx, <- app_assoc.
  repeat split; reflexivity.
Qed.

Lemma checkspillage_spec {E : Env} (self : Self E) :
  content_loaded (params self) ->
  checkspillage self
  = Ok (Z.of_nat (List.length (spilled (params self) (phys (world self))))).
Proof.
  intros Hloaded. unfold checkspillage, spilled.
  match goal with
  | |- for_range ?n ?body ?s = Ok (Z.of_nat (List.length (filter ?f _))) =>
      destruct (for_range_invariant
                  (fun i acc =>
                     acc = Z.of_nat (List.length (filter f (range i))))
                  n body s) as [acc [Hrun Hacc]]
  end.
  - apply Hloaded.
  - reflexivity.
  - intros i acc Hi ->.
    rewrite (MeasureFacts.getitem_nth _ i 0%nat)
      by (unfold content_loaded in Hloaded; lia).
    cbn [bind]. eexists. split; [reflexivity|].
    rewrite MeasureFacts.filter_range_succ by lia.
    rewrite length_app.
    destruct (ltb _ _); cbn [List.length]; lia.
  - now rewrite Hrun, Hacc.
Qed.

Lemma spilled_bounds {E : Env} (P : Params) (ph : physics E) :
  content_loaded P ->
  (0 <= Z.of_nat (List.length (spilled P ph)) <= content_num P)%Z.
Proof.
  intros Hloaded. unfold spilled.
  pose proof (filter_length_le
                (fun i =>
                   ltb (vz (fst (getBasePositionAndOrientation E
                                   (nth (Z.to_nat i) (content_id_list P) 0%nat)
                                   ph)))
                     (vz (fst (obj_aabb P))))
                (range (content_num P))) as Hle.
  rewrite range_length in Hle. unfold content_loaded in Hloaded. lia.
Qed.

Lemma spilled_In {E : Env} (P : Params) (ph : physics E) (i : Z) :
  In i (spilled P ph)
  <-> (0 <= i < content_num P)%Z
      /\ vz (fst (getBasePositionAndOrientation E
                    (nth (Z.to_nat i) (content_id_list P) 0%nat) ph))
         < vz (fst (obj_aabb P)).
Proof.
  unfold spilled. rewrite filter_In, MeasureFacts.range_In, ltb_true. tauto.
Qed.

Lemma cells_floor_div (a b : R) :
  0 < b -> b <= a -> cells (np_floor_div a b).
Proof.
  intros Hb Hab. unfold cells, np_floor_div.
  destruct (Req_dec_T b 0) as [H0|_]; [lra|].
  eexists. split; [reflexivity|].
  apply Zfloor_lub. apply Rmult_le_reg_r with b; [exact Hb|].
  unfold Rdiv. rewrite Rmult_assoc, Rinv_l by lra. lra.
Qed.

Lemma Rabs_value (a b : R) : (a = b \/ a = - b) -> 0 <= b -> Rabs a = b.
Proof.
  intros [->| ->] Hb.
  - now apply Rabs_pos_eq.
  - rewrite Rabs_Ropp. now apply Rabs_pos_eq.
Qed.

Lemma pouring_loaded : content_loaded (params Demo.pouring).
Proof. unfold content_loaded. cbn. lia. Qed.

(** The constructor loads the particles it is asked for. *)
Lemma load_contents_length {E : Env} (urdf : string) (l : list Z)
  (ids : list nat) (w : World E) :
  List.length
    (fst (fold_left
            (fun '(ids, w) (_ : Z) =>
               let '(content_id, w) :=
                 invoke_id (LoadURDF urdf (0, 0, 0) identity false) w in
               (ids ++ [content_id], w)) l (ids, w)))
  = (List.length ids + List.length l)%nat.
Proof.
  revert ids w. induction l as [|a l IH]; intros ids w.
  - cbn. lia.
  - cbn [fold_left invoke_id]. rewrite IH, length_app. cbn [List.length]. lia.
Qed.

Lemma init_content_loaded {E : Env} (bottle content obj : string)
  (pour : vec3) (indents contents : Z) (pos orn : vec3) (check : bool)
  (mp4_dir object_name : option string) (P : Params) (w : World E) :
  init bottle content obj pour indents contents pos orn check mp4_dir
    object_name = Ok (P, w) ->
  (0 <= contents)%Z ->
  content_loaded P.
Proof.
  unfold init, invoke_id. intros Hinit Hn.
  match type of Hinit with
  | context [bind ?m _] => destruct m as [name|e]; [|discriminate]
  end.
  cbn [bind] in Hinit.
  match type of Hinit with
  | context [fold_left ?f ?l ?a] =>
      assert (Hlen : List.length (fst (fold_left f l a))
                     = (0 + List.length l)%nat)
        by exact (load_contents_length content l [] (snd a));
      destruct (fold_left f l a) as [ids w']
  end.
  cbn [fst] in Hlen. rewrite range_length in Hlen.
  destruct (math_sqrt _) as [d|e]; [|discriminate].
  cbn [bind] in Hinit.
  destruct (truediv _ _) as [len|e]; [|discriminate].
  cbn [bind] in Hinit. injection Hinit as <- _.
  unfold content_loaded. cbn [content_num content_id_list]. lia.
Qed.

End PourFacts.

(** ** More on the sphere-drop test *)

Module ContainabilityMore.

Import Py Bullet Containability LatticeSpec ContainSpec RunSpec PyFacts
  LatticeFacts MeasureFacts AgitationFacts.

Lemma Rabs_lt_between (p lo hi : R) :
  Rabs (p * 100 - (lo + hi) / 2 * 100) < Rabs (lo - hi) * 100 / 2
  <-> strictly_between lo hi p.
Proof.
  unfold strictly_between, Rmin, Rmax, Rabs.
  destruct (Rle_dec lo hi); destruct (Rcase_abs (lo - hi));
    destruct (Rcase_abs (p * 100 - (lo + hi) / 2 * 100)); split; intros;
    lra.
Qed.

(** Over the reals the test is the strict interior of the box. *)
Lemma in_box_between (box : aabb) (pos : vec3) :
  in_box box pos = true
  <-> strictly_between (vx (fst box)) (vx (snd box)) (vx pos)
      /\ strictly_between (vy (fst box)) (vy (snd box)) (vy pos)
      /\ strictly_between (vz (fst box)) (vz (snd box)) (vz pos).
Proof.
  rewrite in_box_inside. unfold inside. now rewrite !Rabs_lt_between.
Qed.

(** X1.  The test of [checkincup] does not depend on which of the two
    corners of the box comes first, and a box that is flat on some axis
    holds no probe, wherever the probe is. *)
Theorem in_box_corners (box : aabb) (pos : vec3) :
  in_box (snd box, fst box) pos = in_box box pos
  /\ ((vx (fst box) = vx (snd box) \/ vy (fst box) = vy (snd box)
       \/ vz (fst box) = vz (snd box)) -> in_box box pos = false).
Proof.
  split.
  - apply eq_true_iff_eq. rewrite !in_box_between. cbn [fst snd].
    unfold strictly_between.
    rewrite (Rmin_comm (vx (snd box))), (Rmax_comm (vx (snd box))),
      (Rmin_comm (vy (snd box))), (Rmax_comm (vy (snd box))),
      (Rmin_comm (vz (snd box))), (Rmax_comm (vz (snd box))).
    reflexivity.
  - intros Hflat.
    destruct (in_box box pos) eqn:Hin; [|reflexivity].
    apply in_box_between in Hin. unfold strictly_between in Hin.
    destruct Hin as (Hx & Hy & Hz).
    destruct Hflat as [H|[H|H]]; rewrite H in *;
      unfold Rmin, Rmax in *; destruct (Rle_dec _ _); lra.
Qed.


(** A loop raises [e] when, under an invariant, the iterations before
    [k] either go through or raise [e], and iteration [k] raises [e]. *)
Lemma for_range_raises_at {St : Type} (P : St -> Prop) (n k : Z)
  (body : Z -> St -> result St) (s : St) (e : exn) :
  (0 <= k < n)%Z ->
  P s ->
  (forall i t, (0 <= i < k)%Z -> P t ->
               (exists t', body i t = Ok t' /\ P t') \/ body i t = Raise e) ->
  (forall t, P t -> body k t = Raise e) ->
  for_range n body s = Raise e.
Proof.
  intros Hk Hs Hbefore Hat.
  assert (Hprefix : forall j : nat, (Z.of_nat j <= k)%Z ->
            (exists t, for_range (Z.of_nat j) body s = Ok t /\ P t)
            \/ for_range (Z.of_nat j) body s = Raise e).
  { induction j as [|j IH]; intros Hj.
    - left. now exists s.
    - replace (Z.of_nat (S j)) with (Z.of_nat j + 1)%Z by lia.
      rewrite for_range_succ by lia.
      destruct IH as [[t [Ht HP]]|Hr]; [lia| |].
      + rewrite Ht. cbn [bind].
        destruct (Hbefore (Z.of_nat j) t ltac:(lia) HP) as [[t' [Hb HP']]|Hb].
        * left. now exists t'.
        * now right.
      + right. now rewrite Hr. }
  assert (Hk1 : for_range (k + 1) body s = Raise e).
  { rewrite for_range_succ by lia.
    destruct (Hprefix (Z.to_nat k)) as [[t [Ht HP]]|Hr]; [lia| |];
      rewrite Z2Nat.id in * by lia.
    - rewrite Ht. cbn [bind]. now apply Hat.
    - now rewrite Hr. }
  assert (Hrest : forall m : nat,
            for_range (k + 1 + Z.of_nat m) body s = Raise e).
  { induction m as [|m IH].
    - now rewrite Z.add_0_r.
    - replace (k + 1 + Z.of_nat (S m))%Z with (k + 1 + Z.of_nat m + 1)%Z
        by lia.
      rewrite for_range_succ by lia. now rewrite IH. }
  specialize (Hrest (Z.to_nat (n - (k + 1)))).
  now replace (k + 1 + Z.of_nat (Z.to_nat (n - (k + 1))))%Z with n in Hrest
    by lia.
Qed.

(** Indexing only ever raises [IndexError]. *)
Lemma getitem_raises {A : Type} (l : list A) (k : Z) (e : exn) :
  getitem l k = Raise e -> e = IndexError.
Proof.
  unfold getitem.
  destruct (_ <? 0)%Z; [congruence|].
  destruct (nth_error l _); congruence.
Qed.

(** X3.  [checkincup] starts from an empty list each time: measuring twice in
    a row gives the same count and the same kept positions. *)
Theorem checkincup_twice {E : Env} (box : aabb) (self : Self E) :
  probes_ready self ->
  exists (n : nat) (self' : Self E),
    checkincup box self = Ok (n, self')
    /\ checkincup box self' = Ok (n, self')
    /\ List.length (sphere_in_drop_pos self') = n.
Proof.
  intros Hready.
  eexists. eexists. split; [apply (checkincup_spec box self Hready)|].
  split.
  - rewrite checkincup_spec by exact Hready. reflexivity.
  - cbn [sphere_in_drop_pos set_sphere_in_drop_pos].
    now rewrite length_map.
Qed.

Lemma checkincup_twice_witness :
  exists (n : nat) (self' : Self Demo.frozen),
    checkincup Demo.cube Demo.ready = Ok (n, self')
    /\ checkincup Demo.cube self' = Ok (n, self').
Proof.
  destruct (checkincup_twice Demo.cube Demo.ready ready_probes_ready)
    as [n [self' (H1 & H2 & _)]].
  now exists n, self'.
Defined.

(** X4.  With fewer than [sphere_num] probes loaded, [checkincup] raises
    [IndexError]. *)
Theorem checkincup_unloaded {E : Env} (box : aabb) (self : Self E) :
  (Z.of_nat (List.length (sphere_id self)) < sphere_num)%Z ->
  checkincup box self = Raise IndexError.
Proof.
  intros Hshort. unfold checkincup.
  rewrite (for_range_raises_at
             (fun t => sphere_id t = sphere_id self)
             sphere_num (Z.of_nat (List.length (sphere_id self)))
             (check_one box) _ IndexError); [reflexivity|lia|reflexivity| |].
  - intros i t Hi Hid. unfold check_one.
    rewrite (getitem_nth (sphere_id t) i 0%nat) by (rewrite Hid; lia).
    cbn [bind].
    destruct (in_box box _); [|left; now exists t].
    destruct (getitem (sphere_drop_pos t) i) as [drop|e] eqn:Hdrop.
    + left. eexists. split; [reflexivity|exact Hid].
    + right. cbn [bind]. now rewrite (getitem_raises _ _ _ Hdrop).
  - intros t Hid. unfold check_one.
    rewrite getitem_beyond by (rewrite Hid; lia). reflexivity.
Qed.

Lemma checkincup_unloaded_witness :
  checkincup Demo.cube DemoRuns.fresh = Raise IndexError.
Proof.
  apply checkincup_unloaded. unfold DemoRuns.fresh, init, invoke_id.
  destruct (leb _ 0.1); cbn [sphere_id List.length]; unfold sphere_num; lia.
Defined.

(** The body of the placement loop when there is at least one column:
    only the lookup of the probe can fail. *)
Lemma place_sphere_unfold {E : Env} (nx : Z) (xs ys : list R) (z : R)
  (c r : R * R) (i : Z) (t : Self E) :
  (1 <= nx)%Z ->
  place_sphere nx xs ys z c r i t
  = (let pw := sphere_start_pos xs ys z c r (i mod nx) (i / nx) (world t) in
     sphere <- getitem (sphere_id t) i ;;
     Ok (p_ (ResetBasePositionAndOrientation sphere (fst pw)
               (sphere_drop_orn t))
           (set_sphere_drop_pos (sphere_drop_pos t ++ [fst pw])
              (set_world (snd pw) t)))).
Proof.
  intros Hnx. unfold place_sphere, truediv.
  destruct (Req_dec_T (IZR nx) 0) as [H0|_].
  { apply eq_IZR in H0. lia. }
  cbn [bind]. rewrite floor_truediv by lia.
  unfold mod_. destruct (Z.eqb_spec nx 0) as [H0|_]; [lia|].
  cbn [bind].
  destruct (sphere_start_pos xs ys z c r (i mod nx) (i / nx) (world t))
    as [pos w].
  reflexivity.
Qed.

Lemma placement_calls_succ (ids : list nat) (drops : list vec3)
  (orn : orientation) (n : Z) (pos : vec3) :
  (0 <= n)%Z -> List.length drops = Z.to_nat n ->
  placement_calls ids (drops ++ [pos]) orn (n + 1)
  = placement_calls ids drops orn n
    ++ [ResetBasePositionAndOrientation (nth (Z.to_nat n) ids 0%nat) pos orn].
Proof.
  intros Hn Hlen. unfold placement_calls.
  rewrite range_succ, map_app by exact Hn. cbn [map]. f_equal.
  - apply map_ext_in. intros k Hk. apply range_In in Hk.
    now rewrite app_nth1 by lia.
  - rewrite app_nth2 by lia. now rewrite Hlen, Nat.sub_diag.
Qed.

(** The floors of the two sides of the lattice multiply to at most the
    number of probes. *)
Lemma columns_rows_capacity (box : aabb) :
  fst (xy_range box) * snd (xy_range box) <> 0 ->
  (0 <= columns box)%Z /\ (0 <= rows box)%Z
  /\ (columns box * rows box <= sphere_num)%Z.
Proof.
  intros Harea.
  destruct (grid_dims_defined box Harea) as [_ [Hnx Hny]].
  cbv zeta in Hnx, Hny.
  split; [exact Hnx|]. split; [exact Hny|].
  unfold columns, rows, density in *.
  destruct (xy_range_nonneg box) as [Hx Hy].
  set (q := IZR sphere_num / (fst (xy_range box) * snd (xy_range box))) in *.
  assert (Hq : 0 <= q).
  { unfold q. apply Rmult_le_pos; [unfold sphere_num; lra|].
    left. apply Rinv_0_lt_compat. nra. }
  pose proof (sqrt_sqrt q Hq) as Hsq.
  pose proof (sqrt_pos q) as Hs.
  destruct (Zfloor_bound (sqrt q * fst (xy_range box))) as [Ha _].
  destruct (Zfloor_bound (sqrt q * snd (xy_range box))) as [Hb _].
  assert (Ha0 : 0 <= IZR (Zfloor (sqrt q * fst (xy_range box))))
    by now apply IZR_le.
  assert (Hb0 : 0 <= IZR (Zfloor (sqrt q * snd (xy_range box))))
    by now apply IZR_le.
  apply le_IZR. rewrite mult_IZR.
  apply Rle_trans with
    ((sqrt q * fst (xy_range box)) * (sqrt q * snd (xy_range box))).
  - apply Rmult_le_compat; assumption.
  - replace (sqrt q * fst (xy_range box) * (sqrt q * snd (xy_range box)))
      with (sqrt q * sqrt q * (fst (xy_range box) * snd (xy_range box)))
      by ring.
    rewrite Hsq. unfold q, Rdiv. rewrite Rmult_assoc, Rinv_l by exact Harea.
    lra.
Qed.

(** X5.  The lattice never has more cells than there are probes. *)
Theorem lattice_capacity (box : aabb) (nx ny : Z) :
  grid_dims box = Ok (nx, ny) ->
  (0 <= nx)%Z /\ (0 <= ny)%Z /\ (nx * ny <= sphere_num)%Z.
Proof.
  intros Hdims.
  destruct (Req_dec_T (fst (xy_range box) * snd (xy_range box)) 0)
    as [Hflat|Harea].
  { rewrite (grid_dims_flat box Hflat) in Hdims. discriminate. }
  destruct (grid_dims_defined box Harea) as [Hd _].
  cbv zeta in Hd. rewrite Hd in Hdims.
  injection Hdims as <- <-.
  exact (columns_rows_capacity box Harea).
Qed.

Lemma lattice_capacity_witness :
  (0 <= 15)%Z /\ (0 <= 15)%Z /\ (15 * 15 <= sphere_num)%Z.
Proof.
  apply (lattice_capacity Demo.cube).
  destruct (grid_dims_positive_ranges Demo.cube) as [Hd _].
  - rewrite ContainabilityRuns.cube_range. cbn [fst]. lra.
  - rewrite ContainabilityRuns.cube_range. cbn [snd]. lra.
  - now rewrite ContainabilityRuns.cube_columns, ContainabilityRuns.cube_rows
      in Hd.
Defined.

(** The placement loop, with what it asks of the engine and what it
    draws. *)
Lemma reset_sphere_drop_trace {E : Env} (box : aabb) (nx ny : Z)
  (self : Self E) :
  grid_dims box = Ok (nx, ny) ->
  (1 <= nx)%Z -> (0 <= ny)%Z ->
  (sphere_num <= Z.of_nat (List.length (sphere_id self)))%Z ->
  exists self',
    reset_sphere_drop box self = Ok self'
    /\ calls (world self')
       = calls (world self)
         ++ placement_calls (sphere_id self) (sphere_drop_pos self')
              (sphere_drop_orn self) sphere_num
    /\ Z.of_nat (drawn (world self'))
       = (Z.of_nat (drawn (world self))
          + 2 * Z.max 0 (sphere_num - nx * ny))%Z.
Proof.
  intros Hdims Hnx Hny Hids.
  unfold reset_sphere_drop. rewrite Hdims. cbn [bind fst snd].
  destruct (linspace_spec (- fst (xy_range box) / 2) (fst (xy_range box) / 2)
              nx ltac:(lia)) as [xs [Hxs _]].
  destruct (linspace_spec (- snd (xy_range box) / 2) (snd (xy_range box) / 2)
              ny Hny) as [ys [Hys _]].
  rewrite Hxs. cbn [bind]. rewrite Hys. cbn [bind].
  destruct (for_range_invariant
    (fun i t =>
       sphere_id t = sphere_id self
       /\ sphere_drop_orn t = sphere_drop_orn self
       /\ List.length (sphere_drop_pos t) = Z.to_nat i
       /\ calls (world t)
          = calls (world self)
            ++ placement_calls (sphere_id self) (sphere_drop_pos t)
                 (sphere_drop_orn self) i
       /\ Z.of_nat (drawn (world t))
          = (Z.of_nat (drawn (world self)) + 2 * Z.max 0 (i - nx * ny))%Z)
    sphere_num
    (place_sphere nx (map (fun v => v + fst (xy_center box)) xs)
       (map (fun v => v + snd (xy_center box)) ys) (vz (snd box) + 0.01)
       (xy_center box) (xy_range box))
    (set_sphere_drop_pos [] self))
    as [self' [Hrun (_ & _ & _ & Hcalls & Hdrawn)]].
  - unfold sphere_num. lia.
  - assert (Hcap : (0 <= nx * ny)%Z) by nia.
    cbn [sphere_id sphere_drop_orn sphere_drop_pos world
         set_sphere_drop_pos].
    change (placement_calls (sphere_id self) [] (sphere_drop_orn self) 0)
      with (@nil call).
    rewrite app_nil_r. repeat split. lia.
  - intros i t Hi (Hid & Horn & Hlen & Hcalls & Hdrawn).
    rewrite place_sphere_unfold by exact Hnx.
    rewrite (getitem_nth (sphere_id t) i 0%nat) by (rewrite Hid; lia).
    destruct (Z.lt_ge_cases i (nx * ny)) as [Hin|Hout].
    + rewrite (sphere_start_pos_lattice box nx ny xs ys Hnx Hny Hxs Hys)
        by lia.
      cbn [bind fst snd]. eexists. split; [reflexivity|].
      cbn [sphere_id sphere_drop_orn sphere_drop_pos world calls drawn p_
           set_world set_sphere_drop_pos invoke].
      rewrite placement_calls_succ by (lia || exact Hlen).
      rewrite Hcalls, Hid, Horn, <- app_assoc, length_app, Hlen.
      cbn [List.length]. repeat split; lia.
    + rewrite (sphere_start_pos_fallback box nx ny xs ys Hnx Hny Hxs Hys)
        by lia.
      cbn [bind fst snd]. eexists. split; [reflexivity|].
      cbn [sphere_id sphere_drop_orn sphere_drop_pos world calls drawn p_
           set_world set_sphere_drop_pos invoke].
      rewrite placement_calls_succ by (lia || exact Hlen).
      rewrite Hcalls, Hid, Horn, <- app_assoc, length_app, Hlen.
      cbn [List.length]. repeat split; lia.
  - exists self'. unfold for_range in Hrun |- *. rewrite Hrun.
    now repeat split.
Qed.

Lemma sliver_range : xy_range DemoRuns.sliver = (4 / 1000, 4 / 10).
Proof.
  unfold xy_range, DemoRuns.sliver, vx, vy. cbn [fst snd].
  f_equal; apply ContainabilityRuns.Rabs_of_negative; lra.
Qed.

Lemma sliver_density : density DemoRuns.sliver = 375.
Proof.
  unfold density. rewrite sliver_range. cbn [fst snd]. unfold sphere_num.
  apply sqrt_lem_1; lra.
Qed.

Lemma sliver_columns : columns DemoRuns.sliver = 1%Z.
Proof.
  unfold columns. rewrite sliver_density, sliver_range. cbn [fst].
  apply Zfloor_eq. lra.
Qed.

Lemma sliver_rows : rows DemoRuns.sliver = 150%Z.
Proof.
  unfold rows. rewrite sliver_density, sliver_range. cbn [snd].
  apply Zfloor_eq. lra.
Qed.

Lemma placement_calls_In (ids : list nat) (drops : list vec3)
  (orn : orientation) (n i : Z) :
  (0 <= i < n)%Z ->
  In (ResetBasePositionAndOrientation (nth (Z.to_nat i) ids 0%nat)
        (nth (Z.to_nat i) drops (0, 0, 0)) orn)
    (placement_calls ids drops orn n).
Proof.
  intros Hi. unfold placement_calls.
  apply (in_map (fun i =>
                   ResetBasePositionAndOrientation
                     (nth (Z.to_nat i) ids 0%nat)
                     (nth (Z.to_nat i) drops (0, 0, 0)) orn)).
  now apply MeasureFacts.range_In.
Qed.

(** C5, as amended.  For the lattice dimensions [nx] and [ny] the code
    computes, both at least 1: [reset_sphere_drop] returns; the engine is
    asked to reset every probe [i] to the position recorded as
    [sphere_drop_pos[i]]; below the capacity [nx * ny] that position is
    column [i mod nx] and row [i / nx] of the lattice, 1 cm above the box;
    the probes beyond get fallback points; every position is over the
    footprint.  The coordinates of an axis with [n >= 2] values are evenly
    spaced from one end of the footprint to the other; with a single
    value ([n = 1]) it is the lower end of the footprint, not its
    centre. *)
Theorem reset_sphere_drop_lattice_placed {E : Env} (box : aabb)
  (nx ny : Z) (self : Self E) :
  unit_draws E ->
  grid_dims box = Ok (nx, ny) ->
  (1 <= nx)%Z -> (1 <= ny)%Z ->
  (sphere_num <= Z.of_nat (List.length (sphere_id self)))%Z ->
  exists self',
    reset_sphere_drop box self = Ok self'
    /\ 0 < fst (xy_range box) /\ 0 < snd (xy_range box)
    /\ List.length (sphere_drop_pos self') = Z.to_nat sphere_num
    /\ calls (world self')
       = calls (world self)
         ++ placement_calls (sphere_id self) (sphere_drop_pos self')
              (sphere_drop_orn self) sphere_num
    /\ (forall i, (0 <= i < sphere_num)%Z ->
         exists pos,
           nth_error (sphere_drop_pos self') (Z.to_nat i) = Some pos
           /\ In (ResetBasePositionAndOrientation
                    (nth (Z.to_nat i) (sphere_id self) 0%nat) pos
                    (sphere_drop_orn self))
                (calls (world self'))
           /\ ((i < nx * ny)%Z -> pos = lattice_pos box nx ny i)
           /\ ((nx * ny <= i)%Z ->
               exists u v, 0 <= u < 1 /\ 0 <= v < 1
                           /\ pos = fallback_pos box u v)
           /\ over_footprint box pos)
    /\ (forall c r n k,
          grid_coord c r n 0 = c - r / 2
          /\ ((2 <= n)%Z ->
              grid_coord c r n (k + 1) - grid_coord c r n k = r / IZR (n - 1)
              /\ grid_coord c r n (n - 1) = c + r / 2))
    /\ (nx = 1%Z ->
        forall i, (0 <= i < nx * ny)%Z ->
          vx (lattice_pos box nx ny i)
          = fst (xy_center box) - fst (xy_range box) / 2)
    /\ (ny = 1%Z ->
        forall i, (0 <= i < nx * ny)%Z ->
          vy (lattice_pos box nx ny i)
          = snd (xy_center box) - snd (xy_range box) / 2).
Proof.
  intros Hdraws Hdims Hnx Hny Hids.
  destruct (xy_range_nonneg box) as [Hx0 Hy0].
  assert (Harea : fst (xy_range box) * snd (xy_range box) <> 0).
  { intros Hflat. rewrite (grid_dims_flat box Hflat) in Hdims.
    discriminate. }
  assert (Hx : 0 < fst (xy_range box)) by nra.
  assert (Hy : 0 < snd (xy_range box)) by nra.
  destruct (reset_sphere_drop_spec box nx ny self Hdims Hnx ltac:(lia) Hids)
    as [self' (Hrun & _ & Hlen & Hall)].
  destruct (reset_sphere_drop_trace box nx ny self Hdims Hnx ltac:(lia) Hids)
    as [t (Hrun' & Htrace & _)].
  rewrite Hrun in Hrun'. injection Hrun' as <-.
  exists self'. split; [exact Hrun|]. split; [exact Hx|]. split; [exact Hy|].
  split; [exact Hlen|]. split; [exact Htrace|].
  split; [|split; [|split]].
  - intros i Hi. destruct (Hall i Hi) as [pos [Hpos [Hlat Hfall]]].
    exists pos. split; [exact Hpos|]. split.
    { rewrite Htrace. apply in_or_app. right.
      rewrite <- (nth_error_nth _ _ (0, 0, 0) Hpos).
      apply placement_calls_In. exact Hi. }
    split; [exact Hlat|]. split.
    + intros Hout. destruct (Hfall Hout) as [k ->].
      exists (random_random E k), (random_random E (S k)).
      split; [apply Hdraws|]. split; [apply Hdraws|reflexivity].
    + destruct (Z.lt_ge_cases i (nx * ny)) as [Hin|Hout].
      * rewrite (Hlat Hin). apply lattice_pos_over_footprint; lia.
      * destruct (Hfall Hout) as [k ->].
        destruct (fallback_pos_quadrant box (random_random E k)
                    (random_random E (S k)) Hx Hy (Hdraws _) (Hdraws _))
          as [Hqx Hqy].
        unfold over_footprint. lra.
  - intros c r n k. split; [apply grid_coord_first|].
    intros Hn. split; [apply grid_coord_step|now apply grid_coord_last].
  - intros -> i Hi. unfold lattice_pos, vx. cbn [fst].
    rewrite Z.mod_1_r. apply grid_coord_first.
  - intros -> i Hi. unfold lattice_pos, vy. cbn [fst snd].
    rewrite Z.div_small by lia. apply grid_coord_first.
Qed.

(** The cube takes a lattice of 15 by 15 probes, and each probe is reset
    to its lattice point. *)
Lemma reset_sphere_drop_lattice_placed_witness :
  exists self',
    reset_sphere_drop Demo.cube Demo.ready = Ok self'
    /\ List.length (sphere_drop_pos self') = Z.to_nat sphere_num
    /\ forall i, (0 <= i < 225)%Z ->
         exists pos,
           nth_error (sphere_drop_pos self') (Z.to_nat i) = Some pos
           /\ In (ResetBasePositionAndOrientation
                    (nth (Z.to_nat i) (sphere_id Demo.ready) 0%nat) pos
                    (sphere_drop_orn Demo.ready))
                (calls (world self'))
           /\ pos = lattice_pos Demo.cube 15 15 i
           /\ over_footprint Demo.cube pos.
Proof.
  assert (Hdims : grid_dims Demo.cube = Ok (15%Z, 15%Z)).
  { destruct (grid_dims_positive_ranges Demo.cube) as [Hd _].
    - rewrite ContainabilityRuns.cube_range. cbn [fst]. lra.
    - rewrite ContainabilityRuns.cube_range. cbn [snd]. lra.
    - now rewrite ContainabilityRuns.cube_columns,
        ContainabilityRuns.cube_rows in Hd. }
  destruct (reset_sphere_drop_lattice_placed Demo.cube 15 15 Demo.ready
              ContainabilityRuns.frozen_unit_draws Hdims ltac:(lia)
              ltac:(lia) ContainabilityRuns.ready_ids)
    as [self' (Hrun & _ & _ & Hlen & _ & Hall & _)].
  exists self'. split; [exact Hrun|]. split; [exact Hlen|].
  intros i Hi. destruct (Hall i Hi) as [pos (Hpos & Hcall & Hlat & _ & Hover)].
  exists pos. split; [exact Hpos|]. split; [exact Hcall|].
  split; [apply Hlat; lia|exact Hover].
Defined.

(** The claim as first stated fails on a lattice of a single column: on
    the sliver, all 150 lattice probes are on the face of the footprint
    at [x = 0], none at or beyond its centre [x = 0.002]; their x
    coordinates do not span the footprint. *)
Lemma one_column_lattice_on_the_face :
  grid_dims DemoRuns.sliver = Ok (1%Z, 150%Z)
  /\ fst (xy_center DemoRuns.sliver) = 2 / 1000
  /\ fst (xy_range DemoRuns.sliver) = 4 / 1000
  /\ exists self',
       reset_sphere_drop DemoRuns.sliver Demo.ready = Ok self'
       /\ (forall i, (0 <= i < 150)%Z ->
             exists pos,
               nth_error (sphere_drop_pos self') (Z.to_nat i) = Some pos
               /\ vx pos = 0)
       /\ forall coords,
            (forall x, In x coords ->
               exists i pos,
                 (0 <= i < 150)%Z
                 /\ nth_error (sphere_drop_pos self') (Z.to_nat i) = Some pos
                 /\ vx pos = x) ->
            ~ stated_spanning (2 / 1000) (4 / 1000) coords.
Proof.
  assert (Hdims : grid_dims DemoRuns.sliver = Ok (1%Z, 150%Z)).
  { destruct (grid_dims_positive_ranges DemoRuns.sliver) as [Hd _].
    - rewrite sliver_range. cbn [fst]. lra.
    - rewrite sliver_range. cbn [snd]. lra.
    - now rewrite sliver_columns, sliver_rows in Hd. }
  assert (Hc : fst (xy_center DemoRuns.sliver) = 2 / 1000).
  { unfold xy_center, DemoRuns.sliver, vx. cbn [fst snd]. lra. }
  split; [exact Hdims|]. split; [exact Hc|].
  split; [now rewrite sliver_range|].
  destruct (reset_sphere_drop_spec DemoRuns.sliver 1 150 Demo.ready Hdims
              ltac:(lia) ltac:(lia) ContainabilityRuns.ready_ids)
    as [self' (Hrun & _ & _ & Hall)].
  assert (Hface : forall i, (0 <= i < 150)%Z ->
            exists pos,
              nth_error (sphere_drop_pos self') (Z.to_nat i) = Some pos
              /\ vx pos = 0).
  { intros i Hi.
    destruct (Hall i ltac:(unfold sphere_num; lia)) as [pos [Hpos [Hlat _]]].
    exists pos. split; [exact Hpos|].
    rewrite (Hlat ltac:(lia)). unfold lattice_pos, vx. cbn [fst].
    rewrite Z.mod_1_r, grid_coord_first, Hc, sliver_range. cbn [fst]. lra. }
  exists self'. split; [exact Hrun|]. split; [exact Hface|].
  intros coords Hcoords (_ & Hfar & _).
  destruct (Hcoords _ Hfar) as [i [pos (Hi & Hpos & Hv)]].
  destruct (Hface i Hi) as [pos' [Hpos' Hv']].
  rewrite Hpos in Hpos'. injection Hpos' as <-. lra.
Qed.

(** X6.  The drop positions [reset_sphere_drop] records are the positions it
    commands: probe [i] (the body [sphere_id[i]]) is reset to
    [sphere_drop_pos[i]], once, in order, and nothing else is asked of the
    engine; the generator is drawn twice for every probe that does not fit
    the lattice. *)
Theorem reset_sphere_drop_commands {E : Env} (box : aabb) (self : Self E) :
  0 < fst (xy_range box) -> 0 < snd (xy_range box) ->
  (1 <= columns box)%Z ->
  (sphere_num <= Z.of_nat (List.length (sphere_id self)))%Z ->
  exists self',
    reset_sphere_drop box self = Ok self'
    /\ calls (world self')
       = calls (world self)
         ++ placement_calls (sphere_id self) (sphere_drop_pos self')
              (sphere_drop_orn self) sphere_num
    /\ Z.of_nat (drawn (world self'))
       = (Z.of_nat (drawn (world self))
          + 2 * (sphere_num - columns box * rows box))%Z.
Proof.
  intros Hx Hy Hnx Hids.
  destruct (grid_dims_positive_ranges box Hx Hy) as [Hdims [_ Hny]].
  destruct (columns_rows_capacity box ltac:(nra)) as (_ & _ & Hcap).
  destruct (reset_sphere_drop_trace box _ _ self Hdims Hnx Hny Hids)
    as [self' (Hrun & Hcalls & Hdrawn)].
  exists self'. split; [exact Hrun|]. split; [exact Hcalls|].
  rewrite Hdrawn. lia.
Qed.

Lemma reset_sphere_drop_commands_witness :
  exists self',
    reset_sphere_drop Demo.strip Demo.ready = Ok self'
    /\ Z.of_nat (drawn (world self')) = 450%Z.
Proof.
  destruct (reset_sphere_drop_commands Demo.strip Demo.ready)
    as [self' (Hrun & _ & Hdrawn)].
  - rewrite ContainabilityRuns.strip_range. cbn [fst]. lra.
  - rewrite ContainabilityRuns.strip_range. cbn [snd]. lra.
  - rewrite ContainabilityRuns.strip_columns. lia.
  - exact ContainabilityRuns.ready_ids.
  - exists self'. split; [exact Hrun|].
    rewrite Hdrawn, ContainabilityRuns.strip_columns,
      ContainabilityRuns.strip_rows.
    reflexivity.
Defined.

(** X7.  Before the probes are loaded, [reset_sphere_drop] raises [IndexError]
    at the first probe it has no body for. *)
Theorem reset_sphere_drop_unloaded {E : Env} (box : aabb) (self : Self E) :
  0 < fst (xy_range box) -> 0 < snd (xy_range box) ->
  (1 <= columns box)%Z ->
  (Z.of_nat (List.length (sphere_id self)) < sphere_num)%Z ->
  reset_sphere_drop box self = Raise IndexError.
Proof.
  intros Hx Hy Hnx Hshort.
  destruct (grid_dims_positive_ranges box Hx Hy) as [Hdims [_ Hny]].
  unfold reset_sphere_drop. rewrite Hdims. cbn [bind fst snd].
  destruct (linspace_spec (- fst (xy_range box) / 2) (fst (xy_range box) / 2)
              (columns box) ltac:(lia)) as [xs [Hxs _]].
  destruct (linspace_spec (- snd (xy_range box) / 2) (snd (xy_range box) / 2)
              (rows box) Hny) as [ys [Hys _]].
  rewrite Hxs. cbn [bind]. rewrite Hys. cbn [bind].
  apply (for_range_raises_at (fun t => sphere_id t = sphere_id self)
           sphere_num (Z.of_nat (List.length (sphere_id self)))).
  - lia.
  - reflexivity.
  - intros i t Hi Hid. left.
    rewrite place_sphere_unfold by exact Hnx.
    rewrite (getitem_nth (sphere_id t) i 0%nat) by (rewrite Hid; lia).
    cbn [bind]. eexists. split; [reflexivity|exact Hid].
  - intros t Hid. rewrite place_sphere_unfold by exact Hnx.
    rewrite getitem_beyond by (rewrite Hid; lia). reflexivity.
Qed.

Lemma fresh_unloaded : sphere_id DemoRuns.fresh = [].
Proof.
  unfold DemoRuns.fresh, init, invoke_id. now destruct (leb _ 0.1).
Qed.

Lemma reset_sphere_drop_unloaded_witness :
  reset_sphere_drop Demo.cube DemoRuns.fresh = Raise IndexError.
Proof.
  apply reset_sphere_drop_unloaded.
  - rewrite ContainabilityRuns.cube_range. cbn [fst]. lra.
  - rewrite ContainabilityRuns.cube_range. cbn [snd]. lra.
  - rewrite ContainabilityRuns.cube_columns. lia.
  - rewrite fresh_unloaded. cbn. unfold sphere_num. lia.
Defined.

Lemma grid_coord_inj (c r : R) (n k k' : Z) :
  0 < r -> (0 <= k < n)%Z -> (0 <= k' < n)%Z ->
  grid_coord c r n k = grid_coord c r n k' -> k = k'.
Proof.
  intros Hr Hk Hk' Heq. unfold grid_coord in Heq.
  destruct (Z.eq_dec n 1) as [->|Hn]; [lia|].
  assert (Hd : 0 < IZR (n - 1)) by (apply IZR_lt; lia).
  assert (Hq : 0 < r / IZR (n - 1)).
  { apply Rmult_lt_0_compat; [exact Hr|now apply Rinv_0_lt_compat]. }
  apply eq_IZR. nra.
Qed.

(** X8.  No two probes of the lattice are dropped from the same place. *)
Theorem reset_sphere_drop_distinct {E : Env} (box : aabb) (self : Self E) :
  0 < fst (xy_range box) -> 0 < snd (xy_range box) ->
  (1 <= columns box)%Z ->
  (sphere_num <= Z.of_nat (List.length (sphere_id self)))%Z ->
  exists self',
    reset_sphere_drop box self = Ok self'
    /\ forall i j, (0 <= i < j)%Z -> (j < columns box * rows box)%Z ->
         exists pi pj,
           nth_error (sphere_drop_pos self') (Z.to_nat i) = Some pi
           /\ nth_error (sphere_drop_pos self') (Z.to_nat j) = Some pj
           /\ pi <> pj.
Proof.
  intros Hx Hy Hnx Hids.
  destruct (grid_dims_positive_ranges box Hx Hy) as [Hdims [_ Hny]].
  destruct (columns_rows_capacity box ltac:(nra)) as (_ & _ & Hcap).
  destruct (reset_sphere_drop_spec box _ _ self Hdims Hnx Hny Hids)
    as [self' (Hrun & _ & _ & Hall)].
  exists self'. split; [exact Hrun|].
  intros i j Hij Hj.
  destruct (Hall i ltac:(lia)) as [pi [Hpi [Hlat_i _]]].
  destruct (Hall j ltac:(lia)) as [pj [Hpj [Hlat_j _]]].
  exists pi, pj. split; [exact Hpi|]. split; [exact Hpj|].
  rewrite (Hlat_i ltac:(lia)), (Hlat_j ltac:(lia)).
  unfold lattice_pos. intros Heq. injection Heq as Hcx Hcy.
  apply grid_coord_inj in Hcx;
    [|exact Hx|apply Z.mod_pos_bound; lia|apply Z.mod_pos_bound; lia].
  apply grid_coord_inj in Hcy; [|exact Hy| |].
  - pose proof (Z.div_mod i (columns box) ltac:(lia)).
    pose proof (Z.div_mod j (columns box) ltac:(lia)). nia.
  - split; [apply Z.div_pos; lia|apply Z.div_lt_upper_bound; lia].
  - split; [apply Z.div_pos; lia|apply Z.div_lt_upper_bound; lia].
Qed.

Lemma reset_sphere_drop_distinct_witness :
  exists self',
    reset_sphere_drop Demo.cube Demo.ready = Ok self'
    /\ exists pi pj,
         nth_error (sphere_drop_pos self') 0 = Some pi
         /\ nth_error (sphere_drop_pos self') 224 = Some pj
         /\ pi <> pj.
Proof.
  destruct (reset_sphere_drop_distinct Demo.cube Demo.ready)
    as [self' (Hrun & Hall)].
  - rewrite ContainabilityRuns.cube_range. cbn [fst]. lra.
  - rewrite ContainabilityRuns.cube_range. cbn [snd]. lra.
  - rewrite ContainabilityRuns.cube_columns. lia.
  - exact ContainabilityRuns.ready_ids.
  - exists self'. split; [exact Hrun|].
    apply (Hall 0%Z 224%Z); [lia|].
    rewrite ContainabilityRuns.cube_columns, ContainabilityRuns.cube_rows.
    lia.
Defined.

Lemma count_steps_app (a b : list call) :
  count_steps (a ++ b) = (count_steps a + count_steps b)%nat.
Proof. unfold count_steps. now rewrite filter_app, length_app. Qed.

Lemma count_steps_placement (ids : list nat) (drops : list vec3)
  (orn : orientation) (n : Z) :
  count_steps (placement_calls ids drops orn n) = 0%nat.
Proof.
  unfold placement_calls. induction (range n) as [|i l IH]; [reflexivity|].
  exact IH.
Qed.

Lemma count_steps_loads (news : list nat) :
  count_steps (flat_map load_calls news) = 0%nat.
Proof. induction news as [|b l IH]; [reflexivity|exact IH]. Qed.

(** The loading loop, for any number of probes. *)
Lemma load_loop_trace {E : Env} (n : Z) (self : Self E) :
  (0 <= n)%Z ->
  exists self1 news,
    for_range n load_one_sphere self = Ok self1
    /\ sphere_id self1 = sphere_id self ++ news
    /\ Z.of_nat (List.length news) = n
    /\ calls (world self1) = calls (world self) ++ flat_map load_calls news
    /\ sphere_drop_pos self1 = sphere_drop_pos self
    /\ obj_curr_aabb self1 = obj_curr_aabb self.
Proof.
  intros Hn.
  destruct (for_range_invariant
    (fun i t =>
       exists news,
         sphere_id t = sphere_id self ++ news
         /\ Z.of_nat (List.length news) = i
         /\ calls (world t) = calls (world self) ++ flat_map load_calls news
         /\ sphere_drop_pos t = sphere_drop_pos self
         /\ obj_curr_aabb t = obj_curr_aabb self)
    n load_one_sphere self) as [self1 [Hrun [news Hinv]]].
  - exact Hn.
  - exists []. rewrite !app_nil_r. now repeat split.
  - intros i t Hi [news (H1 & H2 & H3 & H4 & H5)].
    unfold load_one_sphere, invoke_id. eexists. split; [reflexivity|].
    eexists (news ++ [_]).
    cbn [sphere_id sphere_drop_pos obj_curr_aabb world calls set_world
         set_sphere_id invoke].
    rewrite H1, H3, flat_map_app, length_app, <- !app_assoc.
    cbn [List.length flat_map load_calls app].
    repeat split; try assumption. lia.
  - exists self1, news. split; [exact Hrun|exact Hinv].
Qed.

Lemma load_sphere_trace {E : Env} (self : Self E) :
  exists self1 news,
    load_sphere self = Ok self1
    /\ sphere_id self1 = sphere_id self ++ news
    /\ Z.of_nat (List.length news) = sphere_num
    /\ calls (world self1) = calls (world self) ++ flat_map load_calls news
    /\ sphere_drop_pos self1 = sphere_drop_pos self
    /\ obj_curr_aabb self1 = obj_curr_aabb self.
Proof.
  unfold load_sphere. apply load_loop_trace. unfold sphere_num. lia.
Qed.

(** X9.  [load_sphere] adds to the probes already loaded: the ids it gets from
    the engine come after those [sphere_id] held, which stay where they
    were, and each new body is given the restitution of the probes; there
    are 225 more probes afterwards, and no step has been taken. *)
Theorem load_sphere_appends {E : Env} (self : Self E) :
  exists self1 news,
    load_sphere self = Ok self1
    /\ sphere_id self1 = sphere_id self ++ news
    /\ Z.of_nat (List.length news) = sphere_num
    /\ calls (world self1) = calls (world self) ++ flat_map load_calls news
    /\ sphere_drop_pos self1 = sphere_drop_pos self
    /\ obj_curr_aabb self1 = obj_curr_aabb self
    /\ List.length (sphere_id self1)
       = (List.length (sphere_id self) + 225)%nat
    /\ count_steps (calls (world self1)) = count_steps (calls (world self)).
Proof.
  destruct (load_sphere_trace self)
    as [self1 [news (Hrun & Hids & Hnews & Hlog & Hdrop & Hbox)]].
  exists self1, news. split; [exact Hrun|]. split; [exact Hids|].
  split; [exact Hnews|]. split; [exact Hlog|]. split; [exact Hdrop|].
  split; [exact Hbox|]. split.
  - rewrite Hids, length_app. unfold sphere_num in Hnews. lia.
  - rewrite Hlog, count_steps_app, count_steps_loads. lia.
Qed.

(** X10.  What [agitation] sets is always along the diagonal, with the vertical
    at -10 and the horizontal within [[-10, 10]]: above 5 and below 10 on
    the way up, from -5 down to above -10 on the way down; nothing is set
    up to step 200. *)
Theorem agitation_bounds (i : Z) :
  (agitation i = None <-> (i <= 200)%Z)
  /\ forall c, agitation i = Some c ->
       exists h,
         c = SetGravity h h (-10)
         /\ -10 <= h <= 10
         /\ ((200 < i < 500)%Z -> 5 < h < 10)
         /\ ((600 <= i < 900)%Z -> -10 < h <= -5).
Proof.
  pose proof PI_RGT_0 as Hpi.
  assert (Hup : (200 < i < 500)%Z ->
                0 < sin (PI / 2 * IZR (i - 200) / 300) < 1).
  { intros Hi.
    assert (H0 : 1 <= IZR (i - 200)) by (apply IZR_le; lia).
    assert (H1 : IZR (i - 200) <= 299) by (apply IZR_le; lia).
    split.
    - apply sin_gt_0; nra.
    - rewrite <- sin_PI2. apply sin_increasing_1; nra. }
  assert (Hdown : (600 <= i < 900)%Z ->
                  0 <= sin (PI / 2 * IZR (i - 600) / 300) < 1).
  { intros Hi.
    assert (H0 : 0 <= IZR (i - 600)) by (apply IZR_le; lia).
    assert (H1 : IZR (i - 600) <= 299) by (apply IZR_le; lia).
    split.
    - apply sin_ge_0; nra.
    - rewrite <- sin_PI2. apply sin_increasing_1; nra. }
  split.
  - rewrite agitation_schedule.
    destruct (Z.leb_spec i 200); split; intros; try reflexivity; try lia.
    discriminate.
  - intros c Hc.
    destruct (Z.le_gt_cases i 200) as [H1|H1].
    { rewrite agitation_settle in Hc by exact H1. discriminate. }
    destruct (Z.lt_ge_cases i 500) as [H2|H2].
    { rewrite agitation_ramp_up in Hc by lia. injection Hc as <-.
      destruct (Hup ltac:(lia)).
      eexists. split; [reflexivity|]. repeat split; intros; lra || lia. }
    destruct (Z.lt_ge_cases i 600) as [H3|H3].
    { rewrite agitation_hold_pos in Hc by lia. injection Hc as <-.
      exists 10. split; [reflexivity|]. repeat split; intros; lra || lia. }
    destruct (Z.lt_ge_cases i 900) as [H4|H4].
    { rewrite agitation_ramp_down in Hc by lia. injection Hc as <-.
      destruct (Hdown ltac:(lia)).
      eexists. split; [reflexivity|]. repeat split; intros; lra || lia. }
    rewrite agitation_hold_neg in Hc by lia. injection Hc as <-.
    exists (-10). split; [reflexivity|]. repeat split; intros; lra || lia.
Qed.

Lemma agitation_sets_gravity (i : Z) (c : call) :
  agitation i = Some c -> exists gx gy gz, c = SetGravity gx gy gz.
Proof.
  rewrite agitation_schedule.
  destruct (i <=? 200)%Z; [discriminate|].
  intros H. injection H as <-. eauto.
Qed.

Lemma count_steps_agitate {E : Env} (n : nat) (w : World E) :
  count_steps (calls (agitate_world (Z.of_nat n) w))
  = (count_steps (calls w) + n)%nat.
Proof.
  induction n as [|n IH].
  - rewrite agitate_world_zero. lia.
  - replace (Z.of_nat (S n)) with (Z.of_nat n + 1)%Z by lia.
    rewrite agitate_world_succ by lia.
    pose proof (agitation_sets_gravity (Z.of_nat n)) as Hset.
    destruct (agitation (Z.of_nat n)) as [c|].
    + destruct (Hset c eq_refl) as [gx [gy [gz ->]]].
      cbn [invoke calls]. rewrite !count_steps_app, IH.
      cbn. lia.
    + cbn [invoke calls]. rewrite count_steps_app, IH. cbn. lia.
Qed.

(** The whole of [get_containability] on a footprint with an area and a
    column, state by state. *)
Lemma get_containability_run {E : Env} (self : Self E) :
  0 < fst (xy_range (obj_curr_aabb self)) ->
  0 < snd (xy_range (obj_curr_aabb self)) ->
  (1 <= columns (obj_curr_aabb self))%Z ->
  exists self1 self2 self3 news,
    load_sphere self = Ok self1
    /\ sphere_id self1 = sphere_id self ++ news
    /\ Z.of_nat (List.length news) = sphere_num
    /\ calls (world self1) = calls (world self) ++ flat_map load_calls news
    /\ reset_sphere_drop (obj_curr_aabb self) self1 = Ok self2
    /\ calls (world self2)
       = calls (world self1)
         ++ placement_calls (sphere_id self1) (sphere_drop_pos self2)
              (sphere_drop_orn self1) sphere_num
    /\ List.length (sphere_drop_pos self2) = Z.to_nat sphere_num
    /\ sphere_id self3 = sphere_id self1
    /\ sphere_drop_pos self3 = sphere_drop_pos self2
    /\ world self3 = agitate_world simulation_iteration (world self2)
    /\ get_containability self
       = Ok (verdict (List.length
                        (contained (obj_curr_aabb self) (sphere_id self3)
                           (phys (world self3)))),
             set_containability
               (verdict (List.length
                           (contained (obj_curr_aabb self) (sphere_id self3)
                              (phys (world self3)))))
               (p_ Disconnect
                  (set_sphere_in_drop_pos
                     (map (drop_pos_of (sphere_drop_pos self3))
                        (contained (obj_curr_aabb self) (sphere_id self3)
                           (phys (world self3)))) self3))).
Proof.
  intros Hx Hy Hnx.
  destruct (load_sphere_trace self)
    as [self1 [news (Hload & Hids & Hnews & Hlog & _ & Hbox1)]].
  destruct (grid_dims_positive_ranges _ Hx Hy) as [Hdims [_ Hny]].
  assert (Hlen1 : (sphere_num <= Z.of_nat (List.length (sphere_id self1)))%Z).
  { rewrite Hids, length_app. lia. }
  destruct (reset_sphere_drop_spec (obj_curr_aabb self) _ _ self1 Hdims Hnx Hny
              Hlen1) as [self2 (Hreset & Hsame & Hlen2 & _)].
  destruct (reset_sphere_drop_trace (obj_curr_aabb self) _ _ self1 Hdims Hnx
              Hny Hlen1) as [t (Hreset' & Htrace & _)].
  rewrite Hreset in Hreset'. injection Hreset' as <-.
  destruct Hsame as (S1 & _ & _ & _ & S5 & _).
  assert (Hready2 : probes_ready self2).
  { unfold probes_ready. rewrite S1, Hlen2. unfold sphere_num in *. lia. }
  destruct (shake_loop_spec simulation_iteration self2 Hready2
              ltac:(unfold simulation_iteration; lia))
    as [self3 (Hshake & K1 & K2 & K3 & K4)].
  assert (Hready3 : probes_ready self3).
  { unfold probes_ready. now rewrite K1, K2. }
  exists self1, self2, self3, news.
  split; [exact Hload|]. split; [exact Hids|]. split; [exact Hnews|].
  split; [exact Hlog|]. split; [exact Hreset|]. split; [exact Htrace|].
  split; [exact Hlen2|]. split; [congruence|]. split; [exact K2|].
  split; [exact K4|].
  unfold get_containability.
  rewrite Hload. cbn [bind]. rewrite Hbox1, Hreset. cbn [bind].
  rewrite Hshake. cbn [bind].
  rewrite checkincup_spec by exact Hready3. cbn [bind fst snd].
  unfold truediv.
  destruct (Req_dec_T (IZR sphere_num) 0) as [H0|_].
  { unfold sphere_num in H0. lra. }
  cbn [bind]. rewrite K3, S5, Hbox1.
  fold (verdict (List.length
          (contained (obj_curr_aabb self) (sphere_id self3)
             (phys (world self3))))).
  destruct (verdict _); reflexivity.
Qed.

(** X11.  A run of [get_containability] that returns has stepped the simulation
    exactly 1000 times; its log ends with the last step, the last gravity
    [(-10, -10, -10)] and the disconnection; it leaves 225 more probes
    than it found, 225 drop positions, and as many retained drop positions
    as the count that decides the verdict it returns and stores. *)
Theorem get_containability_trace {E : Env} (self : Self E) :
  0 < fst (xy_range (obj_curr_aabb self)) ->
  0 < snd (xy_range (obj_curr_aabb self)) ->
  (1 <= columns (obj_curr_aabb self))%Z ->
  exists b self' log,
    get_containability self = Ok (b, self')
    /\ calls (world self')
       = log ++ [StepSimulation; SetGravity (-10) (-10) (-10); Disconnect]
    /\ count_steps (calls (world self'))
       = (count_steps (calls (world self)) + 1000)%nat
    /\ List.length (sphere_id self')
       = (List.length (sphere_id self) + 225)%nat
    /\ List.length (sphere_drop_pos self') = 225%nat
    /\ b = verdict (List.length (sphere_in_drop_pos self'))
    /\ containability self' = b
    /\ (b = true <-> (45 < List.length (sphere_in_drop_pos self'))%nat).
Proof.
  intros Hx Hy Hnx.
  destruct (get_containability_run self Hx Hy Hnx)
    as [self1 [self2 [self3 [news
          (Hload & Hids & Hnews & Hlog & Hreset & Htrace & Hlen2 & K1 & K2
           & K4 & Hrun)]]]].
  eexists. eexists.
  exists (calls (agitate_world 999 (world self2))).
  split; [exact Hrun|].
  cbn [world set_containability p_ set_world set_sphere_in_drop_pos invoke
       calls sphere_id sphere_drop_pos sphere_in_drop_pos containability].
  split.
  { rewrite K4. change simulation_iteration with (999 + 1)%Z.
    rewrite agitate_world_succ, agitation_hold_neg by lia.
    cbn [invoke calls]. now rewrite <- !app_assoc. }
  split.
  { rewrite K4. change simulation_iteration with (Z.of_nat 1000).
    rewrite count_steps_app, count_steps_agitate, Htrace, Hlog.
    rewrite !count_steps_app, count_steps_placement, count_steps_loads.
    cbn. lia. }
  split.
  { rewrite K1, Hids, length_app. unfold sphere_num in Hnews. lia. }
  split.
  { rewrite K2, Hlen2. reflexivity. }
  rewrite length_map.
  split; [reflexivity|]. split; [reflexivity|].
  apply verdict_count.
Qed.

Lemma get_containability_trace_witness :
  exists b self' log,
    get_containability Demo.ready = Ok (b, self')
    /\ calls (world self')
       = log ++ [StepSimulation; SetGravity (-10) (-10) (-10); Disconnect]
    /\ count_steps (calls (world self')) = 1000%nat
    /\ List.length (sphere_id self') = 450%nat.
Proof.
  destruct (get_containability_trace Demo.ready) as [b [t [log H]]].
  - change (obj_curr_aabb Demo.ready) with Demo.cube.
    rewrite ContainabilityRuns.cube_range. cbn [fst]. lra.
  - change (obj_curr_aabb Demo.ready) with Demo.cube.
    rewrite ContainabilityRuns.cube_range. cbn [snd]. lra.
  - change (obj_curr_aabb Demo.ready) with Demo.cube.
    rewrite ContainabilityRuns.cube_columns. lia.
  - destruct H as (H1 & H2 & H3 & H4 & _).
    exists b, t, log. split; [exact H1|]. split; [exact H2|].
    split; [exact H3|]. rewrite H4. cbn [Demo.ready sphere_id].
    now rewrite length_seq.
Defined.

(** X12.  [get_containability] raises [ZeroDivisionError] exactly when the
    footprint of the object has no area or the lattice has no column, and
    returns otherwise; it raises nothing else. *)
Theorem get_containability_raises_iff {E : Env} (self : Self E) :
  (get_containability self = Raise ZeroDivisionError
   <-> fst (xy_range (obj_curr_aabb self))
         * snd (xy_range (obj_curr_aabb self)) = 0
       \/ columns (obj_curr_aabb self) = 0%Z)
  /\ ((exists r, get_containability self = Ok r)
      <-> fst (xy_range (obj_curr_aabb self))
            * snd (xy_range (obj_curr_aabb self)) <> 0
          /\ columns (obj_curr_aabb self) <> 0%Z).
Proof.
  destruct (xy_range_nonneg (obj_curr_aabb self)) as [Hx Hy].
  destruct (load_sphere_trace self)
    as [self1 [news (Hload & _ & _ & _ & _ & Hbox1)]].
  assert (Hflat : fst (xy_range (obj_curr_aabb self))
                  * snd (xy_range (obj_curr_aabb self)) = 0 ->
                  get_containability self = Raise ZeroDivisionError).
  { intros H0. unfold get_containability. rewrite Hload. cbn [bind].
    rewrite Hbox1. now rewrite (reset_sphere_drop_flat_raises _ self1 H0). }
  assert (Hcol : fst (xy_range (obj_curr_aabb self))
                 * snd (xy_range (obj_curr_aabb self)) <> 0 ->
                 columns (obj_curr_aabb self) = 0%Z ->
                 get_containability self = Raise ZeroDivisionError).
  { intros Ha H0.
    assert (Hx' : 0 < fst (xy_range (obj_curr_aabb self))) by nra.
    assert (Hy' : 0 < snd (xy_range (obj_curr_aabb self))) by nra.
    destruct (grid_dims_positive_ranges _ Hx' Hy') as [Hdims [_ Hny]].
    unfold get_containability. rewrite Hload. cbn [bind].
    rewrite Hbox1. unfold reset_sphere_drop. rewrite Hdims, H0.
    cbn [bind fst snd].
    destruct (linspace_spec (- fst (xy_range (obj_curr_aabb self)) / 2)
                (fst (xy_range (obj_curr_aabb self)) / 2) 0 ltac:(lia))
      as [xs [Hxs _]].
    destruct (linspace_spec (- snd (xy_range (obj_curr_aabb self)) / 2)
                (snd (xy_range (obj_curr_aabb self)) / 2)
                (rows (obj_curr_aabb self)) Hny) as [ys [Hys _]].
    rewrite Hxs. cbn [bind]. rewrite Hys. cbn [bind].
    now rewrite placement_without_column. }
  assert (Hok : fst (xy_range (obj_curr_aabb self))
                * snd (xy_range (obj_curr_aabb self)) <> 0 ->
                columns (obj_curr_aabb self) <> 0%Z ->
                exists r, get_containability self = Ok r).
  { intros Ha Hc.
    assert (Hx' : 0 < fst (xy_range (obj_curr_aabb self))) by nra.
    assert (Hy' : 0 < snd (xy_range (obj_curr_aabb self))) by nra.
    destruct (grid_dims_positive_ranges _ Hx' Hy') as [_ [Hnx _]].
    destruct (get_containability_run self Hx' Hy' ltac:(lia))
      as [t1 [t2 [t3 [l H]]]].
    eexists. apply H. }
  destruct (Req_dec_T (fst (xy_range (obj_curr_aabb self))
                       * snd (xy_range (obj_curr_aabb self))) 0) as [H0|Ha].
  { split; split.
    - intros _. now left.
    - intros _. exact (Hflat H0).
    - intros [r Hr]. rewrite (Hflat H0) in Hr. discriminate.
    - intros [Ha _]. now elim Ha. }
  destruct (Z.eq_dec (columns (obj_curr_aabb self)) 0) as [Hc|Hc].
  { split; split.
    - intros _. now right.
    - intros _. exact (Hcol Ha Hc).
    - intros [r Hr]. rewrite (Hcol Ha Hc) in Hr. discriminate.
    - intros [_ Hc']. now elim Hc'. }
  destruct (Hok Ha Hc) as [r Hr].
  split; split.
  - intros Hraise. rewrite Hr in Hraise. discriminate.
  - intros [H0|H0]; [now elim Ha|now elim Hc].
  - intros _. now split.
  - intros _. now exists r.
Qed.

(** On the thin plate, whose lattice has no column, the test raises. *)
Lemma get_containability_raises_iff_witness :
  get_containability DemoRuns.on_plate = Raise ZeroDivisionError.
Proof.
  apply (get_containability_raises_iff DemoRuns.on_plate). right.
  exact ContainabilityRuns.plate_columns.
Defined.

End ContainabilityMore.

(** ** The controller's edges, the joint table, the limit filter and the
    gripper *)

Module GripperFacts.

Import Py Imaginebot ControlSpec Gripper GripperSpec PyFacts ControlFacts.

Lemma for_each_ext_in {St A : Type} (l : list A)
  (f g : A -> St -> result St) :
  (forall a s, In a l -> f a s = g a s) ->
  forall s, for_each l f s = for_each l g s.
Proof.
  induction l as [|a l IH]; intros Hfg s; [reflexivity|].
  cbn [for_each]. rewrite (Hfg a s (or_introl eq_refl)).
  destruct (g a s); [|reflexivity].
  apply IH. intros b t Hb. apply Hfg. now right.
Qed.

Lemma getitem_firstn {A : Type} (l : list A) (n : nat) (k : Z) :
  (0 <= k < Z.of_nat n)%Z -> getitem (firstn n l) k = getitem l k.
Proof.
  intros Hk. unfold getitem.
  destruct (Z.ltb_spec k 0) as [Hneg|_]; [lia|].
  rewrite nth_error_firstn.
  destruct (Nat.ltb_spec (Z.to_nat k) n) as [_|Hge]; [reflexivity|lia].
Qed.

Lemma vsub_vadd (a b : vec3) : vsub (vadd a b) b = a.
Proof.
  destruct a as [[a1 a2] a3], b as [[b1 b2] b3].
  unfold vsub, vadd, Bullet.vx, Bullet.vy, Bullet.vz. cbn [fst snd].
  f_equal; [f_equal|]; lra.
Qed.

Lemma vadd_vsub (a b : vec3) : vadd (vsub a b) b = a.
Proof.
  destruct a as [[a1 a2] a3], b as [[b1 b2] b3].
  unfold vsub, vadd, Bullet.vx, Bullet.vy, Bullet.vz. cbn [fst snd].
  f_equal; [f_equal|]; lra.
Qed.

(** X13.  The two changes of frame are inverse of each other.  Asked to go to
    the pose the finger is read at, [go_to] asks the solver for the pose
    the end effector is read at; and once the end effector is at the pose
    [go_to] asks the solver for, the finger is read at the goal. *)
Theorem finger_frame_round_trip {E : Env} (self : Self) (ph : physics E) :
  targets_for self (fst (readFingerCenterState self ph))
    (snd (readFingerCenterState self ph)) ph
  = calculateInverseKinematics E (eeID self)
      (fst (readEndEffectorState self ph))
      (snd (readEndEffectorState self ph))
      (but_last_two (jointsLowerLimit self))
      (but_last_two (jointsUpperLimit self))
      (but_last_two jointsRange) (but_last_two jointsRestPose) ph
  /\ forall pos orn,
       readEndEffectorState self ph
       = (vsub pos (matmul (getMatrixFromQuaternion E orn) ee_finger_offset),
          orn) ->
       readFingerCenterState self ph = (pos, orn).
Proof.
  split.
  - unfold targets_for, readFingerCenterState.
    destruct (readEndEffectorState self ph) as [ee_pos ee_orn].
    cbn [fst snd]. now rewrite vsub_vadd.
  - intros pos orn Hee. unfold readFingerCenterState. rewrite Hee.
    now rewrite vadd_vsub.
Qed.

(** X14.  The body of the control loop, and so the loop, reads the first six
    entries of the solver's answer only. *)
Theorem control_loop_first_six {E : Env} (self : Self) (targets : list R)
  (fuel : nat) (simulationTimeStep : Z) (ph : physics E) :
  control_loop self fuel targets simulationTimeStep ph
  = control_loop self fuel (firstn 6 targets) simulationTimeStep ph.
Proof.
  assert (Hcmd : forall s : physics E, command_joints self targets s
                           = command_joints self (firstn 6 targets) s).
  { intros s. unfold command_joints. apply for_each_ext_in.
    intros [k jointName] t Hin. apply enumerate_In in Hin.
    destruct Hin as [Hk _]. cbn [List.length robotControlJoints] in Hk.
    now rewrite getitem_firstn by lia. }
  assert (Herr : forall s : physics E, joint_error_sum self targets s
                           = joint_error_sum self (firstn 6 targets) s).
  { intros s. unfold joint_error_sum. apply for_each_ext_in.
    intros [k jointName] t Hin. apply enumerate_In in Hin.
    destruct Hin as [Hk _]. cbn [List.length robotControlJoints] in Hk.
    now rewrite getitem_firstn by lia. }
  assert (Hbody : forall s : physics E, control_body self targets s
                            = control_body self (firstn 6 targets) s).
  { intros s. unfold control_body, jointErrorFlag. rewrite Hcmd.
    destruct (command_joints self (firstn 6 targets) s); [|reflexivity].
    cbn [bind]. now rewrite Herr. }
  revert simulationTimeStep ph.
  induction fuel as [|fuel IH]; intros k s; [reflexivity|].
  cbn [control_loop]. rewrite Hbody.
  destruct (control_body self (firstn 6 targets) s) as [[s' flag]|e];
    [|reflexivity].
  destruct (maxControlTimeStep <=? k + 1)%Z; [reflexivity|].
  destruct flag; [apply IH|reflexivity].
Qed.

Lemma range_six : range (Z.of_nat 6) = [0; 1; 2; 3; 4; 5]%Z.
Proof. reflexivity. Qed.

(** When the table lacks an arm joint or the solver's answer is too
    short, the first command of the first iteration cannot be sent. *)
Lemma command_joints_ill_formed {E : Env} (self : Self) (targets : list R)
  (ph : physics E) :
  ~ well_formed self targets ->
  exists e,
    command_joints self targets ph = Raise e
    /\ (e = KeyError \/ e = IndexError)
    /\ ((6 <= List.length targets)%nat -> e = KeyError)
    /\ ((forall jointName, In jointName robotControlJoints ->
                           joints self jointName <> None) ->
        e = IndexError).
Proof.
  intros Hill. unfold command_joints, enumerate, robotControlJoints.
  cbn [List.length]. rewrite range_six. cbn [combine for_each].
  assert (Hwf : (6 <= List.length targets)%nat ->
                (forall jointName, In jointName robotControlJoints ->
                                   joints self jointName <> None) ->
                False).
  { intros H1 H2. apply Hill. now split. }
  assert (Hkey : forall jointName,
            In jointName robotControlJoints ->
            joints self jointName = None ->
            (forall n, In n robotControlJoints -> joints self n <> None) ->
            KeyError = IndexError).
  { intros n Hn Hnone Hall. now elim (Hall n Hn). }
  unfold lookup.
  destruct targets as [|t0 [|t1 [|t2 [|t3 [|t4 [|t5 rest]]]]]];
    cbn [getitem List.length Z.of_nat Pos.of_succ_nat Pos.succ Z.ltb
         Z.compare Z.to_nat Pos.to_nat Pos.iter_op Init.Nat.add nth_error
         bind];
    repeat match goal with
      | |- context [joints self ?n] =>
          let Hj := fresh "Hj" in
          destruct (joints self n) eqn:Hj; cbn [bind]
      end;
    try (eexists; split; [reflexivity|];
         split; [now (left + right)|];
         split;
         [ intros Hlen; cbn [List.length] in Hlen; (reflexivity || lia)
         | intros Hall; try reflexivity;
           match goal with
           | Hn : joints self ?n = None |- _ =>
               apply (Hkey n); [unfold robotControlJoints; cbn; tauto
                               |exact Hn|exact Hall]
           end ]).
  exfalso. apply Hwf; [cbn [List.length]; lia|].
  intros n Hn. unfold robotControlJoints in Hn. cbn [In] in Hn.
  repeat (destruct Hn as [<-|Hn]; [congruence|]). contradiction.
Qed.

(** X15.  [go_to] on a robot whose table lacks an arm joint, or with a solver
    that answers fewer than six targets: it raises in its first iteration,
    [KeyError] or [IndexError] and never [ValueError]: [KeyError] when the
    answer is long enough, [IndexError] when the table is complete. *)
Theorem go_to_ill_formed {E : Env} (self : Self) (pos : vec3) (orn : quat)
  (ph : physics E) :
  ~ well_formed self (targets_for self pos orn ph) ->
  exists e,
    go_to self pos orn ph = Some (Raise e)
    /\ (e = KeyError \/ e = IndexError)
    /\ ((6 <= List.length (targets_for self pos orn ph))%nat -> e = KeyError)
    /\ ((forall jointName, In jointName robotControlJoints ->
                           joints self jointName <> None) ->
        e = IndexError).
Proof.
  intros Hill.
  destruct (command_joints_ill_formed self _ ph Hill) as [e [Hcmd He]].
  exists e. split; [|exact He].
  unfold go_to. fold (targets_for self pos orn ph).
  change (Z.to_nat maxControlTimeStep) with (S (Z.to_nat 2399)).
  cbn [control_loop]. unfold control_body. rewrite Hcmd. reflexivity.
Qed.

Lemma go_to_ill_formed_witness :
  go_to DemoRobot.bare (0, 0, 0) (0, 0, 0, 1) Demo.at_rest
  = Some (Raise KeyError).
Proof.
  destruct (go_to_ill_formed (E := Demo.stuck) DemoRobot.bare (0, 0, 0)
              (0, 0, 0, 1) Demo.at_rest) as [e (Hrun & _ & Hkey & _)].
  - intros [Hjoints _].
    apply (Hjoints "elbow_joint"%string); [cbn; tauto|reflexivity].
  - rewrite Hrun, Hkey; [reflexivity|cbn; lia].
Defined.

Lemma getitem_middle {A : Type} (a b : list A) (x : A) :
  getitem (a ++ x :: b) (Z.of_nat (List.length a)) = Ok x.
Proof.
  apply getitem_in_range; [lia|].
  rewrite Nat2Z.id, nth_error_app2 by lia.
  now rewrite Nat.sub_diag.
Qed.

Lemma setitem_middle {A : Type} (a b : list A) (x y : A) :
  setitem (a ++ x :: b) (Z.of_nat (List.length a)) y = Ok (a ++ y :: b).
Proof.
  assert (Hlt : (Z.of_nat (List.length a) <? 0)%Z = false)
    by (apply Z.ltb_ge; lia).
  assert (Hle : (Z.of_nat (List.length (a ++ x :: b))
                 <=? Z.of_nat (List.length a))%Z = false).
  { apply Z.leb_gt. rewrite length_app. cbn [List.length]. lia. }
  unfold setitem. cbv zeta. rewrite !Hlt, Hle. cbn [orb]. rewrite Nat2Z.id.
  rewrite firstn_app, firstn_all, Nat.sub_diag.
  cbn [firstn]. rewrite app_nil_r.
  rewrite skipn_app, skipn_all2 by lia.
  replace (S (List.length a) - List.length a)%nat with 1%nat by lia.
  reflexivity.
Qed.

Lemma but_last_two_split {A : Type} (l : list A) :
  l = but_last_two l ++ skipn (List.length l - 2) l.
Proof. unfold but_last_two. now rewrite firstn_skipn. Qed.

(** The loop of [jointLimitFilter] on the part of the array it has not
    reached yet. *)
Lemma filter_loop (todo : list R) :
  forall (done rest : list R),
    for_each
      (combine (map Z.of_nat (seq (List.length done) (List.length todo)))
         todo)
      (fun '(joint_idx, jointTargetState) jointLimitTargetState_list =>
         if ltb PI jointTargetState
         then
           x <- getitem jointLimitTargetState_list joint_idx ;;
           setitem jointLimitTargetState_list joint_idx (x - PI)
         else if ltb jointTargetState (- PI)
         then
           x <- getitem jointLimitTargetState_list joint_idx ;;
           setitem jointLimitTargetState_list joint_idx (x + PI)
         else Ok jointLimitTargetState_list)
      (done ++ todo ++ rest)
    = Ok (done ++ map limit_one todo ++ rest).
Proof.
  induction todo as [|x todo IH]; intros done rest; [reflexivity|].
  cbn [List.length seq map combine for_each app].
  assert (Hnext : forall y,
            for_each
              (combine
                 (map Z.of_nat (seq (S (List.length done)) (List.length todo)))
                 todo)
              (fun '(joint_idx, jointTargetState) jointLimitTargetState_list =>
                 if ltb PI jointTargetState
                 then
                   x <- getitem jointLimitTargetState_list joint_idx ;;
                   setitem jointLimitTargetState_list joint_idx (x - PI)
                 else if ltb jointTargetState (- PI)
                 then
                   x <- getitem jointLimitTargetState_list joint_idx ;;
                   setitem jointLimitTargetState_list joint_idx (x + PI)
                 else Ok jointLimitTargetState_list)
              (done ++ y :: todo ++ rest)
            = Ok (done ++ y :: map limit_one todo ++ rest)).
  { intros y. specialize (IH (done ++ [y]) rest).
    rewrite length_app, <- !app_assoc in IH. cbn [List.length app] in IH.
    replace (List.length done + 1)%nat with (S (List.length done)) in IH
      by lia.
    exact IH. }
  unfold limit_one.
  destruct (ltb PI x).
  - rewrite getitem_middle. cbn [bind]. rewrite setitem_middle. apply Hnext.
  - destruct (ltb x (- PI)).
    + rewrite getitem_middle. cbn [bind]. rewrite setitem_middle.
      apply Hnext.
    + apply Hnext.
Qed.

Lemma jointLimitFilter_closed (l : list R) :
  jointLimitFilter l
  = Ok (map limit_one (but_last_two l) ++ skipn (List.length l - 2) l).
Proof.
  unfold jointLimitFilter, enumerate, range.
  rewrite Nat2Z.id.
  rewrite (but_last_two_split l) at 3.
  exact (filter_loop (but_last_two l) [] (skipn (List.length l - 2) l)).
Qed.

Lemma limit_one_cases (x : R) :
  (- PI <= x <= PI /\ limit_one x = x)
  \/ (PI < x /\ limit_one x = x - PI)
  \/ (x < - PI /\ limit_one x = x + PI).
Proof.
  pose proof PI_RGT_0 as Hpi. unfold limit_one, ltb.
  destruct (Rlt_dec PI x); [right; left; now split|].
  destruct (Rlt_dec x (- PI)); [right; right; now split|].
  left. split; [lra|reflexivity].
Qed.

(** The entries of the filtered array. *)
Lemma jointLimitFilter_entries (l : list R) :
  exists l',
    jointLimitFilter l = Ok l'
    /\ List.length l' = List.length l
    /\ skipn (List.length l - 2) l' = skipn (List.length l - 2) l
    /\ forall k x,
         nth_error l k = Some x ->
         (k + 2 < List.length l)%nat ->
         nth_error l' k = Some (limit_one x).
Proof.
  eexists. split; [apply jointLimitFilter_closed|].
  assert (Hpre : List.length (map limit_one (but_last_two l))
                 = (List.length l - 2)%nat).
  { rewrite length_map. unfold but_last_two. rewrite length_firstn. lia. }
  split.
  { rewrite length_app, Hpre, length_skipn. lia. }
  split.
  { rewrite skipn_app, Hpre, Nat.sub_diag, skipn_all2 by lia.
    reflexivity. }
  intros k x Hx Hk.
  rewrite nth_error_app1 by lia.
  rewrite nth_error_map. unfold but_last_two.
  rewrite nth_error_firstn.
  destruct (Nat.ltb_spec k (List.length l - 2)) as [_|Hge]; [|lia].
  now rewrite Hx.
Qed.

(** X16.  [jointLimitFilter] never raises.  It returns an array of the same
    length whose last two entries are those of the targets, and whose
    other entries are the targets filtered one by one: kept when within
    [[-pi, pi]], lowered by [pi] when above and raised by [pi] when
    below. *)
Theorem jointLimitFilter_pointwise (l : list R) :
  exists l',
    jointLimitFilter l = Ok l'
    /\ List.length l' = List.length l
    /\ skipn (List.length l - 2) l' = skipn (List.length l - 2) l
    /\ forall k x,
         nth_error l k = Some x ->
         (k + 2 < List.length l)%nat ->
         nth_error l' k = Some (limit_one x)
         /\ ((- PI <= x <= PI /\ limit_one x = x)
             \/ (PI < x /\ limit_one x = x - PI)
             \/ (x < - PI /\ limit_one x = x + PI)).
Proof.
  destruct (jointLimitFilter_entries l) as [l' (Hrun & Hlen & Hlast & Hpt)].
  exists l'. split; [exact Hrun|]. split; [exact Hlen|].
  split; [exact Hlast|].
  intros k x Hx Hk. split; [now apply Hpt|apply limit_one_cases].
Qed.

(** X17.  The filter shifts by half a turn, not by a full one: an entry it
    changes comes out as the opposite direction (sine and cosine both
    change sign).  Its output is within [[-pi, pi]] exactly for the
    targets within [[-2 pi, 2 pi]], and filtering such an output again
    changes nothing. *)
Theorem jointLimitFilter_half_turn (l : list R) :
  exists l',
    jointLimitFilter l = Ok l'
    /\ (forall k x y,
          nth_error l k = Some x -> nth_error l' k = Some y ->
          y = x \/ (sin y = - sin x /\ cos y = - cos x))
    /\ ((forall y, In y (but_last_two l') -> - PI <= y <= PI)
        <-> (forall x, In x (but_last_two l) -> - 2 * PI <= x <= 2 * PI))
    /\ ((forall x, In x (but_last_two l) -> - 2 * PI <= x <= 2 * PI) ->
        jointLimitFilter l' = Ok l').
Proof.
  pose proof PI_RGT_0 as Hpi.
  destruct (jointLimitFilter_entries l) as [l' (Hrun & Hlen & Hlast & Hpt)].
  exists l'. split; [exact Hrun|].
  assert (Hpre : but_last_two l' = map limit_one (but_last_two l)).
  { rewrite jointLimitFilter_closed in Hrun. injection Hrun as <-.
    unfold but_last_two at 1.
    rewrite length_app, length_map, length_skipn.
    unfold but_last_two at 1. rewrite length_firstn.
    replace (Nat.min (List.length l - 2) (List.length l)
             + (List.length l - (List.length l - 2)) - 2)%nat
      with (List.length (map limit_one (but_last_two l)) + 0)%nat.
    - rewrite firstn_app_2. cbn [firstn]. now rewrite app_nil_r.
    - rewrite length_map. unfold but_last_two. rewrite length_firstn. lia. }
  assert (Hshift : forall x, limit_one x = x
                   \/ (sin (limit_one x) = - sin x
                       /\ cos (limit_one x) = - cos x)).
  { intros x.
    destruct (limit_one_cases x) as [[_ ->]|[[_ ->]|[_ ->]]].
    - now left.
    - right. unfold Rminus. rewrite sin_plus, cos_plus.
      rewrite sin_neg, cos_neg, sin_PI, cos_PI. split; ring.
    - right. rewrite neg_sin, neg_cos. now split. }
  assert (Hin : forall x, - PI <= limit_one x <= PI
                          <-> - 2 * PI <= x <= 2 * PI).
  { intros x.
    destruct (limit_one_cases x) as [[Hx ->]|[[Hx ->]|[Hx ->]]]; lra. }
  split.
  { intros k x y Hx Hy.
    destruct (Nat.lt_ge_cases (k + 2) (List.length l)) as [Hk|Hk].
    - pose proof (Hpt k x Hx Hk) as Hy'. rewrite Hy in Hy'.
      injection Hy' as ->. apply Hshift.
    - left.
      assert (Hkl : (k < List.length l)%nat)
        by (apply nth_error_Some; congruence).
      assert (Hsk : forall m : list R,
                nth_error (skipn (List.length l - 2) m)
                  (k - (List.length l - 2))
                = nth_error m k).
      { intros m. rewrite nth_error_skipn. f_equal. lia. }
      rewrite <- (Hsk l) in Hx. rewrite <- (Hsk l'), Hlast in Hy.
      congruence. }
  split.
  { rewrite Hpre. split.
    - intros H x Hx. apply Hin. apply H. now apply in_map.
    - intros H y Hy. apply in_map_iff in Hy. destruct Hy as [x [<- Hx]].
      apply Hin. now apply H. }
  intros Hall.
  assert (Hl' : l' = but_last_two l' ++ skipn (List.length l - 2) l).
  { rewrite <- Hlast, <- Hlen. apply but_last_two_split. }
  rewrite jointLimitFilter_closed, Hlen, Hlast.
  symmetry. etransitivity; [exact (f_equal Ok Hl')|].
  f_equal. f_equal. rewrite Hpre, map_map. symmetry. apply map_ext_in.
  intros x Hx. specialize (Hall x Hx). apply Hin in Hall.
  destruct (limit_one_cases (limit_one x)) as [[_ ->]|[[H _]|[H _]]];
    [reflexivity|lra|lra].
Qed.

Lemma gripper_loop {E : Env} (self : Self) (left right : jointInfo)
  (l r : R) (ph : physics E) :
  joints self "robotiq_85_left_inner_knuckle_joint" = Some left ->
  joints self "robotiq_85_right_inner_knuckle_joint" = Some right ->
  for_range gripperControlTimeStep (gripper_step self [l; r]) ph
  = Ok (Nat.iter 200 (gripper_round left right l r) ph).
Proof.
  intros Hl Hr.
  destruct (for_range_invariant
    (fun i t => t = Nat.iter (Z.to_nat i) (gripper_round left right l r) ph)
    gripperControlTimeStep (gripper_step self [l; r]) ph)
    as [t [Hrun Ht]].
  - unfold gripperControlTimeStep. lia.
  - reflexivity.
  - intros i t Hi ->. eexists. split.
    + unfold gripper_step, command_gripper, enumerate, gripperControlJoints.
      cbn [List.length]. change (range (Z.of_nat 2)) with [0; 1]%Z.
      cbn [combine for_each]. unfold lookup. rewrite Hl, Hr.
      reflexivity.
    + replace (Z.to_nat (i + 1)) with (S (Z.to_nat i)) by lia.
      reflexivity.
  - rewrite Hrun, Ht. reflexivity.
Qed.

(** X18.  With both inner knuckle joints in the table, [close_gripper] and
    [open_gripper] return after 200 rounds, each commanding the left and
    then the right joint and stepping once: towards the upper limits to
    close, towards the lower limits to open, each joint with its own
    force and a fifth of its own top speed. *)
Theorem gripper_rounds {E : Env} (self : Self) (left right : jointInfo)
  (ph : physics E) :
  joints self "robotiq_85_left_inner_knuckle_joint" = Some left ->
  joints self "robotiq_85_right_inner_knuckle_joint" = Some right ->
  close_gripper self ph
  = Ok (Nat.iter 200
          (gripper_round left right (upperLimit left) (upperLimit right)) ph)
  /\ open_gripper self ph
     = Ok (Nat.iter 200
             (gripper_round left right (lowerLimit left) (lowerLimit right))
             ph).
Proof.
  intros Hl Hr.
  split; [unfold close_gripper|unfold open_gripper];
    unfold gripper_limits, gripperControlJoints, lookup;
    cbn [for_each]; rewrite Hl; cbn [bind]; rewrite Hr; cbn [bind app];
    now apply gripper_loop.
Qed.

Lemma counting_rounds (left right : jointInfo) (l r : R) (n : nat)
  (ph : physics DemoRobot.counting) :
  id left <> id right ->
  fst (Nat.iter (S n) (gripper_round left right l r) ph) = (S n + fst ph)%nat
  /\ snd (Nat.iter (S n) (gripper_round left right l r) ph) (id left) = l
  /\ snd (Nat.iter (S n) (gripper_round left right l r) ph) (id right) = r.
Proof.
  intros Hne. induction n as [|n IH].
  - cbn. rewrite Nat.eqb_refl.
    destruct (Nat.eqb_spec (id left) (id right)) as [Heq|_];
      [now elim Hne|].
    rewrite Nat.eqb_refl. now repeat split.
  - destruct IH as (H1 & H2 & H3).
    change (Nat.iter (S (S n)) (gripper_round left right l r) ph)
      with (gripper_round left right l r
              (Nat.iter (S n) (gripper_round left right l r) ph)).
    unfold gripper_round at 1 3 5.
    cbn [DemoRobot.counting stepSimulation setJointMotorControl2 fst snd].
    rewrite H1, !Nat.eqb_refl.
    destruct (Nat.eqb_spec (id left) (id right)) as [Heq|_];
      [now elim Hne|].
    now repeat split.
Qed.

(** On the counting engine: closing leaves both knuckles commanded to
    their upper limit after 200 steps. *)
Lemma gripper_rounds_witness :
  exists ph,
    close_gripper (E := DemoRobot.counting) DemoRobot.handy DemoRobot.idle
    = Ok ph
    /\ fst ph = 200%nat
    /\ getJointState DemoRobot.counting 14 ph = 0.8
    /\ getJointState DemoRobot.counting 16 ph = 0.8.
Proof.
  destruct (gripper_rounds (E := DemoRobot.counting) DemoRobot.handy
              (DemoRobot.knuckle 14 "robotiq_85_left_inner_knuckle_joint")
              (DemoRobot.knuckle 16 "robotiq_85_right_inner_knuckle_joint")
              DemoRobot.idle eq_refl eq_refl) as [Hclose _].
  destruct (counting_rounds
              (DemoRobot.knuckle 14 "robotiq_85_left_inner_knuckle_joint")
              (DemoRobot.knuckle 16 "robotiq_85_right_inner_knuckle_joint")
              (upperLimit
                 (DemoRobot.knuckle 14 "robotiq_85_left_inner_knuckle_joint"))
              (upperLimit
                 (DemoRobot.knuckle 16
                    "robotiq_85_right_inner_knuckle_joint"))
              199 DemoRobot.idle) as (H1 & H2 & H3).
  { cbn [DemoRobot.knuckle id]. discriminate. }
  eexists. split; [exact Hclose|].
  split; [exact H1|]. split; [exact H2|exact H3].
Defined.

(** X19.  Without one of the inner knuckle joints in the table, neither
    [close_gripper] nor [open_gripper] sends anything: both raise
    [KeyError] while collecting the limits. *)
Theorem gripper_missing_joint {E : Env} (self : Self) (ph : physics E) :
  joints self "robotiq_85_left_inner_knuckle_joint" = None
  \/ joints self "robotiq_85_right_inner_knuckle_joint" = None ->
  gripper_limits self upperLimit = Raise KeyError
  /\ gripper_limits self lowerLimit = Raise KeyError
  /\ close_gripper self ph = Raise KeyError
  /\ open_gripper self ph = Raise KeyError.
Proof.
  intros Hmiss.
  assert (Hlim : forall limit, gripper_limits self limit = Raise KeyError).
  { intros limit. unfold gripper_limits, gripperControlJoints, lookup.
    cbn [for_each].
    destruct (joints self "robotiq_85_left_inner_knuckle_joint");
      [|reflexivity].
    cbn [bind].
    destruct (joints self "robotiq_85_right_inner_knuckle_joint") eqn:Hr;
      [|reflexivity].
    destruct Hmiss; discriminate. }
  unfold close_gripper, open_gripper. rewrite !Hlim. now repeat split.
Qed.

Lemma gripper_missing_joint_witness :
  close_gripper (E := Demo.stuck) DemoRobot.bare Demo.at_rest
  = Raise KeyError.
Proof.
  apply (gripper_missing_joint (E := Demo.stuck) DemoRobot.bare Demo.at_rest).
  now left.
Defined.

(** X20.  [object_in_gripper] reads the joints 14 and 16 and compares both
    readings with the upper limit of the left joint, whatever the table
    says of the right one.  It answers [True] unless both readings are
    within [epsilon = 0.02] of that limit or above, or both below
    [epsilon]. *)
Theorem object_in_gripper_spec {E : Env} (self : Self) (left : jointInfo)
  (ph : physics E) :
  joints self "robotiq_85_left_inner_knuckle_joint" = Some left ->
  exists b,
    object_in_gripper self ph = Ok b
    /\ (b = false
        <-> (upperLimit left - 0.02 <= getJointState E 14 ph
             /\ upperLimit left - 0.02 <= getJointState E 16 ph)
            \/ (getJointState E 14 ph < 0.02
                /\ getJointState E 16 ph < 0.02)).
Proof.
  intros Hl. unfold object_in_gripper, lookup, readJointState, epsilon.
  cbn [dict_get jointID String.eqb Ascii.eqb Bool.eqb bind].
  rewrite Hl. cbn [bind].
  unfold leb, ltb.
  destruct (Rle_dec (upperLimit left - 0.02) (getJointState E 14 ph));
    cbn [bind];
    [destruct (Rle_dec (upperLimit left - 0.02) (getJointState E 16 ph))|];
    destruct (Rlt_dec (getJointState E 14 ph) 0.02);
    destruct (Rlt_dec (getJointState E 16 ph) 0.02);
    cbn [andb]; eexists; (split; [reflexivity|]);
    split; intros H; try reflexivity; try discriminate; try tauto;
    exfalso; destruct H as [[H1 H2]|[H1 H2]]; contradiction.
Qed.

Lemma object_in_gripper_spec_witness :
  object_in_gripper (E := DemoRobot.counting) DemoRobot.handy DemoRobot.idle
  = Ok false.
Proof.
  destruct (object_in_gripper_spec (E := DemoRobot.counting) DemoRobot.handy
              (DemoRobot.knuckle 14 "robotiq_85_left_inner_knuckle_joint")
              DemoRobot.idle eq_refl) as [b [Hrun Hb]].
  rewrite Hrun. f_equal. apply Hb. right.
  cbn [DemoRobot.counting getJointState DemoRobot.idle snd]. lra.
Defined.

(** Without the left inner knuckle joint in the table
    [object_in_gripper] raises [KeyError]. *)
Lemma object_in_gripper_no_left {E : Env} (self : Self) (ph : physics E) :
  joints self "robotiq_85_left_inner_knuckle_joint" = None ->
  object_in_gripper self ph = Raise KeyError.
Proof.
  intros Hl. unfold object_in_gripper, lookup.
  cbn [dict_get jointID String.eqb Ascii.eqb Bool.eqb bind].
  now rewrite Hl.
Qed.

Lemma simulate_forever_none {E : Env} (fuel : nat) :
  forall ph : physics E, simulate_forever fuel ph = None.
Proof. induction fuel as [|fuel IH]; intros ph; [reflexivity|apply IH]. Qed.

Lemma steps_iter {E : Env} (n : nat) (ph : physics E) :
  fold_left (fun ph _ => stepSimulation E ph) (range (Z.of_nat n)) ph
  = Nat.iter n (stepSimulation E) ph.
Proof.
  induction n as [|n IH]; [reflexivity|].
  replace (Z.of_nat (S n)) with (Z.of_nat n + 1)%Z by lia.
  rewrite range_succ, fold_left_app by lia. cbn [fold_left Nat.iter nat_rect].
  now rewrite IH.
Qed.

(** X21.  [test] returns exactly when it is given a number of steps other than
    0: [test(0)] steps for ever, as [test()] does.  When it returns, it
    has stepped as many times as it was told, and not at all for a
    negative number. *)
Theorem test_returns_iff {E : Env} (sim_timesteps : option Z)
  (ph : physics E) :
  ((exists fuel ph', test fuel sim_timesteps ph = Some ph')
   <-> exists n, sim_timesteps = Some n /\ n <> 0%Z)
  /\ (forall fuel n ph',
        sim_timesteps = Some n ->
        test fuel sim_timesteps ph = Some ph' ->
        ph' = Nat.iter (Z.to_nat n) (stepSimulation E) ph)
  /\ (forall fuel,
        sim_timesteps = None \/ sim_timesteps = Some 0%Z ->
        test fuel sim_timesteps ph = None).
Proof.
  assert (Hrun : forall n, n <> 0%Z -> forall fuel,
            test fuel (Some n) ph
            = Some (Nat.iter (Z.to_nat n) (stepSimulation E) ph)).
  { intros n Hn fuel. unfold test.
    destruct (Z.eqb_spec n 0) as [H0|_]; [now elim Hn|].
    f_equal. destruct (Z.le_gt_cases 0 n) as [Hpos|Hneg].
    - rewrite <- (Z2Nat.id n) at 1 by exact Hpos. apply steps_iter.
    - unfold range. now replace (Z.to_nat n) with 0%nat by lia. }
  split; [split|split].
  - intros [fuel [ph' Ht]]. destruct sim_timesteps as [n|].
    + exists n. split; [reflexivity|]. intros ->. cbn in Ht.
      now rewrite simulate_forever_none in Ht.
    + cbn in Ht. now rewrite simulate_forever_none in Ht.
  - intros [n [-> Hn]]. exists 0%nat. eexists. now apply Hrun.
  - intros fuel n ph' -> Ht.
    destruct (Z.eq_dec n 0) as [->|Hn].
    + cbn in Ht. now rewrite simulate_forever_none in Ht.
    + rewrite (Hrun n Hn) in Ht. now injection Ht as <-.
  - intros fuel [->| ->]; cbn; apply simulate_forever_none.
Qed.

Lemma joint_type_defined (t : Z) :
  (-5 <= t < 5)%Z -> exists ty, getitem jointTypeList t = Ok ty.
Proof.
  intros Ht.
  assert (Hcases : t = (-5)%Z \/ t = (-4)%Z \/ t = (-3)%Z \/ t = (-2)%Z
                   \/ t = (-1)%Z \/ t = 0%Z \/ t = 1%Z \/ t = 2%Z
                   \/ t = 3%Z \/ t = 4%Z) by lia.
  repeat (destruct Hcases as [->|Hcases]; [eexists; reflexivity|]).
  subst t. eexists. reflexivity.
Qed.

Lemma joint_type_undefined (t : Z) :
  ~ (-5 <= t < 5)%Z -> getitem jointTypeList t = Raise IndexError.
Proof.
  intros Ht. destruct (Z.lt_ge_cases t 0) as [Hneg|Hpos].
  - unfold getitem. cbn [jointTypeList List.length].
    destruct (Z.ltb_spec t 0) as [_|H]; [|lia].
    destruct (Z.ltb_spec (t + Z.of_nat 5) 0) as [_|H]; [reflexivity|lia].
  - apply getitem_beyond. cbn [jointTypeList List.length]. lia.
Qed.

Lemma controllable_raws_succ (i : Z) (getJointInfo : Z -> rawJointInfo) :
  (0 <= i)%Z ->
  controllable_raws (i + 1) getJointInfo
  = controllable_raws i getJointInfo
    ++ (if name_in (jointName (getJointInfo i))
             (robotControlJoints ++ gripperControlJoints)
        then [getJointInfo i] else []).
Proof.
  intros Hi. unfold controllable_raws.
  rewrite range_succ, map_app, filter_app by exact Hi. reflexivity.
Qed.

Lemma range_clip (n : Z) : range n = range (Z.max 0 n).
Proof.
  unfold range. now replace (Z.to_nat (Z.max 0 n)) with (Z.to_nat n) by lia.
Qed.

(** X22.  The joint table [__init__] builds from a robot whose joints all have
    one of the five known types: the end effector is joint 7; the limits
    listed are those of the joints named as controllable, in the order of
    their index; a name is in the table exactly when a joint of the robot
    bears it, and its entry is made of what the engine reports for the
    last joint of that name, flagged controllable exactly when the name is
    one of the eight. *)
Theorem init_joints_table (numJoints : Z) (getJointInfo : Z -> rawJointInfo) :
  (forall i, (0 <= i < numJoints)%Z ->
             (-5 <= jointType (getJointInfo i) < 5)%Z) ->
  exists self,
    init_joints numJoints getJointInfo = Ok self
    /\ eeID self = 7%nat
    /\ jointsLowerLimit self
       = map jointLowerLimit (controllable_raws numJoints getJointInfo)
    /\ jointsUpperLimit self
       = map jointUpperLimit (controllable_raws numJoints getJointInfo)
    /\ (forall key,
          joints self key = None
          <-> forall i, (0 <= i < numJoints)%Z ->
                        jointName (getJointInfo i) <> key)
    /\ (forall key info,
          joints self key = Some info ->
          exists i ty,
            (0 <= i < numJoints)%Z
            /\ jointName (getJointInfo i) = key
            /\ getitem jointTypeList (jointType (getJointInfo i)) = Ok ty
            /\ info = entry_of (getJointInfo i) ty
            /\ forall j, (i < j < numJoints)%Z ->
                         jointName (getJointInfo j) <> key).
Proof.
  intros Htypes.
  unfold init_joints.
  change (lookup (dict_get jointID) "ee_fixed_joint") with (Ok (A := nat) 7%nat).
  cbn [bind]. unfold for_range. rewrite range_clip.
  fold (for_range (Z.max 0 numJoints) (register_joint getJointInfo)
          {| eeID := 7%nat; joints := fun _ => None;
             jointsLowerLimit := []; jointsUpperLimit := [] |}).
  destruct (for_range_invariant
    (fun i t =>
       eeID t = 7%nat
       /\ jointsLowerLimit t
          = map jointLowerLimit (controllable_raws i getJointInfo)
       /\ jointsUpperLimit t
          = map jointUpperLimit (controllable_raws i getJointInfo)
       /\ (forall key,
             joints t key = None
             <-> forall j, (0 <= j < i)%Z ->
                           jointName (getJointInfo j) <> key)
       /\ (forall key info,
             joints t key = Some info ->
             exists j ty,
               (0 <= j < i)%Z
               /\ jointName (getJointInfo j) = key
               /\ getitem jointTypeList (jointType (getJointInfo j)) = Ok ty
               /\ info = entry_of (getJointInfo j) ty
               /\ forall j', (j < j' < i)%Z ->
                             jointName (getJointInfo j') <> key))
    (Z.max 0 numJoints) (register_joint getJointInfo)
    {| eeID := 7%nat; joints := fun _ => None;
       jointsLowerLimit := []; jointsUpperLimit := [] |})
    as [self [Hrun (H1 & H2 & H3 & H4 & H5)]].
  - lia.
  - cbn [eeID joints jointsLowerLimit jointsUpperLimit].
    split; [reflexivity|]. split; [reflexivity|]. split; [reflexivity|].
    split.
    + intros key. split; [intros _ j Hj; lia|reflexivity].
    + intros key info Hnone. discriminate.
  - intros i t Hi (H1 & H2 & H3 & H4 & H5).
    destruct (joint_type_defined (jointType (getJointInfo i)))
      as [ty Hty]; [apply Htypes; lia|].
    unfold register_joint. rewrite Hty. cbn [bind].
    eexists. split; [reflexivity|].
    rewrite controllable_raws_succ by lia.
    destruct (name_in (jointName (getJointInfo i))
                (robotControlJoints ++ gripperControlJoints)) eqn:Hctl;
      cbn [eeID joints jointsLowerLimit jointsUpperLimit name];
      rewrite ?map_app, ?app_nil_r; cbn [map];
      (split; [exact H1|]);
      (split; [now rewrite H2|]);
      (split; [now rewrite H3|]);
      (split; [intros key|intros key info]);
      destruct (String.eqb_spec key (jointName (getJointInfo i)))
        as [Heq|Hne].
    all: try (split; [discriminate|]; intros Hall;
              now elim (Hall i ltac:(lia))).
    all: try (rewrite H4; split; intros Hall j Hj;
              [ destruct (Z.eq_dec j i) as [->|Hji];
                [now apply not_eq_sym|apply Hall; lia]
              | apply Hall; lia ]).
    all: try (intros Hinfo; injection Hinfo as <-;
              exists i, ty; split; [lia|]; split; [now symmetry|];
              split; [exact Hty|]; split;
              [unfold entry_of; now rewrite Hctl|intros j' Hj'; lia]).
    all: intros Hinfo;
      destruct (H5 key info Hinfo) as [j [ty' (K1 & K2 & K3 & K4 & K5)]];
      exists j, ty'; split; [lia|]; split; [exact K2|];
      split; [exact K3|]; split; [exact K4|];
      intros j' Hj'; destruct (Z.eq_dec j' i) as [->|Hji];
      [now apply not_eq_sym|apply K5; lia].
  - exists self. split; [exact Hrun|].
    assert (Hraws : controllable_raws (Z.max 0 numJoints) getJointInfo
                    = controllable_raws numJoints getJointInfo).
    { unfold controllable_raws. now rewrite <- range_clip. }
    rewrite Hraws in H2, H3.
    split; [exact H1|]. split; [exact H2|]. split; [exact H3|]. split.
    + intros key. rewrite H4. split; intros Hall j Hj; apply Hall; lia.
    + intros key info Hinfo.
      destruct (H5 key info Hinfo) as [j [ty (K1 & K2 & K3 & K4 & K5)]].
      exists j, ty. split; [lia|]. split; [exact K2|]. split; [exact K3|].
      split; [exact K4|]. intros j' Hj'. apply K5. lia.
Qed.

(** On the robot with the eighteen joints of the [jointID] dict the table
    has the elbow, and eight limits are listed. *)
Lemma init_joints_table_witness :
  exists self,
    init_joints 18 DemoRobot.reported = Ok self
    /\ List.length (jointsLowerLimit self) = 8%nat
    /\ joints self "elbow_joint" <> None.
Proof.
  destruct (init_joints_table 18 DemoRobot.reported)
    as [self (Hrun & _ & Hlow & _ & Hnone & _)].
  - intros i Hi. cbn [DemoRobot.reported jointType]. lia.
  - exists self. split; [exact Hrun|]. split.
    + rewrite Hlow, length_map. reflexivity.
    + rewrite Hnone. intros Hall. apply (Hall 3%Z); [lia|reflexivity].
Defined.

Lemma for_range_raises_somewhere {St : Type} (n k : Z)
  (body : Z -> St -> result St) (s : St) (e : exn) :
  (forall i t, (0 <= i < n)%Z ->
               (exists t', body i t = Ok t') \/ body i t = Raise e) ->
  (0 <= k < n)%Z ->
  (forall t, body k t = Raise e) ->
  for_range n body s = Raise e.
Proof.
  intros Hbody Hk Hraise.
  assert (Hany : forall m : nat,
            (Z.of_nat m <= n)%Z ->
            (exists t, for_range (Z.of_nat m) body s = Ok t)
            \/ for_range (Z.of_nat m) body s = Raise e).
  { induction m as [|m IH]; intros Hm.
    - left. now exists s.
    - replace (Z.of_nat (S m)) with (Z.of_nat m + 1)%Z by lia.
      rewrite for_range_succ by lia.
      destruct (IH ltac:(lia)) as [[t Ht]|Ht]; rewrite Ht; cbn [bind].
      + apply Hbody. lia.
      + now right. }
  assert (Hpast : forall m : nat,
            (k < Z.of_nat m <= n)%Z ->
            for_range (Z.of_nat m) body s = Raise e).
  { induction m as [|m IH]; intros Hm; [lia|].
    replace (Z.of_nat (S m)) with (Z.of_nat m + 1)%Z by lia.
    rewrite for_range_succ by lia.
    destruct (Z.eq_dec (Z.of_nat m) k) as [Heq|Hne].
    - destruct (Hany m ltac:(lia)) as [[t Ht]|Ht]; rewrite Ht; cbn [bind].
      + rewrite Heq. apply Hraise.
      + reflexivity.
    - now rewrite IH by lia. }
  rewrite <- (Z2Nat.id n) by lia. apply Hpast. lia.
Qed.

(** X23.  A joint whose type the engine reports outside the five known ones
    stops [__init__] with an [IndexError]: no table is built. *)
Theorem init_joints_unknown_type (numJoints : Z)
  (getJointInfo : Z -> rawJointInfo) (k : Z) :
  (0 <= k < numJoints)%Z ->
  ~ (-5 <= jointType (getJointInfo k) < 5)%Z ->
  init_joints numJoints getJointInfo = Raise IndexError.
Proof.
  intros Hk Hbad. unfold init_joints.
  change (lookup (dict_get jointID) "ee_fixed_joint")
    with (Ok (A := nat) 7%nat).
  cbn [bind].
  apply (for_range_raises_somewhere numJoints k); [|exact Hk|].
  - intros i t Hi. unfold register_joint.
    destruct (Z_le_dec (-5) (jointType (getJointInfo i))) as [Hlo|Hlo];
      [destruct (Z_lt_dec (jointType (getJointInfo i)) 5) as [Hhi|Hhi]|].
    + destruct (joint_type_defined _ (conj Hlo Hhi)) as [ty Hty].
      rewrite Hty. cbn [bind]. left. eexists. reflexivity.
    + rewrite joint_type_undefined by lia. now right.
    + rewrite joint_type_undefined by lia. now right.
  - intros t. unfold register_joint.
    now rewrite (joint_type_undefined _ Hbad).
Qed.

Lemma init_joints_unknown_type_witness :
  init_joints 18 DemoRobot.misreported = Raise IndexError.
Proof.
  apply (init_joints_unknown_type 18 DemoRobot.misreported 9); [lia|].
  cbn. lia.
Defined.

End GripperFacts.

(** ** The pouring test: its constructor, its geometry and its failures *)

Module PourMore.

Import Py Bullet BottlePour PourSpec RunSpec PourRunSpec PyFacts PourFacts.

Lemma sum_of_squares_nonneg (a b : R) : 0 <= a * a + b * b.
Proof. nra. Qed.

Lemma mp4_file_name_cases (check : bool)
  (mp4_dir object_name : option string) :
  (video_without_name check mp4_dir object_name ->
   mp4_file_name check mp4_dir object_name = Raise TypeError)
  /\ (~ video_without_name check mp4_dir object_name ->
      exists n, mp4_file_name check mp4_dir object_name = Ok n).
Proof.
  unfold video_without_name, mp4_file_name.
  destruct mp4_dir as [dir|], check, object_name as [name|]; split;
    try (intros (H1 & H2 & H3); first [discriminate|now elim H1]);
    try (intros _; eexists; reflexivity).
  intros Hno. exfalso. apply Hno. split; [discriminate|now split].
Qed.

Lemma init_cases {E : Env} (bottle content obj : string) (pour : vec3)
  (indents contents : Z) (pos orn : vec3) (check : bool)
  (mp4_dir object_name : option string) :
  (video_without_name check mp4_dir object_name ->
   init (E := E) bottle content obj pour indents contents pos orn check
     mp4_dir object_name = Raise TypeError)
  /\ (~ video_without_name check mp4_dir object_name ->
      indents = 0%Z ->
      init (E := E) bottle content obj pour indents contents pos orn check
        mp4_dir object_name = Raise ZeroDivisionError)
  /\ (~ video_without_name check mp4_dir object_name ->
      indents <> 0%Z ->
      exists P w,
        init (E := E) bottle content obj pour indents contents pos orn
          check mp4_dir object_name = Ok (P, w)
        /\ bottle_urdf P = bottle
        /\ indent_num P = indents
        /\ content_num P = contents
        /\ List.length (content_id_list P) = Z.to_nat contents
        /\ pour_pos_nominal P = translate pos pour
        /\ IZR indents * indent_len P * 3
           = horizontal_distance (snd (obj_aabb P)) (fst (obj_aabb P))
        /\ content_aabb P
           = (let loaded :=
                invoke (LoadURDF "plane.urdf" (0, 0, 0) identity false)
                  (invoke (SetGravity 0 0 (-9.81)) (p_connect E)) in
              let sample := LoadURDF content (0, 0, 0) identity false in
              getAABB E (returned E sample (phys loaded))
                (phys (invoke sample loaded)))).
Proof.
  destruct (mp4_file_name_cases check mp4_dir object_name) as [Hbad Hgood].
  split; [|split].
  - intros Hv. unfold init. now rewrite (Hbad Hv).
  - intros Hv ->. destruct (Hgood Hv) as [n Hn].
    unfold init, invoke_id. rewrite Hn. cbn [bind].
    match goal with
    | |- context [fold_left ?f ?l ?a] => destruct (fold_left f l a) as [ids w]
    end.
    unfold math_sqrt.
    match goal with
    | |- context [Rlt_dec (?a * ?a + ?b * ?b) 0] =>
        pose proof (sum_of_squares_nonneg a b) as Hsq;
        destruct (Rlt_dec (a * a + b * b) 0) as [Hneg|_]; [lra|]
    end.
    cbn [bind]. unfold truediv.
    destruct (Req_dec_T (IZR (3 * 0)) 0) as [_|Hn0]; [reflexivity|].
    exfalso. apply Hn0. reflexivity.
  - intros Hv Hne. destruct (Hgood Hv) as [n Hn].
    unfold init, invoke_id. rewrite Hn. cbn [bind].
    match goal with
    | |- context [fold_left ?f ?l ?a] =>
        assert (Hlen : List.length (fst (fold_left f l a))
                       = (0 + List.length l)%nat)
          by exact (load_contents_length content l [] (snd a));
        destruct (fold_left f l a) as [ids w]
    end.
    cbn [fst] in Hlen. rewrite range_length in Hlen.
    unfold math_sqrt.
    match goal with
    | |- context [Rlt_dec (?a * ?a + ?b * ?b) 0] =>
        pose proof (sum_of_squares_nonneg a b) as Hsq;
        destruct (Rlt_dec (a * a + b * b) 0) as [Hneg|_]; [lra|]
    end.
    cbn [bind]. unfold truediv.
    destruct (Req_dec_T (IZR (3 * indents)) 0) as [H0|Hn0].
    { apply eq_IZR in H0. lia. }
    cbn [bind]. eexists. eexists. split; [reflexivity|].
    cbn [bottle_urdf indent_num content_num content_id_list
         pour_pos_nominal indent_len obj_aabb content_aabb].
    split; [reflexivity|]. split; [reflexivity|]. split; [reflexivity|].
    split; [lia|]. split; [reflexivity|]. split; [|reflexivity].
    unfold horizontal_distance. rewrite mult_IZR in Hn0.
    rewrite mult_IZR. field_simplify_eq; [reflexivity|].
    intros Hz. apply Hn0. rewrite Hz. lra.
Qed.

(** X24.  The constructor raises [TypeError] exactly when a video is asked
    for ([mp4_dir] given and [check_process] set) and [object_name] is
    left at [None]; otherwise it raises [ZeroDivisionError] exactly when
    it is asked for no indent; otherwise it returns.  It then has loaded
    as many particles as it was asked for (none for a negative number),
    the nominal pour point is moved with the object, and the indents have
    a length that makes [indent_num] of them span a third of the diagonal
    of the box of the object. *)
Theorem init_outcome {E : Env} (bottle content obj : string) (pour : vec3)
  (indents contents : Z) (pos orn : vec3) (check : bool)
  (mp4_dir object_name : option string) :
  (init (E := E) bottle content obj pour indents contents pos orn check
     mp4_dir object_name = Raise TypeError
   <-> video_without_name check mp4_dir object_name)
  /\ (init (E := E) bottle content obj pour indents contents pos orn check
        mp4_dir object_name = Raise ZeroDivisionError
      <-> ~ video_without_name check mp4_dir object_name /\ indents = 0%Z)
  /\ ((exists P w,
         init (E := E) bottle content obj pour indents contents pos orn
           check mp4_dir object_name = Ok (P, w))
      <-> ~ video_without_name check mp4_dir object_name
          /\ indents <> 0%Z)
  /\ forall P w,
       init (E := E) bottle content obj pour indents contents pos orn check
         mp4_dir object_name = Ok (P, w) ->
       bottle_urdf P = bottle
       /\ indent_num P = indents
       /\ content_num P = contents
       /\ List.length (content_id_list P) = Z.to_nat contents
       /\ pour_pos_nominal P = translate pos pour
       /\ IZR indents * indent_len P * 3
          = horizontal_distance (snd (obj_aabb P)) (fst (obj_aabb P)).
Proof.
  destruct (init_cases (E := E) bottle content obj pour indents contents
              pos orn check mp4_dir object_name) as (Htype & Hzero & Hok).
  assert (Hdec : video_without_name check mp4_dir object_name
                 \/ ~ video_without_name check mp4_dir object_name).
  { unfold video_without_name.
    destruct mp4_dir as [dir|], check, object_name as [name|];
      try (left; repeat split; discriminate);
      right; intros (H1 & H2 & H3);
      first [discriminate|now elim H1]. }
  destruct Hdec as [Hv|Hv].
  { rewrite (Htype Hv). split; [now split|]. split; [|split].
    - split; [discriminate|intros [Hno _]; now elim Hno].
    - split; [intros [P [w Hs]]; discriminate
             |intros [Hno _]; now elim Hno].
    - intros P w Hs. discriminate. }
  destruct (Z.eq_dec indents 0) as [H0|Hne].
  { rewrite (Hzero Hv H0). split; [|split; [|split]].
    - split; [discriminate|intros Hyes; now elim Hv].
    - split; [intros _; now split|reflexivity].
    - split; [intros [P [w Hs]]; discriminate
             |intros [_ Hne]; now elim Hne].
    - intros P w Hs. discriminate. }
  destruct (Hok Hv Hne) as [P [w (Hrun & F1 & F2 & F3 & F4 & F5 & F6 & _)]].
  rewrite Hrun. split; [|split; [|split]].
  - split; [discriminate|intros Hyes; now elim Hv].
  - split; [discriminate|intros [_ H0]; now elim Hne].
  - split; [intros _; now split|intros _; now exists P, w].
  - intros P' w' Hs. injection Hs as <- <-.
    split; [exact F1|]. split; [exact F2|]. split; [exact F3|].
    split; [exact F4|]. split; [exact F5|exact F6].
Qed.

Lemma distance_along (r c s : R) :
  c * c + s * s = 1 -> sqrt (r * c * (r * c) + r * s * (r * s)) = Rabs r.
Proof.
  intros Hcs.
  replace (r * c * (r * c) + r * s * (r * s)) with (Rsqr r)
    by (unfold Rsqr; nra).
  apply sqrt_Rsqr_abs.
Qed.

Lemma unit_direction (a : R) : cos a * cos a + sin a * sin a = 1.
Proof. pose proof (sin2_cos2 a) as H. unfold Rsqr in H. lra. Qed.

(** X25.  The geometry of a pour, whatever the planar angle: the pour point of
    indent [j] is at the height of the nominal one, at the distance
    [|indent + j * indent_len|] from it seen from above; two successive
    pour points are [|indent_len|] apart; and the base of the bottle is
    half a bottle length behind its pour point, on the line from the
    nominal point. *)
Theorem pour_point_distance (nominal : vec3) (indent indent_len angle : R)
  (j : Z) (box : aabb) :
  let here := pour_point nominal indent indent_len angle j in
  let next := pour_point nominal indent indent_len angle (j + 1) in
  let base := bottle_base here box angle in
  vz here = vz nominal
  /\ horizontal_distance here nominal = Rabs (indent + IZR j * indent_len)
  /\ horizontal_distance next here = Rabs indent_len
  /\ horizontal_distance base here = Rabs (vx (snd box))
  /\ horizontal_distance base nominal
     = Rabs (indent + IZR j * indent_len + vx (snd box))
  /\ vz base = vz here - vz (fst box) - 0.014.
Proof.
  pose proof (unit_direction angle) as Hdir.
  cbv zeta. unfold horizontal_distance, bottle_base, pour_point, vx, vy, vz.
  cbn [fst snd]. rewrite plus_IZR.
  split; [reflexivity|].
  split.
  { rewrite <- (distance_along (indent + IZR j * indent_len) (cos angle)
                 (sin angle) Hdir).
    f_equal. ring. }
  split.
  { rewrite <- (distance_along indent_len (cos angle) (sin angle) Hdir).
    f_equal. ring. }
  split.
  { rewrite <- (distance_along (fst (fst (snd box))) (cos angle) (sin angle)
                 Hdir).
    f_equal. ring. }
  split.
  { rewrite <- (distance_along
                  (indent + IZR j * indent_len + fst (fst (snd box)))
                  (cos angle) (sin angle) Hdir).
    f_equal. ring. }
  lra.
Qed.

Lemma np_randint_no_cell {E : Env} (n : option Z) (w : World E) :
  ~ cells n -> np_randint 1 (option_map (Z.add 1) n) w = Raise ValueError.
Proof.
  intros Hn. destruct n as [k|]; [|reflexivity].
  unfold np_randint. cbn [option_map].
  destruct (Z.leb_spec (1 + k) 1) as [_|Hk]; [reflexivity|].
  exfalso. apply Hn. exists k. split; [reflexivity|lia].
Qed.

Lemma cells_dec (n : option Z) : cells n \/ ~ cells n.
Proof.
  destruct n as [k|].
  - destruct (Z_le_dec 1 k) as [Hk|Hk].
    + left. now exists k.
    + right. intros [k' [Heq Hk']]. injection Heq as <-. lia.
  - right. intros [k [Heq _]]. discriminate.
Qed.

Lemma set_one_content_fits {E : Env} (planar_angle : R) (i : Z)
  (self : Self E) :
  fits (bottle_aabb self) (content_aabb (params self)) ->
  content_loaded (params self) -> (0 <= i < content_num (params self))%Z ->
  exists self' cs,
    set_one_content planar_angle
      (Rabs (vx (fst (bottle_aabb self)))
       - Rabs (vx (snd (content_aabb (params self)))
               - vx (fst (content_aabb (params self)))) * 2)
      (Rabs (vy (snd (bottle_aabb self)) - vy (fst (bottle_aabb self)))
       - Rabs (vy (snd (content_aabb (params self)))
               - vy (fst (content_aabb (params self)))) * 4)
      (Rabs (vz (snd (bottle_aabb self)) - vz (fst (bottle_aabb self)))
       - Rabs (vz (snd (content_aabb (params self)))
               - vz (fst (content_aabb (params self)))) * 4)
      (x_cells (bottle_aabb self) (content_aabb (params self)))
      (y_cells (bottle_aabb self) (content_aabb (params self)))
      (z_cells (bottle_aabb self) (content_aabb (params self))) i self
    = Ok self'
    /\ extends self self' cs.
Proof.
  intros (Hx & Hy & Hz) Hloaded Hi.
  now apply set_one_content_spec.
Qed.

(** X26.  [set_content] with at least one particle to place returns exactly
    when the content fits in the bottle, with a cell along each axis;
    when it does not, the first draw of a cell fails and [set_content]
    raises [ValueError] before any particle is moved. *)
Theorem set_content_needs_room {E : Env} (planar_angle : R) (self : Self E) :
  content_loaded (params self) ->
  (1 <= content_num (params self))%Z ->
  ((exists self', set_content planar_angle self = Ok self')
   <-> fits (bottle_aabb self) (content_aabb (params self)))
  /\ (set_content planar_angle self = Raise ValueError
      <-> ~ fits (bottle_aabb self) (content_aabb (params self))).
Proof.
  intros Hloaded Hnum.
  assert (Hok : fits (bottle_aabb self) (content_aabb (params self)) ->
                exists self', set_content planar_angle self = Ok self').
  { intros Hfits. unfold set_content.
    fold (x_cells (bottle_aabb self) (content_aabb (params self))).
    fold (y_cells (bottle_aabb self) (content_aabb (params self))).
    fold (z_cells (bottle_aabb self) (content_aabb (params self))).
    match goal with
    | |- context [for_range ?n ?body self] =>
        destruct (for_range_invariant
                    (fun (i : Z) t => exists cs, extends self t cs)
                    n body self) as [self1 [Hrun [cs1 Hext1]]]
    end.
    - apply Hloaded.
    - exists []. apply extends_refl.
    - intros i t Hi [cs Hext].
      destruct Hext as (P1 & P2 & P3 & P4 & P5 & P6 & P7).
      destruct (set_one_content_fits planar_angle i t)
        as [t' [ds [Hstep Hext']]];
        [now rewrite P1, P6|now rewrite P1|now rewrite P1|].
      rewrite P1, P6 in Hstep.
      exists t'. split; [exact Hstep|].
      exists (cs ++ ds).
      apply (extends_trans self t t'); [|exact Hext'].
      unfold extends. now repeat split.
    - rewrite Hrun. cbn [bind].
      destruct (steps_spec 200 self1 ltac:(lia)) as [self2 [Hsteps _]].
      now exists self2. }
  assert (Hraise : ~ fits (bottle_aabb self) (content_aabb (params self)) ->
                   set_content planar_angle self = Raise ValueError).
  { intros Hno. unfold set_content.
    fold (x_cells (bottle_aabb self) (content_aabb (params self))).
    fold (y_cells (bottle_aabb self) (content_aabb (params self))).
    fold (z_cells (bottle_aabb self) (content_aabb (params self))).
    rewrite (for_range_first_raises _ _ _ ValueError); [reflexivity|lia|].
    unfold set_one_content.
    rewrite (MeasureFacts.getitem_nth _ 0 0%nat)
      by (unfold content_loaded in Hloaded; lia).
    cbn [bind].
    destruct (cells_dec (x_cells (bottle_aabb self)
                           (content_aabb (params self)))) as [Hx|Hx];
      [|now rewrite (np_randint_no_cell _ _ Hx)].
    destruct (np_randint_cells _ (world self) Hx) as [rx [wx (Hrx & _)]].
    rewrite Hrx. cbn [bind fst snd].
    destruct (cells_dec (y_cells (bottle_aabb self)
                           (content_aabb (params self)))) as [Hy|Hy];
      [|now rewrite (np_randint_no_cell _ _ Hy)].
    destruct (np_randint_cells _ wx Hy) as [ry [wy (Hry & _)]].
    rewrite Hry. cbn [bind fst snd].
    destruct (cells_dec (z_cells (bottle_aabb self)
                           (content_aabb (params self)))) as [Hz|Hz];
      [|now rewrite (np_randint_no_cell _ _ Hz)].
    exfalso. apply Hno. now repeat split. }
  assert (Hdec : fits (bottle_aabb self) (content_aabb (params self))
                 \/ ~ fits (bottle_aabb self) (content_aabb (params self))).
  { unfold fits.
    destruct (cells_dec (x_cells (bottle_aabb self)
                           (content_aabb (params self)))) as [Hx|Hx];
      [|right; tauto].
    destruct (cells_dec (y_cells (bottle_aabb self)
                           (content_aabb (params self)))) as [Hy|Hy];
      [|right; tauto].
    destruct (cells_dec (z_cells (bottle_aabb self)
                           (content_aabb (params self)))) as [Hz|Hz];
      [left; tauto|right; tauto]. }
  destruct Hdec as [Hfits|Hno].
  - destruct (Hok Hfits) as [self' Hrun]. rewrite Hrun.
    split; split.
    + intros _. exact Hfits.
    + intros _. now exists self'.
    + discriminate.
    + intros Hno. now elim Hno.
  - rewrite (Hraise Hno). split; split.
    + intros [self' Hs]. discriminate.
    + intros Hfits. now elim Hno.
    + intros _. exact Hno.
    + reflexivity.
Qed.

(** The bottle of the demonstration object is not loaded yet and its box
    is empty: the beads do not fit. *)
Lemma set_content_needs_room_witness :
  set_content 0 Demo.pouring = Raise ValueError.
Proof.
  destruct (set_content_needs_room 0 Demo.pouring pouring_loaded
              ltac:(cbn; lia)) as [_ Hraise].
  apply Hraise. intros [[k [Hk Hge]] _].
  unfold x_cells, np_floor_div in Hk.
  destruct (Req_dec_T _ 0) as [_|_]; [discriminate|].
  injection Hk as <-.
  cbn [Demo.pouring bottle_aabb params content_aabb fst snd] in Hge.
  unfold vx in Hge. cbn [fst snd] in Hge.
  rewrite Rabs_R0 in Hge.
  rewrite (Rabs_value (1 / 100 - -1 / 100) (1 / 50)) in Hge by lra.
  match type of Hge with
  | (1 <= Zfloor ?x)%Z =>
      pose proof (Zfloor_bound x) as [Hlow _];
      assert (Hx : x = -2) by lra
  end.
  apply IZR_le in Hge. lra.
Defined.

Lemma count_filters_app (a b : list call) :
  count_filters (a ++ b) = (count_filters a + count_filters b)%nat.
Proof. unfold count_filters. now rewrite filter_app, length_app. Qed.

Lemma count_steps_hold (n : Z) :
  count_steps (hold_calls n) = Z.to_nat n
  /\ count_filters (hold_calls n) = 0%nat.
Proof.
  unfold hold_calls. induction (Z.to_nat n) as [|k [IH1 IH2]];
    [now split|].
  split; [cbn; unfold count_steps in IH1; now rewrite IH1|exact IH2].
Qed.

Lemma count_steps_tip (cid : nat) (pivot : vec3) (planar_angle : R) (n : Z) :
  count_steps (tip_calls cid pivot planar_angle n) = Z.to_nat n
  /\ count_filters (tip_calls cid pivot planar_angle n) = 0%nat.
Proof.
  unfold tip_calls. rewrite <- (range_length n).
  induction (range n) as [|i l [IH1 IH2]]; [now split|].
  split; [cbn; unfold count_steps in IH1; now rewrite IH1|exact IH2].
Qed.

Lemma room_positive (a b : R) : cells (np_floor_div a (Rabs b)) -> 0 < a.
Proof.
  intros [k [Hk Hge]]. unfold np_floor_div in Hk.
  destruct (Req_dec_T (Rabs b) 0) as [_|Hb]; [discriminate|].
  injection Hk as <-.
  pose proof (Rabs_pos b) as Hpos.
  pose proof (Zfloor_bound (a / Rabs b)) as [Hlow _].
  apply IZR_le in Hge.
  assert (Hq : 1 <= a / Rabs b) by lra.
  assert (Hw : 0 < Rabs b) by lra.
  apply (Rmult_le_compat_r (Rabs b)) in Hq; [|lra].
  unfold Rdiv in Hq. rewrite Rmult_assoc, Rinv_l in Hq by lra. lra.
Qed.

(** A draw of [np.random.randint(1, k + 1)] from a generator whose draws
    are in [[0, 1)]. *)
Lemma np_randint_range {E : Env} (k : Z) (w : World E) :
  (1 <= k)%Z ->
  exists r w',
    np_randint 1 (option_map (Z.add 1) (Some k)) w = Ok (r, w')
    /\ phys w' = phys w /\ calls w' = calls w
    /\ (LatticeSpec.unit_draws E -> (1 <= r <= k)%Z).
Proof.
  intros Hk. unfold np_randint. cbn [option_map].
  destruct (Z.leb_spec (1 + k) 1); [lia|].
  cbn [np_random]. eexists. eexists. split; [reflexivity|].
  split; [reflexivity|]. split; [reflexivity|].
  intros Hdraws. specialize (Hdraws (drawn w)).
  replace (1 + k - 1)%Z with k by lia.
  assert (Hk' : 1 <= IZR k) by now apply IZR_le.
  pose proof (Zfloor_bound (random_random E (drawn w) * IZR k)) as [Hlo Hhi].
  assert (H0 : (0 <= Zfloor (random_random E (drawn w) * IZR k))%Z).
  { apply Zfloor_lub. simpl (IZR 0). nra. }
  assert (H1 : (Zfloor (random_random E (drawn w) * IZR k) < k)%Z).
  { apply lt_IZR. nra. }
  lia.
Qed.

Lemma offset_range (r k : Z) (room : R) :
  (1 <= r <= k)%Z -> 0 < room -> 0 < IZR r / IZR k * room <= room.
Proof.
  intros [Hr Hk] Hroom.
  assert (Hr' : 1 <= IZR r) by now apply IZR_le.
  assert (Hk' : IZR r <= IZR k) by now apply IZR_le.
  assert (Hq : 0 < IZR r / IZR k <= 1).
  { split.
    - apply Rdiv_lt_0_compat; lra.
    - apply (Rmult_le_reg_r (IZR k)); [lra|].
      unfold Rdiv. rewrite Rmult_assoc, Rinv_l by lra. lra. }
  nra.
Qed.

Lemma bottle_frame_inverse (angle : R) (base : vec3) (x y z : R) :
  bottle_frame angle base
    (vx base - (cos angle * x + sin angle * y),
     vy base + (- sin angle * x + cos angle * y),
     vz base + z)
  = (x, y, z).
Proof.
  pose proof (unit_direction angle) as Hdir.
  unfold bottle_frame, vx, vy, vz. cbn [fst snd].
  f_equal; [f_equal|].
  - transitivity ((cos angle * cos angle + sin angle * sin angle) * x);
      [ring|rewrite Hdir; ring].
  - transitivity ((cos angle * cos angle + sin angle * sin angle) * y);
      [ring|rewrite Hdir; ring].
  - ring.
Qed.

(** One particle: it is reset once, at a place of the sublattice, and its
    dynamics are set. *)
Lemma set_one_content_trace {E : Env} (planar_angle : R) (i : Z)
  (self : Self E) :
  fits (bottle_aabb self) (content_aabb (params self)) ->
  content_loaded (params self) -> (0 <= i < content_num (params self))%Z ->
  exists self' pos settings,
    set_one_content planar_angle
      (x_room (bottle_aabb self) (content_aabb (params self)))
      (y_room (bottle_aabb self) (content_aabb (params self)))
      (z_room (bottle_aabb self) (content_aabb (params self)))
      (x_cells (bottle_aabb self) (content_aabb (params self)))
      (y_cells (bottle_aabb self) (content_aabb (params self)))
      (z_cells (bottle_aabb self) (content_aabb (params self))) i self
    = Ok self'
    /\ extends self self'
         [ResetBasePositionAndOrientation
            (nth (Z.to_nat i) (content_id_list (params self)) 0%nat) pos
            (obj_zero_orn (params self));
          ChangeDynamics
            (nth (Z.to_nat i) (content_id_list (params self)) 0%nat)
            settings]
    /\ (LatticeSpec.unit_draws E ->
        in_sublattice (bottle_aabb self) (content_aabb (params self))
          (bottle_frame planar_angle (bottle_pos self) pos)).
Proof.
  intros (Hx & Hy & Hz) Hloaded Hi.
  pose proof (room_positive _ _ Hx) as Rx.
  pose proof (room_positive _ _ Hy) as Ry.
  pose proof (room_positive _ _ Hz) as Rz.
  fold (x_room (bottle_aabb self) (content_aabb (params self))) in Rx.
  fold (y_room (bottle_aabb self) (content_aabb (params self))) in Ry.
  fold (z_room (bottle_aabb self) (content_aabb (params self))) in Rz.
  destruct Hx as [kx [Hkx Gx]], Hy as [ky [Hky Gy]], Hz as [kz [Hkz Gz]].
  unfold set_one_content. rewrite Hkx, Hky, Hkz.
  rewrite (MeasureFacts.getitem_nth _ i 0%nat)
    by (unfold content_loaded in Hloaded; lia).
  cbn [bind].
  destruct (np_randint_range kx (world self) Gx)
    as [rx [wx (Hrx & Px & Cx & Bx)]].
  rewrite Hrx. cbn [bind fst snd].
  destruct (np_randint_range ky wx Gy) as [ry [wy (Hry & Py & Cy & By)]].
  rewrite Hry. cbn [bind fst snd].
  destruct (np_randint_range kz wy Gz) as [rz [wz (Hrz & Pz & Cz & Bz)]].
  rewrite Hrz. cbn [bind fst snd].
  eexists. eexists. eexists. split; [reflexivity|]. split.
  - unfold extends.
    cbn [params bottle_list pour_pos bottle_id bottle_pos bottle_aabb world
         p_ set_world invoke calls].
    rewrite Cz, Cy, Cx, <- app_assoc. repeat split; reflexivity.
  - intros Hdraws. rewrite bottle_frame_inverse.
    unfold in_sublattice, vx, vy, vz. cbn [fst snd].
    pose proof (offset_range rx kx _ (Bx Hdraws) Rx) as Ox.
    pose proof (offset_range ry ky _ (By Hdraws) Ry) as Oy.
    pose proof (offset_range rz kz _ (Bz Hdraws) Rz) as Oz.
    unfold vy, vz in *. repeat split; lra.
Qed.

(** [set_content] in a bottle the content fits in, with what it asks of
    the engine. *)
Lemma set_content_trace {E : Env} (planar_angle : R) (self : Self E) :
  fits (bottle_aabb self) (content_aabb (params self)) ->
  content_loaded (params self) ->
  exists self' cs,
    set_content planar_angle self = Ok self'
    /\ extends self self' cs
    /\ List.length cs = (2 * Z.to_nat (content_num (params self)) + 200)%nat
    /\ count_steps cs = 200%nat
    /\ count_filters cs = 0%nat
    /\ forall body pos orn,
         In (ResetBasePositionAndOrientation body pos orn) cs ->
         In body (content_id_list (params self))
         /\ orn = obj_zero_orn (params self)
         /\ (LatticeSpec.unit_draws E ->
             in_sublattice (bottle_aabb self) (content_aabb (params self))
               (bottle_frame planar_angle (bottle_pos self) pos)).
Proof.
  intros Hfits Hloaded. unfold set_content.
  fold (x_room (bottle_aabb self) (content_aabb (params self))).
  fold (y_room (bottle_aabb self) (content_aabb (params self))).
  fold (z_room (bottle_aabb self) (content_aabb (params self))).
  fold (x_cells (bottle_aabb self) (content_aabb (params self))).
  fold (y_cells (bottle_aabb self) (content_aabb (params self))).
  fold (z_cells (bottle_aabb self) (content_aabb (params self))).
  match goal with
  | |- context [for_range ?n ?step self] =>
      destruct (for_range_invariant
        (fun (i : Z) t =>
           exists cs,
             extends self t cs
             /\ List.length cs = (2 * Z.to_nat i)%nat
             /\ count_steps cs = 0%nat
             /\ count_filters cs = 0%nat
             /\ forall body pos orn,
                  In (ResetBasePositionAndOrientation body pos orn) cs ->
                  In body (content_id_list (params self))
                  /\ orn = obj_zero_orn (params self)
                  /\ (LatticeSpec.unit_draws E ->
                      in_sublattice (bottle_aabb self)
                        (content_aabb (params self))
                        (bottle_frame planar_angle (bottle_pos self) pos)))
        n step self) as [self1 [Hrun [cs1 (Hext1 & L1 & S1 & F1 & A1)]]]
  end.
  - apply Hloaded.
  - exists []. split; [apply extends_refl|]. split; [reflexivity|].
    split; [reflexivity|]. split; [reflexivity|]. intros body pos orn [].
  - intros i t Hi [cs (Hext & L & S & F & A)].
    destruct Hext as (P1 & P2 & P3 & P4 & P5 & P6 & P7).
    destruct (set_one_content_trace planar_angle i t)
      as [t' [pos [settings (Hstep & Hext' & Hin)]]];
      [now rewrite P1, P6|now rewrite P1|now rewrite P1|].
    rewrite P1, P6 in Hstep. rewrite P1 in Hext'. rewrite P1, P5, P6 in Hin.
    exists t'. split; [exact Hstep|].
    eexists (cs ++ [_; _]). split.
    { apply (extends_trans self t t'); [|exact Hext'].
      unfold extends. now repeat split. }
    split; [rewrite length_app; cbn [List.length]; lia|].
    split; [rewrite ContainabilityMore.count_steps_app, S; reflexivity|].
    split; [rewrite count_filters_app, F; reflexivity|].
    intros body p o Hc. apply in_app_or in Hc.
    destruct Hc as [Hc|[Hc|[Hc|[]]]]; [now apply A| |discriminate].
    injection Hc as <- <- <-.
    split; [|split; [reflexivity|exact Hin]].
    apply nth_In. unfold content_loaded in Hloaded. lia.
  - rewrite Hrun. cbn [bind].
    destruct (steps_spec 200 self1 ltac:(lia)) as [self2 [Hsteps Hext2]].
    destruct (count_steps_hold 200) as [SH FH].
    exists self2, (cs1 ++ hold_calls 200). split; [exact Hsteps|].
    split; [exact (extends_trans _ _ _ _ _ Hext1 Hext2)|].
    split.
    { rewrite length_app, L1. unfold hold_calls. rewrite repeat_length.
      lia. }
    split; [rewrite ContainabilityMore.count_steps_app, S1, SH; reflexivity|].
    split; [rewrite count_filters_app, F1, FH; reflexivity|].
    intros body pos orn Hc. apply in_app_or in Hc.
    destruct Hc as [Hc|Hc]; [now apply A1|].
    unfold hold_calls in Hc. apply repeat_spec in Hc. discriminate.
Qed.

(** X27.  Where [set_content] puts the particles: each body it resets is one of
    the particles, reset with the orientation of the object; seen from the
    base of the bottle it is behind the base by more than 0 and at most
    the room along the bottle, and within the room left across and
    upwards.  It then steps the simulation 200 times, and asks nothing
    else than these resets, the dynamics of the particles and the
    steps. *)
Theorem set_content_inside {E : Env} (planar_angle : R) (self : Self E) :
  LatticeSpec.unit_draws E ->
  fits (bottle_aabb self) (content_aabb (params self)) ->
  content_loaded (params self) ->
  exists self' cs,
    set_content planar_angle self = Ok self'
    /\ calls (world self') = calls (world self) ++ cs
    /\ List.length cs = (2 * Z.to_nat (content_num (params self)) + 200)%nat
    /\ count_steps cs = 200%nat
    /\ forall body pos orn,
         In (ResetBasePositionAndOrientation body pos orn) cs ->
         In body (content_id_list (params self))
         /\ orn = obj_zero_orn (params self)
         /\ in_sublattice (bottle_aabb self) (content_aabb (params self))
              (bottle_frame planar_angle (bottle_pos self) pos).
Proof.
  intros Hdraws Hfits Hloaded.
  destruct (set_content_trace planar_angle self Hfits Hloaded)
    as [self' [cs (Hrun & Hext & L & S & _ & A)]].
  exists self', cs. split; [exact Hrun|].
  split; [apply Hext|]. split; [exact L|]. split; [exact S|].
  intros body pos orn Hc. destruct (A body pos orn Hc) as (A1 & A2 & A3).
  split; [exact A1|]. split; [exact A2|]. now apply A3.
Qed.

Lemma shelf_unit_draws : LatticeSpec.unit_draws Demo.shelf.
Proof. intros k. cbn. lra. Qed.

Lemma bottled_fits :
  fits (bottle_aabb DemoPour.bottled)
    (content_aabb (params DemoPour.bottled)).
Proof.
  unfold fits, x_cells, y_cells, z_cells, vx, vy, vz.
  cbn [DemoPour.bottled Demo.pouring bottle_aabb params content_aabb
       fst snd].
  rewrite (Rabs_value (-1 / 2) (1 / 2)) by lra.
  rewrite (Rabs_value (1 / 100 - -1 / 100) (1 / 50)) by lra.
  rewrite (Rabs_value (1 / 2 - -1 / 2) 1) by lra.
  repeat split; apply cells_floor_div; lra.
Qed.

Lemma set_content_inside_witness :
  exists self' cs,
    set_content 0 DemoPour.bottled = Ok self'
    /\ calls (world self') = calls (world DemoPour.bottled) ++ cs
    /\ List.length cs = 206%nat
    /\ count_steps cs = 200%nat.
Proof.
  destruct (set_content_inside 0 DemoPour.bottled shelf_unit_draws
              bottled_fits pouring_loaded)
    as [self' [cs (H1 & H2 & H3 & H4 & _)]].
  exists self', cs. split; [exact H1|]. split; [exact H2|].
  split; [exact H3|exact H4].
Defined.

Lemma filter_pairs_calls {E : Env} (bottle : nat) (l : list nat)
  (self : Self E) :
  calls (world (fold_left
                  (fun self other =>
                     p_ (SetCollisionFilterPair bottle other false) self)
                  l self))
  = calls (world self)
    ++ map (fun other => SetCollisionFilterPair bottle other false) l.
Proof.
  revert self. induction l as [|o l IH]; intros self.
  - cbn. now rewrite app_nil_r.
  - cbn [fold_left map]. rewrite IH.
    cbn [p_ set_world world invoke calls]. now rewrite <- app_assoc.
Qed.

Lemma count_filter_pairs (bottle : nat) (l : list nat) :
  count_steps (map (fun other => SetCollisionFilterPair bottle other false) l)
  = 0%nat
  /\ count_filters
       (map (fun other => SetCollisionFilterPair bottle other false) l)
     = List.length l.
Proof.
  induction l as [|o l [IH1 IH2]]; [now split|].
  split; [exact IH1|]. cbn. unfold count_filters in IH2. now rewrite IH2.
Qed.

(** A bottle put in place: it is added to the list of bottles, filtered
    against every bottle of the list, itself included, and no step is
    taken; its box is the one the engine reports for it once loaded. *)
Lemma place_bottle_trace {E : Env} (indent planar_angle : R) (j : Z)
  (self : Self E) :
  exists cs,
    let self' := snd (place_bottle indent planar_angle j self) in
    let load := LoadURDF (bottle_urdf (params self)) (0, 0, 0) identity false in
    let bottle := returned E load (phys (world self)) in
    params self' = params self
    /\ bottle_list self' = bottle_list self ++ [bottle_id self']
    /\ bottle_aabb self'
       = getAABB E bottle
           (effect E (ChangeDynamics bottle [("mass"%string, 1)])
              (effect E load (phys (world self))))
    /\ calls (world self') = calls (world self) ++ cs
    /\ count_steps cs = 0%nat
    /\ count_filters cs = S (List.length (bottle_list self)).
Proof.
  unfold place_bottle, load_bottle, invoke_id.
  cbn [snd fst params bottle_list bottle_id bottle_aabb world calls
       set_world set_pour_pos set_bottle_pos set_bottle_id set_bottle_aabb
       set_bottle_list p_ invoke].
  match goal with
  | |- context [fold_left ?f ?l ?s] =>
      pose proof (filter_pairs_calls
                    (returned E
                       (LoadURDF (bottle_urdf (params self)) (0, 0, 0)
                          identity false) (phys (world self))) l s) as Hcalls;
      destruct (filter_pairs_unchanged
                  (returned E
                     (LoadURDF (bottle_urdf (params self)) (0, 0, 0) identity
                        false) (phys (world self))) l s)
        as (F1 & F2 & F3 & F4 & F5 & F6);
      set (loaded := fold_left f l s) in *
  end.
  cbn [params bottle_list bottle_id bottle_aabb world calls pour_pos
       bottle_pos set_world set_pour_pos set_bottle_pos set_bottle_id
       set_bottle_aabb set_bottle_list p_ invoke phys] in *.
  destruct (count_filter_pairs
              (returned E
                 (LoadURDF (bottle_urdf (params self)) (0, 0, 0) identity
                    false) (phys (world self)))
              (bottle_list self
               ++ [returned E
                     (LoadURDF (bottle_urdf (params self)) (0, 0, 0) identity
                        false) (phys (world self))])) as [CS CF].
  eexists. cbv zeta.
  split; [exact F1|]. split; [now rewrite F2, F4|].
  split; [rewrite F6; reflexivity|].
  split.
  { rewrite Hcalls, <- !app_assoc. reflexivity. }
  split.
  { rewrite !ContainabilityMore.count_steps_app, CS. reflexivity. }
  rewrite !count_filters_app, CF, length_app. cbn. lia.
Qed.

(** The pour of one indent up to the end of the hold, with what it asks
    of the engine: 800 steps (200 for the content to settle, 500 of tip
    and 100 of hold), and one more bottle in the list. *)
Lemma pour_steps_trace {E : Env} (indent planar_angle : R) (j : Z)
  (self : Self E) :
  bottle_fits E (params self) ->
  content_loaded (params self) ->
  exists held cs,
    pour_steps indent planar_angle j self = Ok held
    /\ params held = params self
    /\ bottle_list held = bottle_list self ++ [bottle_id held]
    /\ calls (world held) = calls (world self) ++ cs
    /\ count_steps cs = 800%nat
    /\ count_filters cs = S (List.length (bottle_list self)).
Proof.
  intros Hroom Hloaded. unfold pour_steps.
  destruct (place_bottle_trace indent planar_angle j self)
    as [cs0 Hplace]. cbv zeta in Hplace.
  destruct (place_bottle indent planar_angle j self) as [cid self0].
  cbn [snd] in Hplace.
  destruct Hplace as (Hp0 & Hl0 & Hbox & Hc0 & S0 & F0).
  assert (Hfits : fits (bottle_aabb self0) (content_aabb (params self0))).
  { rewrite Hp0, Hbox. exact (Hroom (phys (world self))). }
  destruct (set_content_trace planar_angle self0 Hfits)
    as [self1 [cs1 (H1 & E1 & _ & S1 & F1 & _)]]; [now rewrite Hp0|].
  rewrite H1. cbn [bind].
  destruct (tip_spec cid (pour_pos self1) planar_angle self1)
    as [self2 [H2 E2]].
  rewrite H2. cbn [bind].
  destruct (hold_spec self2) as [self3 [H3 E3]].
  pose proof (extends_trans _ _ _ _ _ (extends_trans _ _ _ _ _ E1 E2) E3)
    as (Q1 & Q2 & _ & Q4 & _ & _ & Q7).
  destruct (count_steps_tip cid (pour_pos self1) planar_angle 500)
    as [ST FT].
  destruct (count_steps_hold 100) as [SH FH].
  exists self3.
  exists (cs0 ++ (cs1 ++ tip_calls cid (pour_pos self1) planar_angle 500)
              ++ hold_calls 100).
  split; [exact H3|]. split; [congruence|].
  split; [now rewrite Q2, Q4, Hl0|].
  split.
  { rewrite Q7, Hc0, <- !app_assoc. reflexivity. }
  split.
  { rewrite !ContainabilityMore.count_steps_app, S0, S1, ST, SH.
    reflexivity. }
  rewrite !count_filters_app, F0, F1, FT, FH. lia.
Qed.

(** [pour_once] is the pour up to the end of the hold, the count in the
    state the hold ended in, and the removal of the bottle. *)
Lemma pour_once_split {E : Env} (indent planar_angle : R) (j : Z)
  (spills : list Z) (self : Self E) :
  pour_once indent planar_angle j (spills, self)
  = (held <- pour_steps indent planar_angle j self ;;
     spill <- checkspillage held ;;
     Ok (spills ++ [spill], after_pour held)).
Proof.
  unfold pour_once, pour_steps.
  destruct (place_bottle indent planar_angle j self) as [cid self0].
  destruct (set_content planar_angle self0) as [self1|e]; [|reflexivity].
  cbn [bind].
  destruct (tip cid (pour_pos self1) planar_angle self1) as [self2|e];
    [|reflexivity].
  cbn [bind].
  destruct (hold self2) as [self3|e]; reflexivity.
Qed.

Lemma start_of_app {E : Env} (first : Self E) (helds more : list (Self E))
  (j : nat) :
  (j <= List.length helds)%nat ->
  start_of first (helds ++ more) j = start_of first helds j.
Proof.
  intros Hj. destruct j as [|k]; [reflexivity|].
  unfold start_of. now rewrite app_nth1 by lia.
Qed.

(** The loop of [bottle_pour] on the indents, state by state. *)
Lemma pour_loop_spec {E : Env} (indent planar_angle : R) (first : Self E)
  (n : Z) :
  bottle_fits E (params first) ->
  content_loaded (params first) ->
  (0 <= n)%Z ->
  exists (helds : list (Self E)) cs,
    for_range n (pour_once indent planar_angle) ([], first)
    = Ok (map count_in helds, start_of first helds (List.length helds))
    /\ List.length helds = Z.to_nat n
    /\ (forall j, (j < List.length helds)%nat ->
          pour_steps indent planar_angle (Z.of_nat j) (start_of first helds j)
          = Ok (nth j helds first)
          /\ params (nth j helds first) = params first
          /\ checkspillage (nth j helds first)
             = Ok (count_in (nth j helds first)))
    /\ params (start_of first helds (List.length helds)) = params first
    /\ calls (world (start_of first helds (List.length helds)))
       = calls (world first) ++ cs
    /\ count_steps cs = (800 * Z.to_nat n)%nat
    /\ (2 * count_filters cs
        = Z.to_nat n * (2 * List.length (bottle_list first) + Z.to_nat n + 1))%nat
    /\ List.length (bottle_list (start_of first helds (List.length helds)))
       = (List.length (bottle_list first) + Z.to_nat n)%nat
    /\ forall b,
         In b (bottle_list (start_of first helds (List.length helds))) ->
         In b (bottle_list first) \/ In (RemoveBody b) cs.
Proof.
  intros Hroom Hloaded Hn.
  destruct (for_range_invariant
    (fun i (acc : list Z * Self E) =>
       exists (helds : list (Self E)) cs,
         acc = (map count_in helds,
                start_of first helds (List.length helds))
         /\ List.length helds = Z.to_nat i
         /\ (forall j, (j < List.length helds)%nat ->
               pour_steps indent planar_angle (Z.of_nat j)
                 (start_of first helds j)
               = Ok (nth j helds first)
               /\ params (nth j helds first) = params first
               /\ checkspillage (nth j helds first)
                  = Ok (count_in (nth j helds first)))
         /\ params (start_of first helds (List.length helds)) = params first
         /\ calls (world (start_of first helds (List.length helds)))
            = calls (world first) ++ cs
         /\ count_steps cs = (800 * Z.to_nat i)%nat
         /\ (2 * count_filters cs
             = Z.to_nat i
               * (2 * List.length (bottle_list first) + Z.to_nat i + 1))%nat
         /\ List.length
              (bottle_list (start_of first helds (List.length helds)))
            = (List.length (bottle_list first) + Z.to_nat i)%nat
         /\ forall b,
              In b (bottle_list (start_of first helds (List.length helds))) ->
              In b (bottle_list first) \/ In (RemoveBody b) cs)
    n (pour_once indent planar_angle) ([], first))
    as [acc [Hrun [helds [cs (Hacc & Hinv)]]]].
  - exact Hn.
  - exists [], []. cbn [List.length start_of map].
    rewrite app_nil_r. split; [reflexivity|]. split; [reflexivity|].
    split; [intros j Hj; lia|]. split; [reflexivity|].
    split; [reflexivity|]. split; [reflexivity|]. split; [reflexivity|].
    split; [lia|]. intros b Hb. now left.
  - intros i [l t] Hi [helds [cs (Hacc & HL & Hall & Hp & Hc & HS & HF & HB
                                   & HR)]].
    injection Hacc as -> ->.
    set (t := start_of first helds (List.length helds)) in *.
    destruct (pour_steps_trace indent planar_angle i t)
      as [held [ds (Hstep & Hp' & Hl' & Hc' & S' & F')]];
      [now rewrite Hp|now rewrite Hp|].
    assert (Hcount : checkspillage held = Ok (count_in held)).
    { unfold count_in. apply checkspillage_spec. now rewrite Hp', Hp. }
    rewrite pour_once_split, Hstep. cbn [bind]. rewrite Hcount. cbn [bind].
    eexists. split; [reflexivity|].
    exists (helds ++ [held]), (cs ++ ds ++ [RemoveBody (bottle_id held)]).
    assert (Hlast : nth (List.length helds) (helds ++ [held]) first = held)
      by apply nth_middle.
    assert (Hnew : start_of first (helds ++ [held])
                     (List.length (helds ++ [held]))
                   = after_pour held).
    { rewrite length_app. cbn [List.length].
      replace (List.length helds + 1)%nat with (S (List.length helds))
        by lia.
      cbn [start_of]. now rewrite Hlast. }
    rewrite Hnew.
    split; [now rewrite map_app|].
    split; [rewrite length_app; cbn [List.length]; lia|].
    split.
    { intros j Hj. rewrite length_app in Hj. cbn [List.length] in Hj.
      rewrite start_of_app by lia.
      destruct (Nat.eq_dec j (List.length helds)) as [->|Hne].
      - rewrite Hlast. fold t.
        replace (Z.of_nat (List.length helds)) with i by lia.
        split; [exact Hstep|]. split; [congruence|exact Hcount].
      - rewrite app_nth1 by lia. apply Hall. lia. }
    unfold after_pour.
    cbn [params bottle_list world calls p_ set_world invoke].
    split; [congruence|].
    split; [rewrite Hc', Hc, <- !app_assoc; reflexivity|].
    replace (Z.to_nat (i + 1)) with (S (Z.to_nat i)) by lia.
    split.
    { rewrite !ContainabilityMore.count_steps_app, HS, S'. cbn. lia. }
    split.
    { rewrite !count_filters_app, F', HB.
      change (count_filters [RemoveBody (bottle_id held)]) with 0%nat.
      nia. }
    split; [rewrite Hl', length_app, HB; cbn; lia|].
    intros b Hb. rewrite Hl' in Hb. apply in_app_or in Hb.
    destruct Hb as [Hb|[<-|[]]].
    + destruct (HR b Hb) as [Hold|Hrem]; [now left|].
      right. apply in_or_app. now left.
    + right. apply in_or_app. right. apply in_or_app. right. now left.
  - exists helds, cs. rewrite Hrun, Hacc. split; [reflexivity|exact Hinv].
Qed.

Lemma big_fits_small :
  fits ((-1 / 2, -1 / 2, -1 / 2), (1 / 2, 1 / 2, 1 / 2))
    ((-1 / 100, -1 / 100, -1 / 100), (1 / 100, 1 / 100, 1 / 100)).
Proof.
  unfold fits, x_cells, y_cells, z_cells, vx, vy, vz. cbn [fst snd].
  rewrite (Rabs_value (-1 / 2) (1 / 2)) by lra.
  rewrite (Rabs_value (1 / 100 - -1 / 100) (1 / 50)) by lra.
  rewrite (Rabs_value (1 / 2 - -1 / 2) 1) by lra.
  repeat split; apply cells_floor_div; lra.
Qed.

(** The constructor at work on the bench: the video is not asked for, two
    indents, three beads; the beads are loaded and fit in the bottle. *)
Lemma bench_init :
  exists P w,
    init (E := DemoPour.bench) "bottle.urdf" "bead.urdf" "cup.urdf"
      (0, 0, 6 / 10) 2 3 (0, 0, 0) (0, 0, 0) false None None
    = Ok (P, w)
    /\ content_loaded P
    /\ bottle_fits DemoPour.bench P
    /\ indent_num P = 2%Z
    /\ content_num P = 3%Z.
Proof.
  destruct (init_cases (E := DemoPour.bench) "bottle.urdf" "bead.urdf"
              "cup.urdf" (0, 0, 6 / 10) 2 3 (0, 0, 0) (0, 0, 0) false None
              None) as (_ & _ & Hok).
  destruct Hok as [P [w (Hrun & F1 & F2 & F3 & _ & _ & _ & F7)]].
  { intros (H1 & _). now elim H1. }
  { discriminate. }
  exists P, w. split; [exact Hrun|].
  split; [exact (init_content_loaded _ _ _ _ _ _ _ _ _ _ _ _ _ Hrun
                   ltac:(lia))|].
  split; [|split; [exact F2|exact F3]].
  intros ph. cbv zeta. rewrite F1, F7.
  cbn [DemoPour.bench getAABB returned effect phys invoke p_connect connect].
  rewrite nth_middle, String.eqb_refl.
  change (nth (List.length ([] ++ ["plane.urdf"%string]))
            (([] ++ ["plane.urdf"%string]) ++ ["bead.urdf"%string])
            EmptyString)
    with "bead.urdf"%string.
  change ("bead.urdf" =? "bottle.urdf")%string with false.
  cbv iota. exact big_fits_small.
Qed.

(** C8.  [checkspillage] returns the number of particles whose height is
    strictly below the lowest point of the box of the target recorded by
    the constructor, a number between 0 and [content_num].  [bottle_pour]
    runs the pours of the planar angle of index 7 of 8 only, one per
    indent, and returns the list holding the list of their counts: the
    count of indent [j] is that of [checkspillage] in the state in which
    the hold of that indent ended, just before its bottle is removed, and
    the next indent starts from the state the removal leaves.  It does
    so whenever the content fits in the bottle it loads. *)
Theorem spill_counts_per_indent {E : Env} (indent : R) (self : Self E) :
  content_loaded (params self) ->
  (exists kept : list Z,
     checkspillage self = Ok (Z.of_nat (List.length kept))
     /\ NoDup kept
     /\ (forall i, In i kept <->
           (0 <= i < content_num (params self))%Z
           /\ vz (fst (getBasePositionAndOrientation E
                         (nth (Z.to_nat i) (content_id_list (params self))
                            0%nat) (phys (world self))))
              < vz (fst (obj_aabb (params self))))
     /\ (0 <= Z.of_nat (List.length kept) <= content_num (params self))%Z)
  /\ planar_angle_of 7 = 7 / 8 * 2 * PI
  /\ (bottle_fits E (params self) ->
      (0 <= indent_num (params self))%Z ->
      exists (helds : list (Self E)) (spills : list Z) self',
        bottle_pour indent self = Ok ([spills], self')
        /\ for_range (indent_num (params self))
             (pour_once indent (planar_angle_of 7))
             ([], set_bottle_list [] self)
           = Ok (spills, self')
        /\ Z.of_nat (List.length spills) = indent_num (params self)
        /\ List.length helds = List.length spills
        /\ self' = start_of (set_bottle_list [] self) helds
                     (List.length helds)
        /\ (forall j, (j < List.length helds)%nat ->
              let before := start_of (set_bottle_list [] self) helds j in
              let held := nth j helds (set_bottle_list [] self) in
              pour_steps indent (planar_angle_of 7) (Z.of_nat j) before
              = Ok held
              /\ params held = params self
              /\ checkspillage held = Ok (nth j spills 0%Z)
              /\ nth j spills 0%Z
                 = Z.of_nat (List.length
                               (spilled (params self) (phys (world held))))
              /\ (0 <= nth j spills 0 <= content_num (params self))%Z)
        /\ forall c, In c spills ->
             (0 <= c <= content_num (params self))%Z
             /\ exists ph : physics E,
                  c = Z.of_nat (List.length (spilled (params self) ph))).
Proof.
  intros Hloaded. split; [|split].
  - exists (spilled (params self) (phys (world self))).
    split; [now apply checkspillage_spec|].
    split; [apply NoDup_filter, MeasureFacts.range_NoDup|].
    split; [intros i; apply spilled_In|now apply spilled_bounds].
  - unfold planar_angle_of, pour_num. lra.
  - intros Hroom Hindent.
    destruct (pour_loop_spec indent (planar_angle_of 7)
                (set_bottle_list [] self) (indent_num (params self))
                Hroom Hloaded Hindent)
      as [helds [cs (Hrun & HL & Hall & _)]].
    cbn [params set_bottle_list] in Hrun, Hall.
    assert (Hnth : forall j, (j < List.length helds)%nat ->
              nth j (map count_in helds) 0%Z
              = Z.of_nat (List.length
                            (spilled (params self)
                               (phys (world
                                        (nth j helds
                                           (set_bottle_list [] self))))))).
    { intros j Hj.
      rewrite (nth_indep _ 0%Z (count_in (set_bottle_list [] self)))
        by now rewrite length_map.
      rewrite map_nth. unfold count_in.
      destruct (Hall j Hj) as (_ & Hp & _). now rewrite Hp. }
    exists helds, (map count_in helds),
      (start_of (set_bottle_list [] self) helds (List.length helds)).
    split.
    { unfold bottle_pour. cbn [for_each params set_bottle_list].
      rewrite Hrun. reflexivity. }
    split; [exact Hrun|].
    split; [rewrite length_map; lia|].
    split; [now rewrite length_map|].
    split; [reflexivity|].
    split.
    { intros j Hj. cbv zeta.
      destruct (Hall j Hj) as (Hstep & Hp & Hcount).
      split; [exact Hstep|]. split; [exact Hp|].
      rewrite (Hnth j Hj).
      split; [rewrite Hcount; unfold count_in; now rewrite Hp|].
      split; [reflexivity|now apply spilled_bounds]. }
    intros c Hc. apply in_map_iff in Hc. destruct Hc as [h [<- Hh]].
    apply (In_nth _ _ (set_bottle_list [] self)) in Hh.
    destruct Hh as [j [Hj <-]].
    destruct (Hall j Hj) as (_ & Hp & _).
    unfold count_in. rewrite Hp.
    split; [now apply spilled_bounds|].
    now exists (phys (world (nth j helds (set_bottle_list [] self)))).
Qed.

(** An object built by the constructor on the bench, with two indents and
    three beads: two counts, each between 0 and 3, each the count in the
    state its hold ended in. *)
Lemma spill_counts_per_indent_witness :
  exists P w (helds : list (Self DemoPour.bench)) (spills : list Z) self',
    init (E := DemoPour.bench) "bottle.urdf" "bead.urdf" "cup.urdf"
      (0, 0, 6 / 10) 2 3 (0, 0, 0) (0, 0, 0) false None None
    = Ok (P, w)
    /\ bottle_pour 0.01 (constructed P w DemoPour.blank)
       = Ok ([spills], self')
    /\ List.length spills = 2%nat
    /\ List.length helds = 2%nat
    /\ (forall j, (j < 2)%nat ->
          checkspillage
            (nth j helds (set_bottle_list [] (constructed P w DemoPour.blank)))
          = Ok (nth j spills 0%Z))
    /\ forall c, In c spills -> (0 <= c <= 3)%Z.
Proof.
  destruct bench_init as [P [w (Hinit & Hloaded & Hroom & Hn & Hc)]].
  destruct (spill_counts_per_indent 0.01 (constructed P w DemoPour.blank)
              Hloaded) as (_ & _ & Hpour).
  destruct (Hpour Hroom ltac:(cbn [constructed params]; lia))
    as (helds & spills & self' & Hrun & _ & Hlen & Hh & _ & Hall & Hin).
  cbn [constructed params] in Hlen, Hall, Hin.
  rewrite Hn in Hlen. rewrite Hc in Hin.
  assert (Hlen' : List.length spills = 2%nat) by lia.
  exists P, w, helds, spills, self'. split; [exact Hinit|].
  split; [exact Hrun|]. split; [exact Hlen'|].
  split; [lia|]. split.
  - intros j Hj. apply (Hall j). lia.
  - intros c Hcin. apply (Hin c Hcin).
Defined.

(** X28.  A whole [bottle_pour] on [n] indents: 800 steps per indent; every
    bottle it loaded is in the list of bottles at the end and has been
    removed from the engine; and as every new bottle is filtered against
    the whole list, removed bottles included, [n (n + 1) / 2] collision
    filters are set. *)
Theorem bottle_pour_trace {E : Env} (indent : R) (self : Self E) :
  bottle_fits E (params self) ->
  content_loaded (params self) ->
  (0 <= indent_num (params self))%Z ->
  exists (spills : list Z) self' cs,
    bottle_pour indent self = Ok ([spills], self')
    /\ calls (world self') = calls (world self) ++ cs
    /\ count_steps cs = (800 * Z.to_nat (indent_num (params self)))%nat
    /\ (2 * count_filters cs
        = Z.to_nat (indent_num (params self))
          * (Z.to_nat (indent_num (params self)) + 1))%nat
    /\ List.length (bottle_list self')
       = Z.to_nat (indent_num (params self))
    /\ forall b, In b (bottle_list self') -> In (RemoveBody b) cs.
Proof.
  intros Hroom Hloaded Hindent.
  destruct (pour_loop_spec indent (planar_angle_of 7)
              (set_bottle_list [] self) (indent_num (params self))
              Hroom Hloaded Hindent)
    as [helds [cs (Hrun & _ & _ & _ & Hc & HS & HF & HB & HR)]].
  cbn [params set_bottle_list bottle_list world List.length] in *.
  eexists. eexists. exists cs. split.
  { unfold bottle_pour. cbn [for_each params set_bottle_list].
    rewrite Hrun. reflexivity. }
  cbn [fst snd].
  split; [exact Hc|]. split; [exact HS|]. split; [lia|].
  split; [exact HB|].
  intros b Hb. destruct (HR b Hb) as [[]|Hrem]. exact Hrem.
Qed.

(** An object built by the constructor on the bench, two indents: 1600
    steps, three collision filters, two bottles left in the list. *)
Lemma bottle_pour_trace_witness :
  exists P w (spills : list Z) self' cs,
    init (E := DemoPour.bench) "bottle.urdf" "bead.urdf" "cup.urdf"
      (0, 0, 6 / 10) 2 3 (0, 0, 0) (0, 0, 0) false None None
    = Ok (P, w)
    /\ bottle_pour 0.01 (constructed P w DemoPour.blank)
       = Ok ([spills], self')
    /\ calls (world self') = calls w ++ cs
    /\ count_steps cs = 1600%nat
    /\ count_filters cs = 3%nat
    /\ List.length (bottle_list self') = 2%nat.
Proof.
  destruct bench_init as [P [w (Hinit & Hloaded & Hroom & Hn & _)]].
  destruct (bottle_pour_trace 0.01 (constructed P w DemoPour.blank) Hroom
              Hloaded ltac:(cbn [constructed params]; lia))
    as [spills [self' [cs (H1 & H2 & H3 & H4 & H5 & _)]]].
  cbn [constructed params world] in H2, H3, H4, H5.
  rewrite Hn in H3, H4, H5.
  exists P, w, spills, self', cs. split; [exact Hinit|].
  split; [exact H1|]. split; [exact H2|].
  split; [exact H3|]. split; [|exact H5].
  change (Z.to_nat 2) with 2%nat in H4. lia.
Defined.

End PourMore.
